(** * A2UI generate proxy and session page: a shallow embedding

    The development follows two source files of the repository:

    - [src/app/api/generate/route.ts]: the [POST] handler that validates the
      prompt, calls the A2A agent and normalises the agent's answer into
      [(messages, text)];
    - [src/app/page.tsx]: the [submit] and [reset] callbacks of the [Home]
      component (the conversation thread) and the surface selection of
      [A2UIRenderer].

    JavaScript strings are sequences of code units; here they are
    [String.string], one [ascii] per code unit, so the model covers the code
    units below 256.  Built-ins of the platform ([String.prototype.trim],
    [split], [JSON.parse], ...) are written out as executable functions. *)

From Stdlib Require Import Bool Arith ZArith List Ascii String Lia.
From Stdlib Require Import DecimalString DecimalFacts DecimalPos DecimalN DecimalZ.
Import ListNotations.
Local Open Scope string_scope.
Local Open Scope nat_scope.

(** ** String built-ins *)

Module Js.

(** [WhiteSpace] and [LineTerminator] of ECMAScript, as far as they are code
    units below 256: TAB, LF, VT, FF, CR, SPACE and NBSP.  This is the set
    that [trim], [trimEnd] and the regular-expression class [\s] use. *)
Definition is_space (c : ascii) : bool :=
  let n := nat_of_ascii c in
  ((9 <=? n) && (n <=? 13)) || (n =? 32) || (n =? 160).

(** [s.trimStart()] *)
Fixpoint trimStart (s : string) : string :=
  match s with
  | String c s' => if is_space c then trimStart s' else s
  | EmptyString => EmptyString
  end.

(** [s.trimEnd()] *)
Fixpoint trimEnd (s : string) : string :=
  match s with
  | String c s' =>
      match trimEnd s' with
      | EmptyString => if is_space c then EmptyString else String c EmptyString
      | r => String c r
      end
  | EmptyString => EmptyString
  end.

(** [s.trim()] *)
Definition trim (s : string) : string := trimEnd (trimStart s).

(** [s.startsWith(p)] *)
Fixpoint startsWith (p s : string) : bool :=
  match p, s with
  | EmptyString, _ => true
  | String a p', String b s' => Ascii.eqb a b && startsWith p' s'
  | String _ _, EmptyString => false
  end.

(** [s.includes(p)] *)
Fixpoint includes (p s : string) : bool :=
  startsWith p s ||
  match s with
  | String _ s' => includes p s'
  | EmptyString => false
  end.

(** [s.slice(n)] *)
Fixpoint drop (n : nat) (s : string) : string :=
  match n, s with
  | S k, String _ s' => drop k s'
  | _, _ => s
  end.

(** The text before and the text after the first occurrence of [sep]:
    [s.slice(0, i)] and [s.slice(i + sep.length)] for [i = s.indexOf(sep)];
    [None] when [sep] does not occur. *)
Fixpoint cut (sep s : string) : option (string * string) :=
  if startsWith sep s then Some (EmptyString, drop (String.length sep) s)
  else match s with
       | String c s' =>
           match cut sep s' with
           | Some (b, a) => Some (String c b, a)
           | None => None
           end
       | EmptyString => None
       end.

(** The text up to the first occurrence of [sep], all of it when [sep] does
    not occur. *)
Definition until (sep s : string) : string :=
  match cut sep s with
  | Some (b, _) => b
  | None => s
  end.

(** Nothing but white space. *)
Fixpoint blank (s : string) : bool :=
  match s with
  | String c s' => is_space c && blank s'
  | EmptyString => true
  end.

(** The first code unit, if there is one, is no white space. *)
Definition tight_start (s : string) : Prop :=
  match s with
  | String c _ => is_space c = false
  | EmptyString => True
  end.

(** [s.split(sep)] for a separator that is not empty.  [skip] counts the
    code units of a separator just matched that are still to be passed over,
    [cur] is the piece being collected. *)
Fixpoint split_from (sep : string) (skip : nat) (cur s : string) : list string :=
  match s with
  | EmptyString => [cur]
  | String c s' =>
      match skip with
      | S k => split_from sep k cur s'
      | O =>
          if startsWith sep s
          then cur :: split_from sep (String.length sep - 1) EmptyString s'
          else split_from sep 0 (cur ++ String c EmptyString) s'
      end
  end.

Definition split (sep s : string) : list string := split_from sep 0 EmptyString s.

(** [s.split(sep, limit)]: the pieces beyond the first [limit] are dropped. *)
Definition split_limit (sep : string) (limit : nat) (s : string) : list string :=
  firstn limit (split sep s).

(** The canonical form used by a regular expression with the [i] flag, on
    the letters the patterns of the route contain. *)
Definition fold_case (c : ascii) : ascii :=
  let n := nat_of_ascii c in
  if (65 <=? n) && (n <=? 90) then ascii_of_nat (n + 32) else c.

(** A literal matched at the start of [s] under the [i] flag; [p] is given
    in lower case. *)
Fixpoint startsWith_i (p s : string) : bool :=
  match p, s with
  | EmptyString, _ => true
  | String a p', String b s' => Ascii.eqb a (fold_case b) && startsWith_i p' s'
  | String _ _, EmptyString => false
  end.

(** [s.replace(/^lit\s*/i, '')] for a lower-case literal [lit]. *)
Definition strip_open (lit s : string) : string :=
  if startsWith_i lit s then trimStart (drop (String.length lit) s) else s.

(** A literal matched at the end of [s]: [Some r] when [s = r ++ lit'] for a
    spelling [lit'] of [lit] ([ci] tells whether case is ignored). *)
Fixpoint chop_end (ci : bool) (lit s : string) : option string :=
  if (String.length s =? String.length lit)%nat
  then (if (if ci then startsWith_i lit s else startsWith lit s)
        then Some EmptyString else None)
  else match s with
       | String c s' =>
           match chop_end ci lit s' with
           | Some r => Some (String c r)
           | None => None
           end
       | EmptyString => None
       end.

(** [s.replace(/\s*lit$/, '')], with the [i] flag when [ci] holds: the
    leftmost match starts where the white space before the final literal
    starts. *)
Definition strip_close (ci : bool) (lit s : string) : string :=
  match chop_end ci lit s with
  | Some r => trimEnd r
  | None => s
  end.

(** [a] occurs in [s] as a run of consecutive code units. *)
Definition within (a s : string) : Prop := exists x y, s = x ++ a ++ y.

(** [c] is none of the code units of [p]. *)
Fixpoint lacks (c : ascii) (p : string) : bool :=
  match p with
  | String a p' => negb (Ascii.eqb a c) && lacks c p'
  | EmptyString => true
  end.

End Js.

(** ** JSON values, [JSON.parse] and [JSON.stringify] *)

Module Json.

(** A JSON value.  A number is kept as the exact decimal [m * 10 ^ e] that
    its literal denotes (the rounding to a double is not modelled).  An
    object is kept as the list of its members in document order; a property
    read takes the last member of that name, which is the one JavaScript
    keeps. *)
#[local] Unset Elimination Schemes.
Inductive json : Type :=
| JNull
| JBool (b : bool)
| JNumber (m e : Z)
| JString (s : string)
| JArray (l : list json)
| JObject (l : list (string * json)).
#[local] Set Elimination Schemes.

(** Induction that reaches the values inside arrays and objects. *)
Fixpoint json_ind (P : json -> Prop)
    (Hnull : P JNull)
    (Hbool : forall b, P (JBool b))
    (Hnumber : forall m e, P (JNumber m e))
    (Hstring : forall s, P (JString s))
    (Harray : forall l, Forall P l -> P (JArray l))
    (Hobject : forall l, Forall (fun kv => P (snd kv)) l -> P (JObject l))
    (v : json) {struct v} : P v :=
  let rec := json_ind P Hnull Hbool Hnumber Hstring Harray Hobject in
  match v with
  | JNull => Hnull
  | JBool b => Hbool b
  | JNumber m e => Hnumber m e
  | JString s => Hstring s
  | JArray l =>
      Harray l ((fix all (l : list json) : Forall P l :=
                   match l with
                   | [] => Forall_nil P
                   | x :: t => Forall_cons x (rec x) (all t)
                   end) l)
  | JObject l =>
      Hobject l ((fix all (l : list (string * json)) : Forall (fun kv => P (snd kv)) l :=
                    match l with
                    | [] => Forall_nil _
                    | kv :: t => Forall_cons kv (rec (snd kv)) (all t)
                    end) l)
  end.

(** The double quote, code unit 34. *)
Definition dquote : ascii := ascii_of_nat 34.

(** Writes a JSON text with apostrophes where the double quotes go. *)
Fixpoint dq (s : string) : string :=
  match s with
  | String c s' => String (if Ascii.eqb c "'"%char then dquote else c) (dq s')
  | EmptyString => EmptyString
  end.

(** *** Property reads and truthiness *)

Fixpoint lookup (k : string) (l : list (string * json)) : option json :=
  match l with
  | (k', v) :: t =>
      match lookup k t with
      | Some x => Some x
      | None => if String.eqb k' k then Some v else None
      end
  | [] => None
  end.

(** [v.k] and [v?.k] on a value that is not [null]: [None] is [undefined].
    None of the names the sources read is [length] or an index, so only an
    object has the property. *)
Definition get (k : string) (v : json) : option json :=
  match v with
  | JObject l => lookup k l
  | _ => None
  end.

(** [o?.k] on a value that may be [undefined]. *)
Definition get_opt (k : string) (o : option json) : option json :=
  match o with
  | Some v => get k v
  | None => None
  end.

(** ToBoolean *)
Definition truthy (v : json) : bool :=
  match v with
  | JNull => false
  | JBool b => b
  | JNumber m _ => negb (m =? 0)%Z
  | JString s => negb (String.eqb s EmptyString)
  | JArray _ | JObject _ => true
  end.

Definition truthy_opt (o : option json) : bool :=
  match o with
  | Some v => truthy v
  | None => false
  end.

(** [a || b] on values that may be [undefined]. *)
Definition or_else (a b : option json) : option json :=
  if truthy_opt a then a else b.

(** *** [JSON.stringify] *)

Definition hex_digit (n : nat) : ascii :=
  nth n (list_ascii_of_string "0123456789abcdef") "0"%char.

(** QuoteJSONString, one code unit. *)
Definition escape_char (c : ascii) : string :=
  let n := nat_of_ascii c in
  if n =? 34 then String "\" (String dquote EmptyString)
  else if n =? 92 then "\\"
  else if n =? 8 then "\b"
  else if n =? 9 then "\t"
  else if n =? 10 then "\n"
  else if n =? 12 then "\f"
  else if n =? 13 then "\r"
  else if n <? 32
       then "\u00" ++ String (hex_digit (n / 16)) (String (hex_digit (n mod 16)) EmptyString)
       else String c EmptyString.

Fixpoint escape (s : string) : string :=
  match s with
  | String c s' => escape_char c ++ escape s'
  | EmptyString => EmptyString
  end.

Definition quote (s : string) : string :=
  String dquote (escape s ++ String dquote EmptyString).

Definition print_int (z : Z) : string :=
  (if (z <? 0)%Z then "-" else EmptyString) ++ NilEmpty.string_of_uint (N.to_uint (Z.abs_N z)).

(** A number without fraction or exponent prints as JavaScript prints it.
    Another one prints as mantissa and exponent ([5e-1] for 0.5), which
    [JSON.parse] reads as the same number but [JSON.stringify] does not
    write: for such numbers the text differs from JavaScript's in its
    digits, not in the structure around them. *)
Definition print_number (m e : Z) : string :=
  print_int m ++ (if (e =? 0)%Z then EmptyString else "e" ++ print_int e).

(** The texts of the elements with commas between them. *)
Section Join.
Context {A : Type} (f : A -> string).

Fixpoint join_with (l : list A) : string :=
  match l with
  | [] => EmptyString
  | x :: t =>
      match t with
      | [] => f x
      | _ :: _ => f x ++ "," ++ join_with t
      end
  end.

End Join.

Fixpoint stringify (v : json) : string :=
  match v with
  | JNull => "null"
  | JBool true => "true"
  | JBool false => "false"
  | JNumber m e => print_number m e
  | JString s => quote s
  | JArray l => "[" ++ join_with stringify l ++ "]"
  | JObject l =>
      "{" ++ join_with (fun kv => quote (fst kv) ++ ":" ++ stringify (snd kv)) l ++ "}"
  end.

(** The text of one member of an object. *)
Definition member_text (kv : string * json) : string :=
  quote (fst kv) ++ ":" ++ stringify (snd kv).

(** What can follow a value in a text [stringify] writes: the end, a comma
    or a closing bracket. *)
Definition ends_value (rest : string) : bool :=
  match rest with
  | EmptyString => true
  | String c _ => Ascii.eqb c ","%char || Ascii.eqb c "]"%char || Ascii.eqb c "}"%char
  end.

(** *** [JSON.parse] *)

(** JSON white space: TAB, LF, CR and SPACE. *)
Definition is_json_ws (c : ascii) : bool :=
  let n := nat_of_ascii c in
  (n =? 9) || (n =? 10) || (n =? 13) || (n =? 32).

Fixpoint skip_ws (s : string) : string :=
  match s with
  | String c s' => if is_json_ws c then skip_ws s' else s
  | EmptyString => EmptyString
  end.

Definition hex_value (c : ascii) : option nat :=
  let n := nat_of_ascii c in
  if (48 <=? n) && (n <=? 57) then Some (n - 48)
  else if (97 <=? n) && (n <=? 102) then Some (n - 87)
  else if (65 <=? n) && (n <=? 70) then Some (n - 55)
  else None.

(** The code unit of a [\u] escape with four hexadecimal digits.  Strings
    are kept as code units below 256, so an escape above [00FF] has no value
    here: [parse] gives [None] for a text that holds one, although
    [JSON.parse] reads it.  The statements about texts speak of the texts
    [parse] reads. *)
Definition hex4 (a b c d : ascii) : option ascii :=
  match hex_value a, hex_value b, hex_value c, hex_value d with
  | Some 0, Some 0, Some x, Some y => Some (ascii_of_nat (16 * x + y))
  | _, _, _, _ => None
  end.

Definition unescape (c : ascii) : option ascii :=
  let n := nat_of_ascii c in
  if n =? 34 then Some dquote
  else if n =? 92 then Some "\"%char
  else if n =? 47 then Some "/"%char
  else if n =? 98 then Some (ascii_of_nat 8)
  else if n =? 116 then Some (ascii_of_nat 9)
  else if n =? 110 then Some (ascii_of_nat 10)
  else if n =? 102 then Some (ascii_of_nat 12)
  else if n =? 114 then Some (ascii_of_nat 13)
  else None.

Definition cons_char (c : ascii) (r : option (string * string)) : option (string * string) :=
  match r with
  | Some (s, rest) => Some (String c s, rest)
  | None => None
  end.

(** The characters of a string literal after its opening quote, up to and
    including the closing quote. *)
Fixpoint parse_chars (s : string) : option (string * string) :=
  match s with
  | EmptyString => None
  | String c s1 =>
      if Ascii.eqb c dquote then Some (EmptyString, s1)
      else if Ascii.eqb c "\"%char then
        match s1 with
        | String x s2 =>
            if Ascii.eqb x "u"%char then
              match s2 with
              | String h1 (String h2 (String h3 (String h4 s3))) =>
                  match hex4 h1 h2 h3 h4 with
                  | Some u => cons_char u (parse_chars s3)
                  | None => None
                  end
              | _ => None
              end
            else
              match unescape x with
              | Some u => cons_char u (parse_chars s2)
              | None => None
              end
        | EmptyString => None
        end
      else if nat_of_ascii c <? 32 then None
      else cons_char c (parse_chars s1)
  end.

Definition digit_of (c : ascii) : option (Decimal.uint -> Decimal.uint) :=
  match nat_of_ascii c - 48 with
  | 0 => if nat_of_ascii c =? 48 then Some Decimal.D0 else None
  | 1 => Some Decimal.D1
  | 2 => Some Decimal.D2
  | 3 => Some Decimal.D3
  | 4 => Some Decimal.D4
  | 5 => Some Decimal.D5
  | 6 => Some Decimal.D6
  | 7 => Some Decimal.D7
  | 8 => Some Decimal.D8
  | 9 => Some Decimal.D9
  | _ => None
  end.

(** The first code unit, if any, is no digit. *)
Definition no_digit (s : string) : Prop :=
  match s with
  | String c _ => digit_of c = None
  | EmptyString => True
  end.

(** The code units a value written by [stringify] can start with. *)
Definition value_start (c : ascii) : bool :=
  match digit_of c with
  | Some _ => true
  | None => existsb (Ascii.eqb c) (list_ascii_of_string "ntf-[{") || Ascii.eqb c dquote
  end.

Definition number_start (c : ascii) : bool :=
  match digit_of c with
  | Some _ => true
  | None => Ascii.eqb c "-"%char
  end.

(** The longest run of decimal digits at the start of [s]. *)
Fixpoint scan_digits (s : string) : Decimal.uint * string :=
  match s with
  | String c s' =>
      match digit_of c with
      | Some D => let (d, r) := scan_digits s' in (D d, r)
      | None => (Decimal.Nil, s)
      end
  | EmptyString => (Decimal.Nil, s)
  end.

Definition is_nil (d : Decimal.uint) : bool :=
  match d with
  | Decimal.Nil => true
  | _ => false
  end.

(** No superfluous leading zero: [0] alone or a first digit that is not 0. *)
Definition int_part_ok (d : Decimal.uint) : bool :=
  match d with
  | Decimal.Nil => false
  | Decimal.D0 d' => is_nil d'
  | _ => true
  end.

Definition scan_sign (s : string) : bool * string :=
  match s with
  | String c r => if Ascii.eqb c "-"%char then (true, r) else (false, s)
  | EmptyString => (false, s)
  end.

Definition signed (neg : bool) (d : Decimal.uint) : Z :=
  let n := Z.of_N (N.of_uint d) in
  if neg then (- n)%Z else n.

(** The sign of an exponent: [+], [-] or none. *)
Definition scan_exp_sign (s : string) : bool * string :=
  match s with
  | String g r =>
      if Ascii.eqb g "+"%char then (false, r)
      else if Ascii.eqb g "-"%char then (true, r)
      else (false, s)
  | EmptyString => (false, s)
  end.

(** The exponent part [e...] of a number, with the text after it. *)
Definition scan_exponent (s : string) : option (Z * string) :=
  match s with
  | String c r =>
      if Ascii.eqb c "e"%char || Ascii.eqb c "E"%char then
        let (neg, r1) := scan_exp_sign r in
        let (d, r2) := scan_digits r1 in
        if is_nil d then None else Some (signed neg d, r2)
      else Some (0%Z, s)
  | EmptyString => Some (0%Z, s)
  end.

(** The fraction part [.ddd] of a number, with the text after it. *)
Definition scan_fraction (s : string) : option (Decimal.uint * string) :=
  match s with
  | String c r =>
      if Ascii.eqb c "."%char then
        let (d, r1) := scan_digits r in
        if is_nil d then None else Some (d, r1)
      else Some (Decimal.Nil, s)
  | EmptyString => Some (Decimal.Nil, s)
  end.

Definition parse_number (s : string) : option (json * string) :=
  let (neg, s1) := scan_sign s in
  let (ip, s2) := scan_digits s1 in
  if int_part_ok ip then
    match scan_fraction s2 with
    | Some (fp, s3) =>
        match scan_exponent s3 with
        | Some (ex, s4) =>
            Some (JNumber (signed neg (Decimal.app ip fp))
                          (ex - Z.of_nat (Decimal.nb_digits fp)), s4)
        | None => None
        end
    | None => None
    end
  else None.

Definition parse_literal (lit : string) (v : json) (s : string) : option (json * string) :=
  if Js.startsWith lit s then Some (v, Js.drop (String.length lit) s) else None.

(** Recursive descent; [fuel] bounds the nesting of calls, and the length of
    the text is always enough ([parse_value_enough] below). *)
Fixpoint parse_value (fuel : nat) (s : string) : option (json * string) :=
  match fuel with
  | O => None
  | S f =>
      match skip_ws s with
      | EmptyString => None
      | String c r =>
          if Ascii.eqb c "["%char then
            match skip_ws r with
            | String c' r' =>
                if Ascii.eqb c' "]"%char then Some (JArray [], r')
                else match parse_elements f r with
                     | Some (l, r'') => Some (JArray l, r'')
                     | None => None
                     end
            | EmptyString => None
            end
          else if Ascii.eqb c "{"%char then
            match skip_ws r with
            | String c' r' =>
                if Ascii.eqb c' "}"%char then Some (JObject [], r')
                else match parse_members f r with
                     | Some (l, r'') => Some (JObject l, r'')
                     | None => None
                     end
            | EmptyString => None
            end
          else if Ascii.eqb c dquote then
            match parse_chars r with
            | Some (str, r') => Some (JString str, r')
            | None => None
            end
          else if Ascii.eqb c "t"%char then parse_literal "true" (JBool true) (String c r)
          else if Ascii.eqb c "f"%char then parse_literal "false" (JBool false) (String c r)
          else if Ascii.eqb c "n"%char then parse_literal "null" JNull (String c r)
          else parse_number (String c r)
      end
  end
with parse_elements (fuel : nat) (s : string) : option (list json * string) :=
  match fuel with
  | O => None
  | S f =>
      match parse_value f s with
      | Some (v, r) =>
          match skip_ws r with
          | String c r' =>
              if Ascii.eqb c ","%char then
                match parse_elements f r' with
                | Some (l, r'') => Some (v :: l, r'')
                | None => None
                end
              else if Ascii.eqb c "]"%char then Some ([v], r')
              else None
          | EmptyString => None
          end
      | None => None
      end
  end
with parse_members (fuel : nat) (s : string) : option (list (string * json) * string) :=
  match fuel with
  | O => None
  | S f =>
      match skip_ws s with
      | String q r =>
          if Ascii.eqb q dquote then
            match parse_chars r with
            | Some (k, r1) =>
                match skip_ws r1 with
                | String c1 r2 =>
                    if Ascii.eqb c1 ":"%char then
                      match parse_value f r2 with
                      | Some (v, r3) =>
                          match skip_ws r3 with
                          | String c3 r4 =>
                              if Ascii.eqb c3 ","%char then
                                match parse_members f r4 with
                                | Some (l, r5) => Some ((k, v) :: l, r5)
                                | None => None
                                end
                              else if Ascii.eqb c3 "}"%char then Some ([(k, v)], r4)
                              else None
                          | EmptyString => None
                          end
                      | None => None
                      end
                    else None
                | EmptyString => None
                end
            | None => None
            end
          else None
      | EmptyString => None
      end
  end.

(** A value written by [stringify] is read back, whatever follows it. *)
Definition reads_back (v : json) : Prop :=
  forall fuel rest,
    ends_value rest = true -> String.length (stringify v) <= fuel ->
    parse_value fuel (stringify v ++ rest) = Some (v, rest).

(** With fuel [f] a parser that succeeds has read something, and as much
    fuel as it has read code units gives the same result. *)
Definition thrifty {A : Type} (parser : nat -> string -> option (A * string)) (f : nat)
  : Prop :=
  forall s v r,
    parser f s = Some (v, r) ->
    String.length r < String.length s
    /\ forall f', String.length s - String.length r <= f' -> parser f' s = Some (v, r).

(** [JSON.parse(s)]: [None] stands for the [SyntaxError] it throws. *)
Definition parse (s : string) : option json :=
  match parse_value (S (String.length s)) s with
  | Some (v, r) =>
      match skip_ws r with
      | EmptyString => Some v
      | String _ _ => None
      end
  | None => None
  end.

End Json.

(** ** [src/app/api/generate/route.ts] *)

Module Route.
Import Json.

Definition A2UI_EXTENSION_URI : string := "https://a2ui.org/a2a-extension/a2ui/v0.8".

(** The sentinel the agent puts between its prose and its JSON. *)
Definition delimiter : string := "---a2ui_JSON---".

Definition a2ui_mime : string := "application/json+a2ui".

(** What the loop reads of one part: [part.kind], [part.text],
    [part.metadata?.mimeType] and [part.data]; [None] is [undefined]. *)
Record Part : Type := mkPart {
  kind : option json;
  text : option json;
  mimeType : option json;
  data : option json
}.

(** A part as the agent's answer carries it.  Reading a property of [null]
    throws a [TypeError], which is [None] here. *)
Definition to_part (p : json) : option Part :=
  match p with
  | JNull => None
  | _ => Some {| kind := get "kind" p;
                 text := get "text" p;
                 mimeType := get_opt "mimeType" (get "metadata" p);
                 data := get "data" p |}
  end.

Definition text_part (s : string) : Part :=
  {| kind := Some (JString "text"); text := Some (JString s);
     mimeType := None; data := None |}.

(** A part with [kind === "text"] whose [text] is the string [raw]. *)
Definition is_text_part (part : Part) (raw : string) : Prop :=
  kind part = Some (JString "text") /\ text part = Some (JString raw).

Definition data_part (mime : string) (d : json) : Part :=
  {| kind := Some (JString "data"); text := None;
     mimeType := Some (JString mime); data := Some d |}.

(** [x === "lit"] *)
Definition is_string (lit : string) (x : option json) : bool :=
  match x with
  | Some (JString s) => String.eqb s lit
  | _ => false
  end.

Definition nonempty (s : string) : bool :=
  match s with
  | EmptyString => false
  | String _ _ => true
  end.

(** [jsonPart.trim().replace(/^```json\s*/i, '').replace(/\s*```$/, '').trim()] *)
Definition clean (jsonPart : string) : string :=
  Js.trim (Js.strip_close false "```" (Js.strip_open "```json" (Js.trim jsonPart))).

(** A spelling of the opening fence [```json], in any letter case. *)
Definition fence_open (tag : string) : Prop :=
  String.length tag = 7 /\ Js.startsWith_i "```json" tag = true.

(** A document that carries no fence of its own. *)
Definition unfenced (doc : string) : Prop :=
  Js.startsWith_i "```json" (Js.trim doc) = false
  /\ Js.chop_end false "```" (Js.trim doc) = None.

(** What [a2uiMessages.push] receives after [JSON.parse(cleaned)]: the
    elements of an array, any other value alone, nothing when the parse
    throws (the [catch] only logs). *)
Definition parsed_messages (cleaned : string) : list json :=
  match parse cleaned with
  | Some (JArray l) => l
  | Some v => [v]
  | None => []
  end.

(** [if (jsonPart?.trim()) { try { ... } catch (e) { ... } }] *)
Definition embedded_messages (jsonPart : option string) : list json :=
  match jsonPart with
  | Some j => if nonempty (Js.trim j) then parsed_messages (clean j) else []
  | None => []
  end.

(** The two accumulators of the handler. *)
Record Acc : Type := mkAcc {
  a2uiMessages : list json;
  textContent : string
}.

(** What [JSON.parse] is given when [jsonPart] is the text up to the next
    delimiter of [after]. *)
Definition candidate (after : string) : string := clean (Js.until delimiter after).

(** [const [before, jsonPart] = raw.split("---a2ui_JSON---", 2)] *)
Definition before_of (raw : string) : string :=
  nth 0 (Js.split_limit delimiter 2 raw) EmptyString.

Definition jsonPart_of (raw : string) : option string :=
  nth_error (Js.split_limit delimiter 2 raw) 1.

(** The first [if] of the loop body: a text part. *)
Definition collect_text (acc : Acc) (part : Part) : Acc :=
  match kind part, text part with
  | Some (JString k), Some (JString raw) =>
      if String.eqb k "text" then
        if Js.includes delimiter raw then
          {| textContent := textContent acc ++ Js.trimEnd (before_of raw);
             a2uiMessages := (a2uiMessages acc ++ embedded_messages (jsonPart_of raw))%list |}
        else
          {| textContent := textContent acc ++ raw;
             a2uiMessages := a2uiMessages acc |}
      else acc
  | _, _ => acc
  end.

(** The second [if] of the loop body: a structured A2UI data part. *)
Definition collect_data (acc : Acc) (part : Part) : Acc :=
  if is_string "data" (kind part) && is_string a2ui_mime (mimeType part)
     && truthy_opt (data part)
  then match data part with
       | Some d => {| textContent := textContent acc;
                      a2uiMessages := (a2uiMessages acc ++ [d])%list |}
       | None => acc
       end
  else acc.

(** One turn of [for (const part of parts)]. *)
Definition step (acc : Acc) (part : Part) : Acc :=
  collect_data (collect_text acc part) part.

(** [const a2uiMessages = []; let textContent = ''] *)
Definition start : Acc := {| a2uiMessages := []; textContent := EmptyString |}.

Definition collect (parts : list Part) : Acc := fold_left step parts start.

(** The messages one part adds, whatever was collected before it. *)
Definition contribution (part : Part) : list json := a2uiMessages (step start part).

(** The final fallback, after the loop. *)
Definition fallback (acc : Acc) : Acc :=
  if (List.length (a2uiMessages acc) =? 0) && Js.includes delimiter (textContent acc)
  then {| textContent := Js.trimEnd (before_of (textContent acc));
          a2uiMessages := (a2uiMessages acc
                           ++ embedded_messages (jsonPart_of (textContent acc)))%list |}
  else acc.

(** [textContent.replace(/^<text>\s*/i, '').replace(/\s*<\/text>$/i, '').trim()] *)
Definition strip_text_tag (s : string) : string :=
  Js.trim (Js.strip_close true "</text>" (Js.strip_open "<text>" s)).

(** The normaliser: everything between the choice of [parts] and the final
    [NextResponse.json]. *)
Definition normalize (parts : list Part) : Acc :=
  let acc := fallback (collect parts) in
  {| a2uiMessages := a2uiMessages acc;
     textContent := strip_text_tag (textContent acc) |}.

(** *** The handler *)

(** A value thrown: [name], [message] and [cause.code] of an [Error].  The
    wording of the messages the engine gives its own errors is not
    modelled; the constants below stand for them. *)
Record Exn : Type := mkExn {
  exn_name : string;
  exn_message : string;
  exn_cause_code : option string
}.

Definition syntax_error : Exn :=
  {| exn_name := "SyntaxError"; exn_message := "Unexpected token in JSON";
     exn_cause_code := None |}.

Definition type_error (what : string) : Exn :=
  {| exn_name := "TypeError"; exn_message := what; exn_cause_code := None |}.

(** How [fetch] settles: it rejects, or it resolves to a response with a
    status and a body. *)
Inductive FetchResult : Type :=
| Rejected (e : Exn)
| Resolved (status : nat) (body : string).

(** [response.ok] *)
Definition ok (status : nat) : bool := (200 <=? status) && (status <=? 299).

(** What the handler takes from its surroundings. *)
Record Env : Type := mkEnv {
  A2A_AGENT_URL : string;
  development : bool;            (* process.env.NODE_ENV === "development" *)
  now : Z;                       (* Date.now() *)
  random_suffix : string;        (* Math.random().toString(36).slice(2, 9) *)
  agent : string -> string -> FetchResult   (* fetch(url, { body }) *)
}.

(** [NextResponse.json(body, { status })] *)
Record Response : Type := mkResponse {
  status : nat;
  body : json
}.

(** A request made to the agent: URL and body. *)
Definition Call : Type := (string * string)%type.

Definition error_response (message : json) (code : option string) (st : nat) : Response :=
  {| status := st;
     body := JObject (("error", message)
                      :: match code with
                         | Some c => [("code", JString c)]
                         | None => []
                         end) |}.

(** The outer [catch (err)]. *)
Definition internal_error (e : Exn) : Response :=
  error_response (JString (exn_message e)) None 500.

Definition jstrings (l : list string) : json := JArray (map JString l).

Definition rpcPayload (env : Env) (prompt : string) : json :=
  let requestId := "req-" ++ print_int (now env) in
  let messageId := "msg-" ++ print_int (now env) ++ "-" ++ random_suffix env in
  JObject
    [("jsonrpc", JString "2.0");
     ("id", JString requestId);
     ("method", JString "message/send");
     ("params",
      JObject
        [("message",
          JObject
            [("messageId", JString messageId);
             ("role", JString "user");
             ("parts", JArray [JObject [("kind", JString "text");
                                        ("text", JString (Js.trim prompt))]]);
             ("extensions", jstrings [A2UI_EXTENSION_URI])]);
         ("configuration",
          JObject
            [("acceptedOutputModes", jstrings ["text"; a2ui_mime]);
             ("extensions", jstrings [A2UI_EXTENSION_URI])]);
         ("extensions", jstrings [A2UI_EXTENSION_URI])])].

(** [const { prompt } = body]: [None] when [body] is [null] and the
    destructuring throws, [Some None] when the property is [undefined]. *)
Definition destructure_prompt (reqBody : json) : option (option json) :=
  match reqBody with
  | JNull => None
  | _ => Some (get "prompt" reqBody)
  end.

(** [!prompt || typeof prompt !== "string" || !prompt.trim()]: the prompt
    when the test lets it through. *)
Definition valid_prompt (prompt : option json) : option string :=
  match prompt with
  | Some (JString p) =>
      if nonempty p && nonempty (Js.trim p) then Some p else None
  | _ => None
  end.

(** The values [for ... of] goes through: the elements of an array, the
    code units of a string; another value is not iterable. *)
Fixpoint code_units (s : string) : list json :=
  match s with
  | String c s' => JString (String c EmptyString) :: code_units s'
  | EmptyString => []
  end.

Definition iterate (v : json) : option (list json) :=
  match v with
  | JArray l => Some l
  | JString s => Some (code_units s)
  | _ => None
  end.

Fixpoint to_parts (l : list json) : option (list Part) :=
  match l with
  | [] => Some []
  | p :: t =>
      match to_part p, to_parts t with
      | Some x, Some r => Some (x :: r)
      | _, _ => None
      end
  end.

(** [resultData?.status?.message?.parts || resultData?.artifact?.parts ||
     resultData?.message?.parts || []] *)
Definition parts_of (resultData : option json) : json :=
  match or_else (get_opt "parts" (get_opt "message" (get_opt "status" resultData)))
          (or_else (get_opt "parts" (get_opt "artifact" resultData))
                   (get_opt "parts" (get_opt "message" resultData))) with
  | Some v => if truthy v then v else JArray []
  | None => JArray []
  end.

(** The body of the answer that carries the normaliser's output. *)
Definition result_body (env : Env) (rpcResult : json) (acc : Acc) : json :=
  JObject ([("messages", JArray (a2uiMessages acc));
            ("text", JString (textContent acc))]
           ++ (if development env then [("raw", rpcResult)] else []))%list.

(** The part of a handler after [rpcResult] is there, for the normaliser
    the handler has. *)
Definition respond_with (normalizer : list Part -> Acc) (env : Env) (rpcResult : json)
  : Response :=
  match rpcResult with
  | JNull => internal_error (type_error "Cannot read properties of null")
  | _ =>
      if truthy_opt (get "error" rpcResult) then
        error_response
          (match or_else (get_opt "message" (get "error" rpcResult))
                   (Some (JString "Agent error")) with
           | Some m => m
           | None => JString "Agent error"
           end) None 500
      else
        match iterate (parts_of (get "result" rpcResult)) with
        | None => internal_error (type_error "parts is not iterable")
        | Some l =>
            match to_parts l with
            | None => internal_error (type_error "Cannot read properties of null")
            | Some parts =>
                {| status := 200; body := result_body env rpcResult (normalizer parts) |}
            end
        end
  end.

Definition respond : Env -> json -> Response := respond_with normalize.

(** The answer to an agent result that carries the parts [l]. *)
Definition agent_answer (l : list json) : json :=
  JObject [("result", JObject [("message", JObject [("parts", JArray l)])])].

(** [POST(req)]: the response, and the requests made to the agent.  [req]
    is the text of the request body. *)
Definition POST (env : Env) (req : string) : Response * list Call :=
  match parse req with
  | None => (internal_error syntax_error, [])
  | Some reqBody =>
      match destructure_prompt reqBody with
      | None => (internal_error (type_error "Cannot destructure property of null"), [])
      | Some field =>
      match valid_prompt field with
      | None => (error_response (JString "prompt is required") None 400, [])
      | Some prompt =>
          let payload := stringify (rpcPayload env prompt) in
          let call := (A2A_AGENT_URL env, payload) in
          match agent env (A2A_AGENT_URL env) payload with
          | Rejected e =>
              if match exn_cause_code e with
                 | Some c => String.eqb c "ECONNREFUSED"
                 | None => false
                 end
              then (error_response
                      (JString ("Cannot reach the A2A agent at " ++ A2A_AGENT_URL env
                                ++ ". Is the Python agent running?"))
                      (Some "AGENT_UNAVAILABLE") 503, [call])
              else if String.eqb (exn_name e) "TimeoutError"
              then (error_response (JString "A2A agent timed out. Try again later.")
                      (Some "AGENT_TIMEOUT") 504, [call])
              else (internal_error e, [call])
          | Resolved st txt =>
              if negb (ok st)
              then (error_response (JString ("Agent returned " ++ print_int (Z.of_nat st)))
                      None 502, [call])
              else match parse txt with
                   | None => (internal_error syntax_error, [call])
                   | Some rpcResult => (respond env rpcResult, [call])
                   end
          end
      end
      end
  end.

(** A spelling of [<text>] and of [</text>], in any letter case. *)
Definition text_open (tag : string) : Prop :=
  String.length tag = 6 /\ Js.startsWith_i "<text>" tag = true.

Definition text_close (tag : string) : Prop :=
  String.length tag = 7 /\ Js.startsWith_i "</text>" tag = true.

(** The texts of some parts, one after the other. *)
Definition joined (raws : list string) : string := fold_right append EmptyString raws.

(** [params.message.parts] of a payload. *)
Definition sent_parts (payload : json) : option json :=
  get_opt "parts" (get_opt "message" (get "params" payload)).

(** A request the validation lets through: its body parses to a value whose
    [prompt] is the string [p], and [p] is not blank. *)
Definition asks (req : string) (p : string) : Prop :=
  exists reqBody, parse req = Some reqBody
                  /\ get "prompt" reqBody = Some (JString p)
                  /\ nonempty (Js.trim p) = true.

End Route.

(** ** The generate route that forwards the thread ([src/unnamed/part_002]) *)

Module HistoryRoute.
Import Json Route.

(** [history || []] *)
Definition history_or_empty (history : option json) : json :=
  match or_else history (Some (JArray [])) with
  | Some h => h
  | None => JArray []
  end.

Definition rpcPayload (env : Env) (prompt : string) (history : option json) : json :=
  let requestId := "req-" ++ print_int (now env) in
  let messageId := "msg-" ++ print_int (now env) ++ "-" ++ random_suffix env in
  JObject
    [("jsonrpc", JString "2.0");
     ("id", JString requestId);
     ("method", JString "message/send");
     ("params",
      JObject
        [("message",
          JObject
            [("messageId", JString messageId);
             ("role", JString "user");
             ("parts", JArray [JObject [("kind", JString "text");
                                        ("text", JString (Js.trim prompt))]]);
             ("extensions", jstrings [A2UI_EXTENSION_URI]);
             ("metadata",
              JObject [("conversationHistory", history_or_empty history)])]);
         ("configuration",
          JObject
            [("acceptedOutputModes", jstrings ["text"; a2ui_mime]);
             ("extensions", jstrings [A2UI_EXTENSION_URI])]);
         ("extensions", jstrings [A2UI_EXTENSION_URI])])].

(** [params.message.metadata.conversationHistory] of a payload. *)
Definition conversationHistory (payload : json) : option json :=
  get_opt "conversationHistory"
    (get_opt "metadata" (get_opt "message" (get "params" payload))).

(** One turn of the loop: a data part is pushed and the loop goes on
    ([continue]); another part is looked at as text. *)
Definition step (acc : Acc) (part : Part) : Acc :=
  if is_string "data" (kind part) && is_string a2ui_mime (mimeType part)
     && truthy_opt (data part)
  then match data part with
       | Some d => {| textContent := textContent acc;
                      a2uiMessages := (a2uiMessages acc ++ [d])%list |}
       | None => acc
       end
  else collect_text acc part.

(** This handler has no fallback after the loop. *)
Definition normalize (parts : list Part) : Acc :=
  let acc := fold_left step parts start in
  {| a2uiMessages := a2uiMessages acc;
     textContent := strip_text_tag (textContent acc) |}.

Definition POST (env : Env) (req : string) : Response * list Call :=
  match parse req with
  | None => (internal_error syntax_error, [])
  | Some reqBody =>
      match destructure_prompt reqBody with
      | None => (internal_error (type_error "Cannot destructure property of null"), [])
      | Some field =>
      match valid_prompt field with
      | None => (error_response (JString "prompt is required") None 400, [])
      | Some prompt =>
          let payload := stringify (rpcPayload env prompt (get "history" reqBody)) in
          let call := (A2A_AGENT_URL env, payload) in
          match agent env (A2A_AGENT_URL env) payload with
          | Rejected e =>
              if match exn_cause_code e with
                 | Some c => String.eqb c "ECONNREFUSED"
                 | None => false
                 end
              then (error_response
                      (JString ("Cannot reach the A2A agent at " ++ A2A_AGENT_URL env
                                ++ ". Is the Python agent running?"))
                      None 503, [call])
              else if String.eqb (exn_name e) "TimeoutError"
              then (error_response (JString "A2A agent timed out.") None 504, [call])
              else (internal_error e, [call])
          | Resolved st txt =>
              if negb (ok st)
              then (error_response (JString ("Agent returned " ++ print_int (Z.of_nat st)))
                      None 502, [call])
              else match parse txt with
                   | None => (internal_error syntax_error, [call])
                   | Some rpcResult => (respond_with normalize env rpcResult, [call])
                   end
          end
      end
      end
  end.

End HistoryRoute.

(** ** [src/app/page.tsx] *)

Module Page.
Import Json.

Inductive AppState : Type := idle | thinking | rendered | error.

Inductive Role : Type := user | assistant.

Record HistoryTurn : Type := mkTurn {
  role : Role;
  content : string
}.

(** The state of [Home] that [submit] and [reset] read and set. *)
Record State : Type := mkState {
  input : string;
  state : AppState;
  a2uiMessages : json;
  lastPrompt : string;
  errorMsg : string;
  history : list HistoryTurn
}.

Definition initial : State :=
  {| input := EmptyString; state := idle; a2uiMessages := JArray [];
     lastPrompt := EmptyString; errorMsg := EmptyString; history := [] |}.

Definition is_thinking (s : AppState) : bool :=
  match s with
  | thinking => true
  | _ => false
  end.

(** ToString, for a value put into a template literal or given to
    [new Error]; a number is written as [print_number] writes it. *)
Fixpoint to_string (v : json) : string :=
  match v with
  | JNull => "null"
  | JBool true => "true"
  | JBool false => "false"
  | JNumber m e => print_number m e
  | JString s => s
  | JArray l =>
      (fix join (l : list json) : string :=
         match l with
         | [] => EmptyString
         | [x] => match x with JNull => EmptyString | _ => to_string x end
         | x :: t => match x with JNull => EmptyString | _ => to_string x end ++ "," ++ join t
         end) l
  | JObject _ => "[object Object]"
  end.

Definition turn_json (t : HistoryTurn) : json :=
  JObject [("role", JString match role t with user => "user" | assistant => "assistant" end);
           ("content", JString (content t))].

(** [JSON.stringify({ prompt: trimmed, history: historyToSend })] *)
Definition request_json (trimmed : string) (historyToSend : list HistoryTurn) : json :=
  JObject [("prompt", JString trimmed); ("history", JArray (map turn_json historyToSend))].

Definition request_body (trimmed : string) (historyToSend : list HistoryTurn) : string :=
  stringify (request_json trimmed historyToSend).

(** The message of the error thrown when the answer holds no message; its
    dash is U+2014, written here in UTF-8. *)
Definition no_ui_message : string :=
  "Claude generated no UI "
  ++ String (ascii_of_nat 226) (String (ascii_of_nat 128) (String (ascii_of_nat 148)
       " try rephrasing")).

(** [!data.messages || data.messages.length === 0] *)
Definition no_messages (messages : option json) : bool :=
  negb (truthy_opt messages)
  || match messages with
     | Some (JArray []) => true
     | Some (JObject o) => match lookup "length" o with
                           | Some (JNumber 0 _) => true
                           | _ => false
                           end
     | _ => false
     end.

(** How the [try] block ends: with the data of a turn, or with the message
    of the error that reaches [catch]. *)
Inductive Outcome : Type :=
| Produced (messages : json) (text : option json)
| Failed (message : string).

Definition outcome (r : Route.FetchResult) : Outcome :=
  match r with
  | Route.Rejected e => Failed (Route.exn_message e)
  | Route.Resolved st txt =>
      if negb (Route.ok st) then Failed ("Server error: " ++ print_int (Z.of_nat st))
      else
        match parse txt with
        | None => Failed (Route.exn_message Route.syntax_error)
        | Some JNull => Failed "Cannot read properties of null"
        | Some data =>
            if truthy_opt (get "error" data)
            then Failed (match get "error" data with
                         | Some e => to_string e
                         | None => EmptyString
                         end)
            else if no_messages (get "messages" data) then Failed no_ui_message
            else match get "messages" data with
                 | Some m => Produced m (get "text" data)
                 | None => Failed no_ui_message
                 end
        end
  end.

(** [data.text ? `${data.text}\n---a2ui_JSON---\n${JSON.stringify(data.messages)}`
              : JSON.stringify(data.messages)] *)
Definition assistantContent (messages : json) (text : option json) : string :=
  match text with
  | Some t =>
      if truthy t
      then to_string t ++ String (ascii_of_nat 10) Route.delimiter
           ++ String (ascii_of_nat 10) (stringify messages)
      else stringify messages
  | None => stringify messages
  end.

Definition historyToSend (isRefinement : bool) (st : State) : list HistoryTurn :=
  if isRefinement then history st else [].

(** [submit], up to the [await fetch]: [None] when the call returns at
    once. *)
Definition submit_start (st : State) (prompt : string) (isRefinement : bool) : option State :=
  let trimmed := Js.trim prompt in
  if negb (Route.nonempty trimmed) || is_thinking (state st) then None
  else
    Some {| input := EmptyString;
            state := thinking;
            a2uiMessages := if isRefinement then a2uiMessages st else JArray [];
            lastPrompt := trimmed;
            errorMsg := EmptyString;
            history := if isRefinement then history st else [] |}.

(** [submit], from the settled [fetch] on.  [sent] is [historyToSend]. *)
Definition submit_finish (st : State) (trimmed : string) (sent : list HistoryTurn)
    (r : Route.FetchResult) : State :=
  match outcome r with
  | Produced messages text =>
      {| input := input st;
         state := rendered;
         a2uiMessages := messages;
         lastPrompt := lastPrompt st;
         errorMsg := errorMsg st;
         history := (sent ++ [ {| role := user; content := trimmed |};
                               {| role := assistant;
                                  content := assistantContent messages text |} ])%list |}
  | Failed message =>
      {| input := input st;
         state := error;
         a2uiMessages := a2uiMessages st;
         lastPrompt := lastPrompt st;
         errorMsg := message;
         history := history st |}
  end.

(** [submit(prompt, isRefinement)], with [server] for the endpoint
    [/api/generate]: it maps the body of the request to the way [fetch]
    settles. *)
Definition submit (server : string -> Route.FetchResult) (st : State)
    (prompt : string) (isRefinement : bool) : State :=
  match submit_start st prompt isRefinement with
  | None => st
  | Some st1 =>
      let trimmed := Js.trim prompt in
      let sent := historyToSend isRefinement st in
      submit_finish st1 trimmed sent (server (request_body trimmed sent))
  end.

Definition reset (st : State) : State :=
  {| input := EmptyString; state := idle; a2uiMessages := JArray [];
     lastPrompt := lastPrompt st; errorMsg := EmptyString; history := [] |}.

(** What the user can do, by the handlers the JSX installs: type into the
    text area, submit a prompt for a new UI (text area, arrow button and
    prompt chips of the idle screen), submit a refinement (refine bar of the
    rendered screen), and press [New UI] or [Try again], which both call
    [reset]. *)
Inductive Event : Type :=
| Typing (value : string)
| Generate (prompt : string)
| Refine (prompt : string)
| PressReset.

(** The prompt an event submits, and whether as a refinement. *)
Definition turn_of (e : Event) : option (string * bool) :=
  match e with
  | Generate p => Some (p, false)
  | Refine p => Some (p, true)
  | _ => None
  end.

(** The screen that carries the control, as the JSX shows it. *)
Definition offered (st : State) (e : Event) : bool :=
  match e, state st with
  | Typing _, idle => true
  | Generate _, idle => true
  | Refine _, rendered => true
  | PressReset, rendered => true
  | PressReset, error => true
  | _, _ => false
  end.

Definition setInput (value : string) (st : State) : State :=
  {| input := value; state := state st; a2uiMessages := a2uiMessages st;
     lastPrompt := lastPrompt st; errorMsg := errorMsg st; history := history st |}.

(** One event, with the way the endpoint answers if it is asked. *)
Definition handle (server : string -> Route.FetchResult) (st : State) (e : Event) : State :=
  if offered st e then
    match e with
    | Typing v => setInput v st
    | Generate p => submit server st p false
    | Refine p => submit server st p true
    | PressReset => reset st
    end
  else st.

(** The states a session goes through. *)
Inductive reachable : State -> Prop :=
| reach_initial : reachable initial
| reach_handle (server : string -> Route.FetchResult) (st : State) (e : Event) :
    reachable st -> reachable (handle server st e).

(** What holds of every state of a session: the thread is made of pairs,
    and on the idle screen there is neither thread nor message. *)
Definition Inv (st : State) : Prop :=
  Nat.Even (List.length (history st))
  /\ (state st = idle -> history st = [] /\ a2uiMessages st = JArray []).

(** The two turns a successful submission adds. *)
Definition pair_of (trimmed : string) (messages : json) (text : option json)
  : list HistoryTurn :=
  [ {| role := user; content := trimmed |};
    {| role := assistant; content := assistantContent messages text |} ].

(** A thread made of pairs: a user turn with a trimmed prompt that is not
    empty, then an assistant turn whose content [submit] has built from
    messages that are there. *)
Fixpoint paired (h : list HistoryTurn) : Prop :=
  match h with
  | [] => True
  | u :: a :: rest =>
      role u = user
      /\ Route.nonempty (content u) = true
      /\ Js.trim (content u) = content u
      /\ role a = assistant
      /\ (exists messages text,
            content a = assistantContent messages text
            /\ no_messages (Some messages) = false)
      /\ paired rest
  | _ :: [] => False
  end.

(** The endpoint as [fetch] sees it when the route answers. *)
Definition served_by (env : Route.Env) : string -> Route.FetchResult :=
  fun req =>
    let r := fst (Route.POST env req) in
    Route.Resolved (Route.status r) (stringify (Route.body r)).

(** *** [A2UIRenderer] *)

(** [messages.find((m) => "beginRendering" in m)]: [None] when the [in]
    operator throws on a value that is not an object. *)
Fixpoint find_begin (messages : list json) : option (option json) :=
  match messages with
  | [] => Some None
  | m :: t =>
      match m with
      | JObject o =>
          match lookup "beginRendering" o with
          | Some _ => Some (Some m)
          | None => find_begin t
          end
      | JArray _ => find_begin t
      | _ => None
      end
  end.

(** The surface [init] hands to the [a2ui-surface] element, if it gets that
    far.  The processor belongs to the rendering library and is no part of
    the sources, so it is a parameter: [process messages key] stands for
    [processor.processMessages(messages)] on a new processor followed by
    [processor.getSurfaces().get(key)].  Its [None] is the [undefined] that
    [get] gives for a key it does not hold; a [processMessages] that throws
    ends [init] in its [catch] with nothing mounted, like a surface that is
    missing.  [surfaceId] goes to [get] as it is read, whatever its type,
    and [None] is the key [undefined]. *)
Definition rendered_surface_with {S : Type}
    (process : list json -> option json -> option S) (messages : json) : option S :=
  match messages with
  | JArray l =>
      match l with
      | [] => None
      | _ :: _ =>
          match find_begin l with
          | Some (Some beginMsg) =>
              if truthy_opt (get "beginRendering" beginMsg)
              then process l (get_opt "surfaceId" (get "beginRendering" beginMsg))
              else None
          | _ => None
          end
      end
  | _ => None
  end.

End Page.

(** ** The earlier generate route ([src/unnamed/part_001]) *)

Module LegacyRoute.
Import Json Route.

Definition rpcPayload (env : Env) (prompt : string) : json :=
  let requestId := "req-" ++ print_int (now env) in
  let messageId := "msg-" ++ print_int (now env) ++ "-" ++ random_suffix env in
  JObject
    [("jsonrpc", JString "2.0");
     ("id", JString requestId);
     ("method", JString "message/send");
     ("params",
      JObject
        [("message",
          JObject
            [("messageId", JString messageId);
             ("role", JString "user");
             ("parts", JArray [JObject [("kind", JString "text");
                                        ("text", JString (Js.trim prompt))]]);
             ("extensions", jstrings [A2UI_EXTENSION_URI])]);
         ("configuration",
          JObject [("acceptedOutputModes", jstrings ["text"; a2ui_mime])])])].

(** [part.text || ''], as the string that [+=] appends. *)
Definition text_of (part : Part) : string :=
  match text part with
  | Some t => if truthy t then Page.to_string t else EmptyString
  | None => EmptyString
  end.

(** [if (part.kind === "text" || part.text) textContent += part.text || ''] *)
Definition collect_text (acc : Acc) (part : Part) : Acc :=
  if is_string "text" (kind part) || truthy_opt (text part)
  then {| a2uiMessages := a2uiMessages acc;
          textContent := textContent acc ++ text_of part |}
  else acc.

Definition step (acc : Acc) (part : Part) : Acc :=
  collect_data (collect_text acc part) part.

Definition collect (parts : list Part) : Acc := fold_left step parts start.

(** The fallback of this handler parses the JSON out of the collected text
    and leaves the text as it is. *)
Definition fallback (acc : Acc) : Acc :=
  if (List.length (a2uiMessages acc) =? 0) && Js.includes delimiter (textContent acc)
  then {| a2uiMessages := (a2uiMessages acc
                           ++ embedded_messages (jsonPart_of (textContent acc)))%list;
          textContent := textContent acc |}
  else acc.

Definition normalize (parts : list Part) : Acc := fallback (collect parts).

(** [fetch] is not wrapped here: a rejection reaches the outer [catch]. *)
Definition POST (env : Env) (req : string) : Response * list Call :=
  match parse req with
  | None => (internal_error syntax_error, [])
  | Some reqBody =>
      match destructure_prompt reqBody with
      | None => (internal_error (type_error "Cannot destructure property of null"), [])
      | Some field =>
      match valid_prompt field with
      | None => (error_response (JString "prompt is required") None 400, [])
      | Some prompt =>
          let payload := stringify (rpcPayload env prompt) in
          let call := (A2A_AGENT_URL env, payload) in
          match agent env (A2A_AGENT_URL env) payload with
          | Rejected e => (internal_error e, [call])
          | Resolved st txt =>
              if negb (ok st)
              then (error_response (JString ("Agent returned " ++ print_int (Z.of_nat st)))
                      None 502, [call])
              else match parse txt with
                   | None => (internal_error syntax_error, [call])
                   | Some rpcResult => (respond_with normalize env rpcResult, [call])
                   end
          end
      end
      end
  end.

End LegacyRoute.

(** ** Sample inputs *)

Module Sample.
Import Json Route.

Definition nl : string := String (ascii_of_nat 10) EmptyString.

(** The answer of the specification's boundary example. *)
Definition begin_s1 : string := dq "[{'beginRendering':{'surfaceId':'s1','root':'r1'}}]".

Definition begin_s1_message : json :=
  JObject [("beginRendering", JObject [("surfaceId", JString "s1"); ("root", JString "r1")])].

Definition here_begin : string := "Here." ++ nl ++ delimiter ++ nl ++ begin_s1.

(** The same document between fences with the [json] tag, and between bare
    fences. *)
Definition here_json_fence : string :=
  "Here." ++ nl ++ delimiter ++ nl ++ "```json" ++ nl ++ begin_s1 ++ nl ++ "```".

Definition here_bare_fence : string :=
  "Here." ++ nl ++ delimiter ++ nl ++ "```" ++ nl ++ begin_s1 ++ nl ++ "```".

(** A text with the delimiter twice. *)
Definition twice : string := "a---a2ui_JSON---[1]---a2ui_JSON---x".

(** A text whose JSON is cut short. *)
Definition truncated : string := "Here." ++ nl ++ delimiter ++ nl ++ "[{".

(** Three parts that hold the delimiter only once they are put together,
    and then twice. *)
Definition scattered : list Part :=
  [text_part "---a2ui_"; text_part "JSON---[1]---a2ui_"; text_part "JSON---"].

(** A handler environment with an agent that answers [answer]. *)
Definition env_with (answer : FetchResult) : Env :=
  {| A2A_AGENT_URL := "http://localhost:10002"; development := false;
     now := 1700000000000%Z; random_suffix := "k3j9x2a";
     agent := fun _ _ => answer |}.

(** An agent answer with one text part and no message. *)
Definition prose_only : string :=
  dq "{'result':{'message':{'parts':[{'kind':'text','text':'I can help with that.'}]}}}".

(** An agent answer with one structured message and no text. *)
Definition data_only : string :=
  dq "{'result':{'message':{'parts':[{'kind':'data','metadata':{'mimeType':'application/json+a2ui'},'data':{'beginRendering':{'surfaceId':'s1','root':'r1'}}}]}}}".

(** A session with one surface on screen. *)
Definition one_turn : Page.State :=
  Page.handle (Page.served_by (env_with (Resolved 200 data_only))) Page.initial
    (Page.Generate "Build a contact form").

(** A connection refused, and an expired time limit. *)
Definition refused : Exn :=
  {| exn_name := "TypeError"; exn_message := "fetch failed";
     exn_cause_code := Some "ECONNREFUSED" |}.

Definition timed_out : Exn :=
  {| exn_name := "TimeoutError";
     exn_message := "The operation was aborted due to timeout";
     exn_cause_code := None |}.


(** A processor for the examples.  Under a key that is a string it holds
    the [beginRendering] object of the last message that names the key as
    its [surfaceId]: a later message of the same id replaces an earlier
    one. *)
Fixpoint last_begin (messages : list json) (key : option json) : option json :=
  match messages with
  | [] => None
  | m :: t =>
      match last_begin t key with
      | Some s => Some s
      | None =>
          match key, get "beginRendering" m with
          | Some (JString k), Some b =>
              if is_string k (get "surfaceId" b) then Some b else None
          | _, _ => None
          end
      end
  end.

End Sample.

(** * Properties *)

(** ** Strings *)

Section StringFacts.

Lemma sapp_nil_r (s : string) : s ++ EmptyString = s.
Proof. induction s as [|c s IH]; simpl; [reflexivity | now rewrite IH]. Qed.

Lemma sapp_assoc (a b c : string) : (a ++ b) ++ c = a ++ (b ++ c).
Proof. induction a as [|x a IH]; simpl; [reflexivity | now rewrite IH]. Qed.

Lemma slength_app (a b : string) :
  String.length (a ++ b) = String.length a + String.length b.
Proof. induction a as [|x a IH]; simpl; [reflexivity | now rewrite IH]. Qed.

Lemma startsWith_app (p s : string) : Js.startsWith p (p ++ s) = true.
Proof.
  induction p as [|c p IH]; simpl; [reflexivity |].
  now rewrite Ascii.eqb_refl, IH.
Qed.

Lemma startsWith_inv (p s : string) :
  Js.startsWith p s = true -> exists r, s = p ++ r.
Proof.
  revert s; induction p as [|c p IH]; intros s H.
  - now exists s.
  - destruct s as [|d s]; simpl in H; [discriminate |].
    apply andb_true_iff in H as [Hc Hp].
    apply Ascii.eqb_eq in Hc; subst d.
    destruct (IH s Hp) as [r ->]. now exists r.
Qed.

Lemma drop_app (p s : string) : Js.drop (String.length p) (p ++ s) = s.
Proof.
  induction p as [|c p IH]; simpl; [now destruct s | exact IH].
Qed.

Lemma drop_empty (n : nat) : Js.drop n EmptyString = EmptyString.
Proof. now destruct n. Qed.

(** *** [cut] is the decomposition at the first occurrence *)

Lemma cut_sound (sep s b a : string) :
  Js.cut sep s = Some (b, a) -> s = b ++ sep ++ a.
Proof.
  revert b a; induction s as [|c s IH]; intros b a H; simpl in H.
  - destruct (Js.startsWith sep EmptyString) eqn:E; [| discriminate].
    injection H as <- <-. destruct sep; [reflexivity | discriminate].
  - destruct (Js.startsWith sep (String c s)) eqn:E.
    + injection H as <- <-.
      destruct (startsWith_inv _ _ E) as [r Hr]. rewrite Hr.
      now rewrite drop_app.
    + destruct (Js.cut sep s) as [[b' a']|]; [| discriminate].
      injection H as <- <-. simpl. now rewrite (IH b' a' eq_refl).
Qed.

Lemma cut_includes (sep s : string) :
  Js.includes sep s = match Js.cut sep s with Some _ => true | None => false end.
Proof.
  induction s as [|c s IH].
  - simpl. destruct (Js.startsWith sep EmptyString); reflexivity.
  - cbn [Js.includes Js.cut].
    destruct (Js.startsWith sep (String c s)); [reflexivity |].
    rewrite IH. simpl. destruct (Js.cut sep s) as [[? ?]|]; reflexivity.
Qed.

(** No occurrence starts earlier than the one [cut] finds. *)
Lemma cut_first (sep s b a b' a' : string) :
  Js.cut sep s = Some (b, a) -> s = b' ++ sep ++ a' ->
  String.length b <= String.length b'.
Proof.
  revert b a b'; induction s as [|c s IH]; intros b a b' H E; simpl in H.
  - destruct (Js.startsWith sep EmptyString); [| discriminate].
    injection H as <- <-. simpl. lia.
  - destruct (Js.startsWith sep (String c s)) eqn:S1.
    + injection H as <- <-. simpl. lia.
    + destruct (Js.cut sep s) as [[b1 a1]|] eqn:C; [| discriminate].
      injection H as <- <-.
      destruct b' as [|d b'].
      * simpl in E. rewrite E, startsWith_app in S1. discriminate.
      * simpl in E. injection E as -> E. simpl.
        apply le_n_S. now apply (IH b1 a1 b').
Qed.

(** *** [split] through [cut] *)

Lemma split_from_skip (sep : string) (k : nat) (cur s : string) :
  Js.split_from sep k cur s = Js.split_from sep 0 cur (Js.drop k s).
Proof.
  revert k; induction s as [|c s IH]; intros k.
  - now rewrite drop_empty.
  - destruct k as [|k]; [reflexivity |]. simpl. apply IH.
Qed.

Lemma split_from_cut (sep cur s : string) :
  sep <> EmptyString ->
  Js.split_from sep 0 cur s =
  match Js.cut sep s with
  | Some (b, a) => (cur ++ b) :: Js.split_from sep 0 EmptyString a
  | None => [cur ++ s]
  end.
Proof.
  intros Hsep. revert cur; induction s as [|c s IH]; intros cur.
  - simpl. destruct sep as [|x sep]; [congruence |]. simpl.
    now rewrite sapp_nil_r.
  - cbn [Js.split_from Js.cut].
    destruct (Js.startsWith sep (String c s)) eqn:E.
    + rewrite sapp_nil_r, split_from_skip.
      destruct sep as [|x sep]; [congruence |].
      simpl. now rewrite Nat.sub_0_r.
    + rewrite IH.
      destruct (Js.cut sep s) as [[b a]|]; rewrite sapp_assoc; reflexivity.
Qed.

Lemma split_cut (sep s : string) :
  sep <> EmptyString ->
  Js.split sep s =
  match Js.cut sep s with
  | Some (b, a) => b :: Js.split sep a
  | None => [s]
  end.
Proof.
  intros H. unfold Js.split. rewrite split_from_cut by exact H.
  destruct (Js.cut sep s) as [[b a]|]; reflexivity.
Qed.

(** [const [before, jsonPart] = s.split(sep, 2)]: the text before the first
    occurrence, and the text between the first and the second. *)
Lemma split_limit_2 (sep s b a : string) :
  sep <> EmptyString ->
  Js.cut sep s = Some (b, a) ->
  Js.split_limit sep 2 s = [b; Js.until sep a].
Proof.
  intros Hsep H. unfold Js.split_limit, Js.until.
  rewrite split_cut, H by exact Hsep.
  rewrite (split_cut sep a) by exact Hsep.
  destruct (Js.cut sep a) as [[b2 a2]|]; reflexivity.
Qed.

Lemma until_absent (sep s : string) :
  Js.includes sep s = false -> Js.until sep s = s.
Proof.
  intros H. unfold Js.until. rewrite cut_includes in H.
  destruct (Js.cut sep s) as [[? ?]|]; [discriminate | reflexivity].
Qed.

(** *** Trimming *)

Lemma trimEnd_blank (w : string) : Js.blank w = true -> Js.trimEnd w = EmptyString.
Proof.
  induction w as [|c w IH]; simpl; [reflexivity |].
  intros H. apply andb_true_iff in H as [Hc Hw].
  now rewrite (IH Hw), Hc.
Qed.

Lemma trimEnd_app_blank (s w : string) :
  Js.blank w = true -> Js.trimEnd (s ++ w) = Js.trimEnd s.
Proof.
  intros Hw. induction s as [|c s IH]; simpl.
  - now apply trimEnd_blank.
  - now rewrite IH.
Qed.

Lemma trimEnd_app_keep (s z : string) :
  Js.trimEnd z <> EmptyString -> Js.trimEnd (s ++ z) = s ++ Js.trimEnd z.
Proof.
  intros Hz. induction s as [|c s IH]; simpl; [reflexivity |].
  rewrite IH. destruct (s ++ Js.trimEnd z) eqn:E; [| reflexivity].
  destruct s; simpl in E; [contradiction | discriminate].
Qed.

Lemma trimEnd_last (s : string) (c : ascii) :
  Js.is_space c = false ->
  Js.trimEnd (s ++ String c EmptyString) = s ++ String c EmptyString.
Proof.
  intros Hc.
  assert (H : Js.trimEnd (String c EmptyString) = String c EmptyString)
    by (simpl; now rewrite Hc).
  rewrite trimEnd_app_keep; rewrite H; [reflexivity | discriminate].
Qed.

Lemma trimEnd_idem (s : string) : Js.trimEnd (Js.trimEnd s) = Js.trimEnd s.
Proof.
  induction s as [|c s IH]; simpl; [reflexivity |].
  destruct (Js.trimEnd s) as [|d r] eqn:E.
  - destruct (Js.is_space c) eqn:Hc; simpl; [reflexivity | now rewrite Hc].
  - change (Js.trimEnd (String c (String d r)))
      with (match Js.trimEnd (String d r) with
            | EmptyString => if Js.is_space c then EmptyString else String c EmptyString
            | x => String c x
            end).
    rewrite IH. reflexivity.
Qed.

Lemma trimStart_blank (w s : string) :
  Js.blank w = true -> Js.trimStart (w ++ s) = Js.trimStart s.
Proof.
  induction w as [|c w IH]; simpl; [reflexivity |].
  intros H. apply andb_true_iff in H as [Hc Hw]. now rewrite Hc, IH.
Qed.

Lemma trimStart_tight (s : string) : Js.tight_start (Js.trimStart s).
Proof.
  induction s as [|c s IH]; simpl; [exact I |].
  destruct (Js.is_space c) eqn:Hc; [exact IH | exact Hc].
Qed.

Lemma trimStart_id (s : string) : Js.tight_start s -> Js.trimStart s = s.
Proof. destruct s as [|c s]; simpl; [reflexivity | now intros ->]. Qed.

Lemma trimEnd_tight (s : string) : Js.tight_start s -> Js.tight_start (Js.trimEnd s).
Proof.
  destruct s as [|c s]; simpl; [trivial |]. intros Hc.
  destruct (Js.trimEnd s); [rewrite Hc |]; exact Hc.
Qed.

Lemma trim_tight (s : string) : Js.tight_start (Js.trim s).
Proof. apply trimEnd_tight, trimStart_tight. Qed.

Lemma trim_idem (s : string) : Js.trim (Js.trim s) = Js.trim s.
Proof.
  unfold Js.trim at 1. rewrite (trimStart_id _ (trim_tight s)).
  unfold Js.trim. apply trimEnd_idem.
Qed.

Lemma trim_empty : Js.trim EmptyString = EmptyString.
Proof. reflexivity. Qed.

(** White space after the text does not change what [trim] gives. *)
Lemma trim_app_blank (s w : string) :
  Js.blank w = true -> Js.trim (s ++ w) = Js.trim s.
Proof.
  intros Hw. unfold Js.trim. induction s as [|c s IH].
  - simpl. rewrite <- (sapp_nil_r w), trimStart_blank by exact Hw. reflexivity.
  - simpl. destruct (Js.is_space c); [exact IH |].
    now rewrite <- (trimEnd_app_blank (String c s) w Hw).
Qed.

Lemma trim_blank_app (w s : string) :
  Js.blank w = true -> Js.trim (w ++ s) = Js.trim s.
Proof. intros Hw. unfold Js.trim. now rewrite trimStart_blank. Qed.

(** Before a text that starts with no white space, [trimStart] works on
    the front alone. *)
Lemma trimStart_app_tight (w z : string) (c : ascii) :
  Js.is_space c = false ->
  Js.trimStart (w ++ String c z) = Js.trimStart w ++ String c z.
Proof.
  intros Hc. induction w as [|d w IH]; simpl.
  - now rewrite Hc.
  - destruct (Js.is_space d); [exact IH | reflexivity].
Qed.

(** *** The literals at the two ends *)

Lemma startsWith_i_app (lit tag s : string) :
  String.length tag = String.length lit ->
  Js.startsWith_i lit tag = true ->
  Js.startsWith_i lit (tag ++ s) = true.
Proof.
  revert tag; induction lit as [|a lit IH]; intros tag Hl H; [reflexivity |].
  destruct tag as [|b tag]; [discriminate |]. simpl in *.
  apply andb_true_iff in H as [H1 H2]. rewrite H1. simpl.
  apply IH; [lia | exact H2].
Qed.

Lemma chop_end_app (ci : bool) (lit r tail : string) :
  String.length tail = String.length lit ->
  (if ci then Js.startsWith_i lit tail else Js.startsWith lit tail) = true ->
  Js.chop_end ci lit (r ++ tail) = Some r.
Proof.
  intros Hl Hm. induction r as [|c r IH].
  - simpl. destruct tail as [|d tail].
    + simpl. rewrite <- Hl. simpl. simpl in Hm. now rewrite Hm.
    + cbn [Js.chop_end]. rewrite Hl, Nat.eqb_refl. now rewrite Hm.
  - cbn [append Js.chop_end].
    replace (String.length (String c (r ++ tail)) =? String.length lit) with false.
    + now rewrite IH.
    + symmetry. apply Nat.eqb_neq. simpl. rewrite slength_app. lia.
Qed.


Lemma includes_startsWith (p s : string) :
  Js.startsWith p s = true -> Js.includes p s = true.
Proof. intros H. destruct s; simpl; now rewrite H. Qed.

Lemma includes_intro (p x y : string) : Js.includes p (x ++ p ++ y) = true.
Proof.
  induction x as [|c x IH]; cbn [append].
  - apply includes_startsWith, startsWith_app.
  - cbn [Js.includes]. rewrite IH. apply orb_true_r.
Qed.

Lemma includes_elim (p s : string) :
  Js.includes p s = true -> exists x y, s = x ++ p ++ y.
Proof.
  rewrite cut_includes. destruct (Js.cut p s) as [[b a]|] eqn:E; [| discriminate].
  intros _. exists b, a. now apply cut_sound.
Qed.

Lemma includes_app_l (p s w : string) :
  Js.includes p (s ++ w) = false -> Js.includes p s = false.
Proof.
  intros H. destruct (Js.includes p s) eqn:E; [| reflexivity].
  destruct (includes_elim _ _ E) as (x & y & ->).
  rewrite !sapp_assoc, includes_intro in H. discriminate.
Qed.

(** The text before the first occurrence holds no occurrence. *)
Lemma cut_before_free (sep s b a : string) :
  sep <> EmptyString -> Js.cut sep s = Some (b, a) -> Js.includes sep b = false.
Proof.
  intros Hsep H. destruct (Js.includes sep b) eqn:E; [| reflexivity].
  destruct (includes_elim _ _ E) as (x & y & Hb).
  pose proof (cut_sound _ _ _ _ H) as Hs.
  assert (Hs' : s = x ++ sep ++ (y ++ sep ++ a))
    by (rewrite Hs, Hb, !sapp_assoc; reflexivity).
  pose proof (cut_first _ _ _ _ _ _ H Hs') as Hle.
  rewrite Hb, !slength_app in Hle.
  destruct sep; [congruence | simpl in Hle; lia].
Qed.

Lemma trimEnd_prefix (s : string) : exists w, s = Js.trimEnd s ++ w.
Proof.
  induction s as [|c s [w IH]]; [now exists EmptyString |]. simpl.
  destruct (Js.trimEnd s) as [|d r] eqn:E.
  - destruct (Js.is_space c).
    + now exists (String c s).
    + exists s. reflexivity.
  - exists w. simpl in *. now rewrite <- IH.
Qed.

Lemma includes_trimEnd (p s : string) :
  Js.includes p s = false -> Js.includes p (Js.trimEnd s) = false.
Proof.
  intros H. destruct (trimEnd_prefix s) as [w Hw]. rewrite Hw in H.
  now apply includes_app_l in H.
Qed.

Lemma blank_trim (s : string) : Js.blank s = true -> Js.trim s = EmptyString.
Proof.
  intros H. rewrite <- (sapp_nil_r s), trim_blank_app by exact H. reflexivity.
Qed.

Lemma trim_core (w0 x w1 : string) :
  Js.blank w0 = true -> Js.blank w1 = true ->
  Js.tight_start x -> Js.trimEnd x = x ->
  Js.trim (w0 ++ x ++ w1) = x.
Proof.
  intros H0 H1 Hs He. rewrite trim_blank_app by exact H0.
  rewrite trim_app_blank by exact H1.
  unfold Js.trim. now rewrite trimStart_id.
Qed.

End StringFacts.

(** ** [JSON.parse] after [JSON.stringify] *)

Section JsonFacts.
Import Json.

Lemma parse_chars_escape_char (c : ascii) (x : string) :
  parse_chars (escape_char c ++ x) = cons_char c (parse_chars x).
Proof.
  destruct c as [[] [] [] [] [] [] [] []]; reflexivity.
Qed.

Lemma parse_chars_escape (s rest : string) :
  parse_chars (escape s ++ String dquote rest) = Some (s, rest).
Proof.
  induction s as [|c s IH]; [reflexivity |].
  cbn [escape]. rewrite sapp_assoc, parse_chars_escape_char, IH. reflexivity.
Qed.

Lemma parse_quote (s rest : string) :
  quote s ++ rest = String dquote (escape s ++ String dquote rest).
Proof. unfold quote. cbn [append]. now rewrite sapp_assoc. Qed.

Lemma scan_digits_print (d : Decimal.uint) (rest : string) :
  no_digit rest ->
  scan_digits (NilEmpty.string_of_uint d ++ rest) = (d, rest).
Proof.
  intros H. induction d; cbn [NilEmpty.string_of_uint append];
    try (cbn [scan_digits]; cbn [digit_of nat_of_ascii]; simpl; rewrite IHd; reflexivity).
  destruct rest as [|c r]; [reflexivity |]. simpl in *. now rewrite H.
Qed.

Lemma int_part_ok_to_uint (n : N) : int_part_ok (N.to_uint n) = true.
Proof.
  pose proof (DecimalN.Unsigned.to_of (N.to_uint n)) as H.
  rewrite DecimalN.Unsigned.of_to in H.
  destruct (N.to_uint n) as [|d| | | | | | | | |] eqn:E; try reflexivity.
  - discriminate H.
  - simpl. rewrite unorm_D0 in H.
    destruct (Decimal.nzhead d) eqn:Hd;
      try (rewrite unorm_nzhead in H by congruence; exfalso;
           apply (nzhead_nonzero d d); congruence).
    unfold Decimal.unorm in H. rewrite Hd in H. injection H as ->. reflexivity.
Qed.

Lemma ends_value_cases (rest : string) :
  ends_value rest = true ->
  rest = EmptyString \/
  exists c r, rest = String c r /\ (c = ","%char \/ c = "]"%char \/ c = "}"%char).
Proof.
  destruct rest as [|c r]; [now left |]. simpl. intros H. right. exists c, r.
  split; [reflexivity |].
  apply orb_true_iff in H as [H | H]; [apply orb_true_iff in H as [H | H] |];
    apply Ascii.eqb_eq in H; auto.
Qed.

Lemma ends_value_no_digit (rest : string) : ends_value rest = true -> no_digit rest.
Proof.
  intros H. destruct (ends_value_cases rest H) as [-> | (c & r & -> & [-> | [-> | ->]])];
    simpl; trivial.
Qed.

Lemma scan_sign_digits (d : Decimal.uint) (r : string) :
  d <> Decimal.Nil ->
  scan_sign (NilEmpty.string_of_uint d ++ r) = (false, NilEmpty.string_of_uint d ++ r).
Proof. destruct d; intros H; [congruence | reflexivity ..]. Qed.

Lemma to_uint_nonnil (n : N) : N.to_uint n <> Decimal.Nil.
Proof.
  pose proof (int_part_ok_to_uint n) as H. intros E. rewrite E in H. discriminate.
Qed.

Lemma is_nil_to_uint (n : N) : is_nil (N.to_uint n) = false.
Proof. pose proof (to_uint_nonnil n). destruct (N.to_uint n); [congruence | reflexivity ..]. Qed.

Lemma scan_exp_sign_digits (d : Decimal.uint) (r : string) :
  d <> Decimal.Nil ->
  scan_exp_sign (NilEmpty.string_of_uint d ++ r) = (false, NilEmpty.string_of_uint d ++ r).
Proof. destruct d; intros H; [congruence | reflexivity ..]. Qed.

Lemma signed_abs (z : Z) : signed (z <? 0)%Z (N.to_uint (Z.abs_N z)) = z.
Proof.
  unfold signed. rewrite DecimalN.Unsigned.of_to, N2Z.inj_abs_N.
  destruct (z <? 0)%Z eqn:Hz; [apply Z.ltb_lt in Hz | apply Z.ltb_ge in Hz]; lia.
Qed.

Lemma scan_fraction_none (s : string) :
  match s with String c _ => Ascii.eqb c "."%char = false | EmptyString => True end ->
  scan_fraction s = Some (Decimal.Nil, s).
Proof. destruct s as [|c r]; [reflexivity |]. simpl. now intros ->. Qed.

Lemma scan_exponent_none (rest : string) :
  ends_value rest = true -> scan_exponent rest = Some (0%Z, rest).
Proof.
  intros H. destruct (ends_value_cases rest H) as [-> | (c & r & -> & [-> | [-> | ->]])];
    reflexivity.
Qed.

Lemma scan_exponent_print (e : Z) (rest : string) :
  ends_value rest = true ->
  scan_exponent ("e" ++ print_int e ++ rest) = Some (e, rest).
Proof.
  intros Hr. cbn [append scan_exponent]. cbn [Ascii.eqb Bool.eqb orb]. cbv beta iota.
  unfold print_int. rewrite <- (signed_abs e) at 3.
  destruct (e <? 0)%Z; cbn [append].
  - cbn [scan_exp_sign Ascii.eqb Bool.eqb]. cbv beta iota.
    rewrite scan_digits_print by (now apply ends_value_no_digit).
    now rewrite is_nil_to_uint.
  - rewrite scan_exp_sign_digits by apply to_uint_nonnil.
    rewrite scan_digits_print by (now apply ends_value_no_digit).
    now rewrite is_nil_to_uint.
Qed.

Lemma parse_number_print (m e : Z) (rest : string) :
  ends_value rest = true ->
  parse_number (print_number m e ++ rest) = Some (JNumber m e, rest).
Proof.
  intros Hr. unfold print_number, parse_number.
  rewrite sapp_assoc.
  set (tail := (if (e =? 0)%Z then EmptyString else "e" ++ print_int e) ++ rest).
  assert (Htail : no_digit tail).
  { unfold tail. destruct (e =? 0)%Z; [now apply ends_value_no_digit | exact eq_refl]. }
  assert (Hdot : scan_fraction tail = Some (Decimal.Nil, tail)).
  { apply scan_fraction_none. unfold tail. destruct (e =? 0)%Z; [| reflexivity].
    destruct (ends_value_cases rest Hr) as [-> | (c & r & -> & [-> | [-> | ->]])];
      simpl; trivial. }
  assert (Hexp : scan_exponent tail = Some (e, rest)).
  { unfold tail. destruct (e =? 0)%Z eqn:He.
    - apply Z.eqb_eq in He. subst e. now apply scan_exponent_none.
    - rewrite sapp_assoc. now apply scan_exponent_print. }
  assert (Hsign : scan_sign (print_int m ++ tail)
                  = ((m <? 0)%Z, NilEmpty.string_of_uint (N.to_uint (Z.abs_N m)) ++ tail)).
  { unfold print_int. destruct (m <? 0)%Z.
    - rewrite sapp_assoc. reflexivity.
    - cbn [append]. apply scan_sign_digits, to_uint_nonnil. }
  rewrite Hsign, scan_digits_print by exact Htail.
  rewrite int_part_ok_to_uint, Hdot, Hexp.
  rewrite DecimalFacts.app_nil_r, signed_abs. cbn [Decimal.nb_digits Z.of_nat].
  now rewrite Z.sub_0_r.
Qed.


Lemma print_int_start (z : Z) :
  exists c r, print_int z = String c r /\ number_start c = true.
Proof.
  unfold print_int. destruct (z <? 0)%Z.
  - eexists _, _. split; reflexivity.
  - pose proof (to_uint_nonnil (Z.abs_N z)) as H.
    destruct (N.to_uint (Z.abs_N z)); [congruence | ..];
      (eexists _, _; split; reflexivity).
Qed.

Lemma print_number_start (m e : Z) :
  exists c r, print_number m e = String c r /\ number_start c = true.
Proof.
  unfold print_number. destruct (print_int_start m) as (c & r & -> & H).
  now exists c, (r ++ (if (e =? 0)%Z then EmptyString else "e" ++ print_int e)).
Qed.

Lemma stringify_start (v : json) :
  exists c r, stringify v = String c r /\ value_start c = true.
Proof.
  destruct v as [|[]|m e|s|l|l]; try (eexists _, _; split; reflexivity).
  destruct (print_number_start m e) as (c & r & H & Hc).
  exists c, r. split; [exact H |].
  unfold number_start in Hc. unfold value_start.
  destruct (digit_of c); [reflexivity |].
  apply Ascii.eqb_eq in Hc. now subst c.
Qed.

Lemma parse_value_number (f : nat) (c : ascii) (r : string) :
  number_start c = true ->
  parse_value (S f) (String c r) = parse_number (String c r).
Proof.
  destruct c as [[] [] [] [] [] [] [] []]; intros H; try discriminate H; reflexivity.
Qed.

Lemma value_start_skip (c : ascii) (r : string) :
  value_start c = true ->
  skip_ws (String c r) = String c r
  /\ Ascii.eqb c "]"%char = false /\ Ascii.eqb c "}"%char = false.
Proof.
  destruct c as [[] [] [] [] [] [] [] []]; intros H; try discriminate H; repeat split.
Qed.

Lemma ends_value_skip (rest : string) :
  ends_value rest = true -> skip_ws rest = rest.
Proof.
  intros H. destruct (ends_value_cases rest H) as [-> | (c & r & -> & [-> | [-> | ->]])];
    reflexivity.
Qed.

Lemma parse_elements_print (l : list json) :
  Forall reads_back l -> l <> [] ->
  forall fuel rest,
    String.length (join_with stringify l) < fuel ->
    parse_elements fuel (join_with stringify l ++ String "]" rest) = Some (l, rest).
Proof.
  induction 1 as [|x t Hx Ht IH]; [congruence |]. intros _ fuel rest Hf.
  destruct fuel as [|f]; [lia |].
  destruct t as [|y t].
  - cbn [join_with] in *. cbn [parse_elements].
    rewrite Hx by (reflexivity || lia). reflexivity.
  - change (join_with stringify (x :: y :: t))
      with (stringify x ++ "," ++ join_with stringify (y :: t)) in *.
    rewrite slength_app in Hf. cbn [append String.length] in Hf.
    cbn [parse_elements]. rewrite !sapp_assoc.
    rewrite Hx by (reflexivity || lia).
    change ("," ++ join_with stringify (y :: t) ++ String "]" rest)
      with (String ","%char (join_with stringify (y :: t) ++ String "]" rest)).
    change (skip_ws (String ","%char ?z)) with (String ","%char z).
    cbn [Ascii.eqb Bool.eqb]. cbv beta iota.
    rewrite IH by (congruence || lia). reflexivity.
Qed.

Lemma parse_members_print (l : list (string * json)) :
  Forall (fun kv => reads_back (snd kv)) l -> l <> [] ->
  forall fuel rest,
    String.length (join_with member_text l) < fuel ->
    parse_members fuel (join_with member_text l ++ String "}" rest) = Some (l, rest).
Proof.
  induction 1 as [|[k x] t Hx Ht IH]; [congruence |]. intros _ fuel rest Hf.
  destruct fuel as [|f]; [lia |]. cbn [snd] in Hx.
  assert (Hone : forall tail,
             ends_value tail = true -> String.length (member_text (k, x)) <= f ->
             parse_members (S f) (member_text (k, x) ++ tail) =
             match tail with
             | String c3 r4 =>
                 if Ascii.eqb c3 ","%char then
                   match parse_members f r4 with
                   | Some (l', r5) => Some ((k, x) :: l', r5)
                   | None => None
                   end
                 else if Ascii.eqb c3 "}"%char then Some ([(k, x)], r4)
                 else None
             | EmptyString => None
             end).
  { intros tail Htail Hlen. unfold member_text in *. cbn [fst snd] in *.
    rewrite !sapp_assoc, parse_quote. cbn [parse_members].
    change (skip_ws (String dquote ?z)) with (String dquote z).
    cbv beta iota. rewrite Ascii.eqb_refl, parse_chars_escape.
    change (":" ++ ?z) with (String ":"%char z).
    change (skip_ws (String ":"%char ?z)) with (String ":"%char z).
    cbn [Ascii.eqb Bool.eqb]. cbv beta iota.
    rewrite !slength_app in Hlen. cbn [String.length] in Hlen.
    rewrite Hx by (assumption || lia).
    rewrite (ends_value_skip tail Htail). reflexivity. }
  destruct t as [|y t].
  - cbn [join_with] in *. rewrite Hone by (reflexivity || lia). reflexivity.
  - change (join_with member_text ((k, x) :: y :: t))
      with (member_text (k, x) ++ "," ++ join_with member_text (y :: t)) in *.
    rewrite slength_app in Hf. cbn [append String.length] in Hf.
    rewrite sapp_assoc.
    change (("," ++ join_with member_text (y :: t)) ++ String "}" rest)
      with (String ","%char (join_with member_text (y :: t) ++ String "}" rest)).
    rewrite Hone by (reflexivity || lia).
    cbn [Ascii.eqb Bool.eqb]. cbv beta iota.
    rewrite IH by (congruence || lia). reflexivity.
Qed.

Theorem parse_value_print (v : json) : reads_back v.
Proof.
  induction v as [| b | m e | s | l IH | l IH] using json_ind;
    intros fuel rest Hr Hf.
  - destruct fuel as [|f]; [simpl in Hf; lia | reflexivity].
  - destruct fuel as [|f]; [destruct b; simpl in Hf; lia | destruct b; reflexivity].
  - destruct (print_number_start m e) as (c & r & E & Hc).
    destruct fuel as [|f]; [cbn [stringify] in Hf; rewrite E in Hf; simpl in Hf; lia |].
    cbn [stringify]. rewrite E. cbn [append].
    rewrite parse_value_number by exact Hc.
    change (String c (r ++ rest)) with (String c r ++ rest).
    rewrite <- E. now apply parse_number_print.
  - destruct fuel as [|f]; [simpl in Hf; lia |].
    cbn [stringify]. rewrite parse_quote. cbn [parse_value].
    change (skip_ws (String dquote ?z)) with (String dquote z).
    cbv beta iota.
    change (Ascii.eqb dquote "["%char) with false.
    change (Ascii.eqb dquote "{"%char) with false.
    rewrite Ascii.eqb_refl. cbv beta iota.
    now rewrite parse_chars_escape.
  - destruct fuel as [|f]; [simpl in Hf; lia |].
    cbn [stringify] in *. rewrite !slength_app in Hf. cbn [String.length] in Hf.
    rewrite !sapp_assoc.
    change ("[" ++ ?z) with (String "["%char z).
    change ("]" ++ rest) with (String "]"%char rest).
    cbn [parse_value].
    change (skip_ws (String "["%char ?z)) with (String "["%char z).
    cbv beta iota. cbn [Ascii.eqb Bool.eqb]. cbv beta iota.
    destruct l as [|x t]; [reflexivity |].
    destruct (stringify_start x) as (c & r & E & Hc).
    assert (Hj : exists r', join_with stringify (x :: t) = String c r').
    { destruct t; cbn [join_with]; rewrite E; eexists; reflexivity. }
    destruct Hj as [r' Hj].
    destruct (value_start_skip c (r' ++ String "]" rest) Hc) as (Hs & Hb & _).
    rewrite Hj at 1. cbn [append]. rewrite Hs, Hb.
    rewrite parse_elements_print by (assumption || congruence || simpl in *; lia).
    reflexivity.
  - destruct fuel as [|f]; [simpl in Hf; lia |].
    cbn [stringify] in *. fold member_text in *.
    rewrite !slength_app in Hf. cbn [String.length] in Hf.
    rewrite !sapp_assoc.
    change ("{" ++ ?z) with (String "{"%char z).
    change ("}" ++ rest) with (String "}"%char rest).
    cbn [parse_value].
    change (skip_ws (String "{"%char ?z)) with (String "{"%char z).
    cbv beta iota. cbn [Ascii.eqb Bool.eqb]. cbv beta iota.
    destruct l as [|[k x] t]; [reflexivity |].
    assert (Hj : exists r', join_with member_text ((k, x) :: t) = String dquote r').
    { destruct t; cbn [join_with]; unfold member_text, quote; cbn [fst append];
        eexists; reflexivity. }
    destruct Hj as [r' Hj].
    rewrite Hj at 1. cbn [append].
    change (skip_ws (String dquote ?z)) with (String dquote z).
    cbv beta iota. change (Ascii.eqb dquote "}"%char) with false. cbv beta iota.
    rewrite parse_members_print by (assumption || congruence || simpl in *; lia).
    reflexivity.
Qed.

(** [JSON.parse(JSON.stringify(v))] gives [v] back. *)
Theorem parse_stringify (v : json) : parse (stringify v) = Some v.
Proof.
  unfold parse.
  rewrite <- (sapp_nil_r (stringify v)) at 2.
  rewrite parse_value_print by (reflexivity || lia). reflexivity.
Qed.
End JsonFacts.

(** ** The fuel of the parser *)

Section FuelFacts.
Import Json.

Ltac break H :=
  repeat match type of H with
         | context [match ?x with _ => _ end] => destruct x eqn:?; try discriminate H
         end.

Lemma skip_ws_length (s : string) : String.length (skip_ws s) <= String.length s.
Proof.
  induction s as [|c s IH]; simpl; [lia |].
  destruct (is_json_ws c); simpl; lia.
Qed.

Lemma cons_char_length (c : ascii) (o : option (string * string)) (x r : string) :
  cons_char c o = Some (x, r) -> exists x', o = Some (x', r).
Proof. destruct o as [[x' r']|]; simpl; [intros [= <- <-]; now exists x' | discriminate]. Qed.

Lemma parse_chars_length (n : nat) (s x r : string) :
  String.length s <= n ->
  parse_chars s = Some (x, r) -> String.length r < String.length s.
Proof.
  revert s x r; induction n as [|n IH]; intros s x r Hn H.
  - destruct s; [discriminate H | simpl in Hn; lia].
  - destruct s as [|c s1]; [discriminate H |]. cbn [parse_chars] in H.
    destruct (Ascii.eqb c dquote); [injection H as <- <-; simpl; lia |].
    destruct (Ascii.eqb c "\"%char).
    + destruct s1 as [|e s2]; [discriminate H |].
      destruct (Ascii.eqb e "u"%char).
      * destruct s2 as [|h1 [|h2 [|h3 [|h4 s3]]]]; try discriminate H.
        destruct (hex4 h1 h2 h3 h4); [| discriminate H].
        apply cons_char_length in H as [x' H].
        apply IH in H; simpl in *; lia.
      * destruct (unescape e); [| discriminate H].
        apply cons_char_length in H as [x' H].
        apply IH in H; simpl in *; lia.
    + destruct (nat_of_ascii c <? 32); [discriminate H |].
      apply cons_char_length in H as [x' H].
      apply IH in H; simpl in *; lia.
Qed.

Lemma scan_digits_length (s : string) (d : Decimal.uint) (r : string) :
  scan_digits s = (d, r) ->
  String.length r <= String.length s
  /\ (is_nil d = false -> String.length r < String.length s).
Proof.
  revert d r; induction s as [|c s IH]; intros d r H; cbn [scan_digits] in H.
  - injection H as <- <-. split; [lia | discriminate].
  - destruct (digit_of c) as [D|].
    + destruct (scan_digits s) as [d' r'] eqn:E. injection H as <- <-.
      destruct (IH d' r' eq_refl) as [Hle _]. simpl. split; lia.
    + injection H as <- <-. split; [lia | discriminate].
Qed.

Lemma int_part_ok_nonnil (d : Decimal.uint) : int_part_ok d = true -> is_nil d = false.
Proof. now destruct d. Qed.

Lemma parse_number_length (s : string) (v : json) (r : string) :
  parse_number s = Some (v, r) -> String.length r < String.length s.
Proof.
  unfold parse_number. intros H.
  destruct (scan_sign s) as [neg s1] eqn:E1.
  destruct (scan_digits s1) as [ip s2] eqn:E2.
  destruct (int_part_ok ip) eqn:E3; [| discriminate H].
  destruct (scan_fraction s2) as [[fp s3]|] eqn:E4; [| discriminate H].
  destruct (scan_exponent s3) as [[ex s4]|] eqn:E5; [| discriminate H].
  injection H as _ <-.
  assert (H1 : String.length s1 <= String.length s).
  { unfold scan_sign in E1. destruct s as [|c s']; [injection E1 as _ <-; lia |].
    destruct (Ascii.eqb c "-"%char); injection E1 as _ <-; simpl; lia. }
  assert (H2 : String.length s2 < String.length s1).
  { apply (scan_digits_length _ _ _ E2). now apply int_part_ok_nonnil. }
  assert (H3 : String.length s3 <= String.length s2).
  { unfold scan_fraction in E4. destruct s2 as [|c s']; [injection E4 as _ <-; lia |].
    destruct (Ascii.eqb c "."%char); [| injection E4 as _ <-; lia].
    destruct (scan_digits s') as [d r1] eqn:E. destruct (is_nil d); [discriminate E4 |].
    injection E4 as _ <-. destruct (scan_digits_length _ _ _ E) as [Hle _]. simpl. lia. }
  assert (H4 : String.length s4 <= String.length s3).
  { unfold scan_exponent in E5. destruct s3 as [|c s']; [injection E5 as _ <-; lia |].
    destruct (Ascii.eqb c "e"%char || Ascii.eqb c "E"%char); [| injection E5 as _ <-; lia].
    destruct (scan_exp_sign s') as [ng r1] eqn:Es.
    destruct (scan_digits r1) as [d r2] eqn:E. destruct (is_nil d); [discriminate E5 |].
    injection E5 as _ <-. destruct (scan_digits_length _ _ _ E) as [Hle _].
    assert (String.length r1 <= String.length s').
    { unfold scan_exp_sign in Es. destruct s' as [|g s'']; [injection Es as _ <-; lia |].
      destruct (Ascii.eqb g "+"%char); [injection Es as _ <-; simpl; lia |].
      destruct (Ascii.eqb g "-"%char); injection Es as _ <-; simpl; lia. }
    simpl. lia. }
  lia.
Qed.

Lemma drop_length (n : nat) (s : string) :
  String.length (Js.drop n s) = String.length s - n.
Proof.
  revert s; induction n as [|n IH]; intros s; [simpl; lia |].
  destruct s as [|c s]; [reflexivity |]. simpl. apply IH.
Qed.

Lemma parse_literal_length (lit : string) (v0 : json) (s : string) (v : json) (r : string) :
  lit <> EmptyString ->
  parse_literal lit v0 s = Some (v, r) -> String.length r < String.length s.
Proof.
  unfold parse_literal. intros Hl H.
  destruct (Js.startsWith lit s) eqn:E; [| discriminate H]. injection H as _ <-.
  destruct (startsWith_inv _ _ E) as [t ->]. rewrite drop_app, slength_app.
  destruct lit; [congruence | simpl; lia].
Qed.


Ltac use_eqs :=
  repeat match goal with
         | E : ?x = _ |- context [match ?x with _ => _ end] => rewrite E
         | E : ?x = _ |- context [if ?x then _ else _] => rewrite E
         end.

Ltac skipped :=
  repeat match goal with
         | E : skip_ws ?s = _ |- _ =>
             lazymatch goal with
             | _ : String.length (skip_ws s) <= String.length s |- _ => fail
             | _ => pose proof (skip_ws_length s)
             end
         end;
  repeat match goal with
         | E : skip_ws ?s = _, L : String.length (skip_ws ?s) <= _ |- _ =>
             rewrite E in L; cbn [String.length] in L
         end.

Lemma thrifty_value_step (f : nat) :
  thrifty parse_elements f -> thrifty parse_members f -> thrifty parse_value (S f).
Proof.
  intros He Hm s v r H. cbn [parse_value] in H.
  destruct (skip_ws s) as [|c t] eqn:Es; [discriminate H |].
  destruct (Ascii.eqb c "["%char) eqn:E1.
  { destruct (skip_ws t) as [|c' t'] eqn:Et; [discriminate H |].
    destruct (Ascii.eqb c' "]"%char) eqn:E2.
    - injection H as <- <-. skipped. split; [lia |].
      intros [|f'] Hf; [lia |]. cbn [parse_value]. now use_eqs.
    - destruct (parse_elements f t) as [[l r']|] eqn:Ep; [| discriminate H].
      injection H as <- <-. destruct (He _ _ _ Ep) as [Hl Hs]. skipped.
      split; [lia |].
      intros [|f'] Hf; [lia |]. cbn [parse_value]. use_eqs.
      rewrite Hs by lia. reflexivity. }
  destruct (Ascii.eqb c "{"%char) eqn:E3.
  { destruct (skip_ws t) as [|c' t'] eqn:Et; [discriminate H |].
    destruct (Ascii.eqb c' "}"%char) eqn:E2.
    - injection H as <- <-. skipped. split; [lia |].
      intros [|f'] Hf; [lia |]. cbn [parse_value]. now use_eqs.
    - destruct (parse_members f t) as [[l r']|] eqn:Ep; [| discriminate H].
      injection H as <- <-. destruct (Hm _ _ _ Ep) as [Hl Hs]. skipped.
      split; [lia |].
      intros [|f'] Hf; [lia |]. cbn [parse_value]. use_eqs.
      rewrite Hs by lia. reflexivity. }
  assert (Hatom : String.length r < String.length (String c t)).
  { destruct (Ascii.eqb c dquote).
    - destruct (parse_chars t) as [[x r']|] eqn:Ep; [| discriminate H].
      injection H as <- <-. apply (parse_chars_length _ _ _ _ (le_n _)) in Ep. simpl. lia.
    - destruct (Ascii.eqb c "t"%char);
        [apply parse_literal_length in H; [exact H | discriminate] |].
      destruct (Ascii.eqb c "f"%char);
        [apply parse_literal_length in H; [exact H | discriminate] |].
      destruct (Ascii.eqb c "n"%char);
        [apply parse_literal_length in H; [exact H | discriminate] |].
      now apply parse_number_length in H. }
  skipped. cbn [String.length] in Hatom. split; [lia |].
  intros [|f'] Hf; [lia |]. cbn [parse_value]. rewrite Es, E1, E3. exact H.
Qed.

Lemma thrifty_elements_step (f : nat) :
  thrifty parse_value f -> thrifty parse_elements f -> thrifty parse_elements (S f).
Proof.
  intros Hv He s l r H. cbn [parse_elements] in H.
  destruct (parse_value f s) as [[v t]|] eqn:Ev; [| discriminate H].
  destruct (Hv _ _ _ Ev) as [Hl Hs].
  destruct (skip_ws t) as [|c t'] eqn:Et; [discriminate H |].
  destruct (Ascii.eqb c ","%char) eqn:E1.
  - destruct (parse_elements f t') as [[l' r']|] eqn:Ep; [| discriminate H].
    injection H as <- <-. destruct (He _ _ _ Ep) as [Hl' Hs']. skipped.
    split; [lia |].
    intros [|f'] Hf; [lia |]. cbn [parse_elements].
    rewrite Hs by lia. use_eqs. rewrite Hs' by lia. reflexivity.
  - destruct (Ascii.eqb c "]"%char) eqn:E2; [| discriminate H].
    injection H as <- <-. skipped. split; [lia |].
    intros [|f'] Hf; [lia |]. cbn [parse_elements].
    rewrite Hs by lia. now use_eqs.
Qed.

Lemma thrifty_members_step (f : nat) :
  thrifty parse_value f -> thrifty parse_members f -> thrifty parse_members (S f).
Proof.
  intros Hv Hm s l r H. cbn [parse_members] in H.
  destruct (skip_ws s) as [|q t] eqn:Es; [discriminate H |].
  destruct (Ascii.eqb q dquote) eqn:Eq; [| discriminate H].
  destruct (parse_chars t) as [[k t1]|] eqn:Ek; [| discriminate H].
  pose proof (parse_chars_length _ _ _ _ (le_n _) Ek) as Hk.
  destruct (skip_ws t1) as [|c1 t2] eqn:E1; [discriminate H |].
  destruct (Ascii.eqb c1 ":"%char) eqn:Ec; [| discriminate H].
  destruct (parse_value f t2) as [[v t3]|] eqn:Ev; [| discriminate H].
  destruct (Hv _ _ _ Ev) as [Hl Hs].
  destruct (skip_ws t3) as [|c3 t4] eqn:E3; [discriminate H |].
  destruct (Ascii.eqb c3 ","%char) eqn:E4.
  - destruct (parse_members f t4) as [[l' r']|] eqn:Ep; [| discriminate H].
    injection H as <- <-. destruct (Hm _ _ _ Ep) as [Hl' Hs']. skipped.
    split; [lia |].
    intros [|f'] Hf; [lia |]. cbn [parse_members].
    use_eqs. rewrite Hs by lia. use_eqs. rewrite Hs' by lia. reflexivity.
  - destruct (Ascii.eqb c3 "}"%char) eqn:E5; [| discriminate H].
    injection H as <- <-. skipped. split; [lia |].
    intros [|f'] Hf; [lia |]. cbn [parse_members].
    use_eqs. rewrite Hs by lia. now use_eqs.
Qed.

Lemma thrifty_all (f : nat) :
  thrifty parse_value f /\ thrifty parse_elements f /\ thrifty parse_members f.
Proof.
  induction f as [|f (Hv & He & Hm)].
  - repeat split; discriminate.
  - split; [| split].
    + now apply thrifty_value_step.
    + now apply thrifty_elements_step.
    + now apply thrifty_members_step.
Qed.

(** The fuel [parse] gives is enough: a value that some amount of fuel can
    read is read with the length of the text. *)
Theorem parse_value_enough (f : nat) (s : string) (v : json) (r : string) :
  parse_value f s = Some (v, r) ->
  parse_value (S (String.length s)) s = Some (v, r).
Proof.
  intros H. destruct (thrifty_all f) as [Hv _].
  destruct (Hv s v r H) as [_ Hs]. apply Hs. lia.
Qed.

(** So [parse] fails on a text only when no amount of fuel reads it. *)
Corollary parse_complete (f : nat) (s : string) (v : json) (r : string) :
  parse_value f s = Some (v, r) -> skip_ws r = EmptyString -> parse s = Some v.
Proof.
  intros H Hr. unfold parse. now rewrite (parse_value_enough f s v r H), Hr.
Qed.

End FuelFacts.

(** ** The normaliser *)

Section RouteFacts.
Import Json Route.

Lemma delimiter_nonempty : delimiter <> EmptyString.
Proof. discriminate. Qed.

Lemma nonempty_false (s : string) : nonempty s = false -> s = EmptyString.
Proof. now destruct s. Qed.

(** An empty or blank [jsonPart] is not parsed; parsing it would give no
    message either. *)
Lemma embedded_parsed (j : string) :
  embedded_messages (Some j) = parsed_messages (clean j).
Proof.
  unfold embedded_messages. destruct (nonempty (Js.trim j)) eqn:E; [reflexivity |].
  unfold clean. now rewrite (nonempty_false _ E).
Qed.

Lemma pieces (raw before after : string) :
  Js.cut delimiter raw = Some (before, after) ->
  Js.includes delimiter raw = true
  /\ before_of raw = before
  /\ jsonPart_of raw = Some (Js.until delimiter after).
Proof.
  intros H. unfold before_of, jsonPart_of.
  rewrite (split_limit_2 _ _ _ _ delimiter_nonempty H), cut_includes, H.
  repeat split.
Qed.

Lemma text_part_is_text (raw : string) : is_text_part (text_part raw) raw.
Proof. split; reflexivity. Qed.

(** The loop body on a text part that holds the delimiter. *)
Lemma step_delimited (acc : Acc) (part : Part) (raw before after : string) :
  is_text_part part raw ->
  Js.cut delimiter raw = Some (before, after) ->
  step acc part =
  {| a2uiMessages := (a2uiMessages acc ++ parsed_messages (candidate after))%list;
     textContent := textContent acc ++ Js.trimEnd before |}.
Proof.
  intros [Hk Ht] H. destruct (pieces _ _ _ H) as (Hi & Hb & Hj).
  unfold step, collect_text, collect_data. rewrite Hk, Ht.
  cbn [String.eqb Ascii.eqb Bool.eqb is_string andb].
  rewrite Hi, Hb, Hj, embedded_parsed. reflexivity.
Qed.

(** The loop body on a text part without the delimiter. *)
Lemma step_plain (acc : Acc) (part : Part) (raw : string) :
  is_text_part part raw ->
  Js.includes delimiter raw = false ->
  step acc part =
  {| a2uiMessages := a2uiMessages acc; textContent := textContent acc ++ raw |}.
Proof.
  intros [Hk Ht] H. unfold step, collect_text, collect_data. rewrite Hk, Ht.
  cbn [String.eqb Ascii.eqb Bool.eqb is_string andb].
  rewrite H. reflexivity.
Qed.

Lemma step_messages (acc : Acc) (part : Part) :
  a2uiMessages (step acc part) = (a2uiMessages acc ++ contribution part)%list.
Proof.
  unfold contribution, step, collect_data, collect_text.
  destruct part as [[[| | |k| |]|] [[| | |raw| |]|] m d]; cbn [kind text mimeType data];
    try (destruct (_ && _); [destruct d |]; cbn; now rewrite ?List.app_nil_r).
  destruct (String.eqb k "text");
    [destruct (Js.includes delimiter raw) |];
    (destruct (_ && _); [destruct d |]; cbn; now rewrite ?List.app_nil_r, <- ?List.app_assoc).
Qed.

Lemma fold_step_messages (parts : list Part) (acc : Acc) :
  a2uiMessages (fold_left step parts acc)
  = (a2uiMessages acc ++ flat_map contribution parts)%list.
Proof.
  revert acc; induction parts as [|p parts IH]; intros acc; cbn [fold_left flat_map].
  - now rewrite List.app_nil_r.
  - now rewrite IH, step_messages, <- List.app_assoc.
Qed.

Lemma collect_messages (parts : list Part) :
  a2uiMessages (collect parts) = flat_map contribution parts.
Proof. unfold collect. now rewrite fold_step_messages. Qed.


(** *** Code fences *)

Lemma fence_open_tight (tag r : string) : fence_open tag -> Js.tight_start (tag ++ r).
Proof.
  intros [Hl Hs]. destruct tag as [|c tag]; [discriminate |]. simpl in *.
  apply andb_true_iff in Hs as [Hc _].
  destruct c as [[] [] [] [] [] [] [] []]; try discriminate Hc; reflexivity.
Qed.

Lemma clean_fenced (tag doc w0 w1 w2 w3 : string) :
  fence_open tag ->
  Js.blank w0 = true -> Js.blank w1 = true -> Js.blank w2 = true -> Js.blank w3 = true ->
  clean (w0 ++ (tag ++ w1 ++ doc ++ w2 ++ "```") ++ w3) = Js.trim doc.
Proof.
  intros Hopen H0 H1 H2 H3. unfold clean.
  rewrite trim_core; try assumption.
  - destruct Hopen as [Hl Hs]. unfold Js.strip_open.
    rewrite startsWith_i_app by assumption.
    change (String.length "```json") with 7. rewrite <- Hl, drop_app.
    rewrite trimStart_blank by exact H1.
    replace (doc ++ w2 ++ "```") with ((doc ++ w2) ++ "```") by apply sapp_assoc.
    change ("```") with (String "`"%char "``").
    rewrite trimStart_app_tight by reflexivity.
    unfold Js.strip_close. rewrite chop_end_app by reflexivity.
    fold (Js.trim (doc ++ w2)). rewrite trim_app_blank by exact H2.
    apply trim_idem.
  - now apply fence_open_tight.
  - replace (tag ++ w1 ++ doc ++ w2 ++ "```") with ((tag ++ w1 ++ doc ++ w2) ++ "```")
      by (now rewrite !sapp_assoc).
    rewrite trimEnd_app_keep; [reflexivity | discriminate].
Qed.

Lemma clean_unfenced (doc : string) : unfenced doc -> clean doc = Js.trim doc.
Proof.
  intros [Ho Hc]. unfold clean, Js.strip_open, Js.strip_close.
  rewrite Ho, Hc. apply trim_idem.
Qed.

End RouteFacts.

(** ** Claims about the normaliser and the handler *)

Section NormaliserClaims.
Import Json Route.

Lemma parsed_messages_cases (cleaned : string) :
  (forall l, parse cleaned = Some (JArray l) -> parsed_messages cleaned = l)
  /\ (forall v, parse cleaned = Some v -> (forall l, v <> JArray l) ->
      parsed_messages cleaned = [v])
  /\ (parse cleaned = None -> parsed_messages cleaned = []).
Proof.
  unfold parsed_messages. repeat split.
  - now intros l ->.
  - intros v -> Hv. destruct v; try reflexivity. now elim (Hv l).
  - now intros ->.
Qed.

Lemma candidate_whole (after : string) :
  Js.includes delimiter after = false -> candidate after = clean after.
Proof. intros H. unfold candidate. now rewrite until_absent. Qed.

(** C1 (as amended): for a text part whose text holds the delimiter,
    [before] being the text in front of its first occurrence and [after] the
    text behind it, the loop appends [before] without its trailing white
    space to the text, and takes as JSON document the text of [after] up to
    the next delimiter (all of [after] when there is none), cleaned of
    fences: an array adds its elements to the messages, any other value is
    added alone, a document that does not parse adds nothing, and the loop
    goes on with the parts that follow. *)
Theorem C1_delimited_text_part (done rest : list Part) (acc : Acc) (part : Part)
    (raw before after : string) :
  is_text_part part raw ->
  Js.cut delimiter raw = Some (before, after) ->
  raw = before ++ delimiter ++ after
  /\ Js.includes delimiter before = false
  /\ textContent (step acc part) = textContent acc ++ Js.trimEnd before
  /\ a2uiMessages (step acc part)
     = (a2uiMessages acc ++ parsed_messages (clean (Js.until delimiter after)))%list
  /\ (Js.includes delimiter after = false -> Js.until delimiter after = after)
  /\ (forall l, parse (clean (Js.until delimiter after)) = Some (JArray l) ->
      parsed_messages (clean (Js.until delimiter after)) = l)
  /\ (forall v, parse (clean (Js.until delimiter after)) = Some v ->
      (forall l, v <> JArray l) ->
      parsed_messages (clean (Js.until delimiter after)) = [v])
  /\ (parse (clean (Js.until delimiter after)) = None ->
      parsed_messages (clean (Js.until delimiter after)) = [])
  /\ collect (done ++ part :: rest) = fold_left step rest (step (collect done) part).
Proof.
  intros Hpart H. pose proof (step_delimited acc part raw before after Hpart H) as Hs.
  destruct (parsed_messages_cases (clean (Js.until delimiter after))) as (Ha & Hv & Hn).
  repeat split.
  - now apply cut_sound.
  - exact (cut_before_free _ _ _ _ delimiter_nonempty H).
  - now rewrite Hs.
  - now rewrite Hs.
  - apply until_absent.
  - exact Ha.
  - exact Hv.
  - exact Hn.
  - unfold collect. now rewrite fold_left_app.
Qed.

Lemma C1_witness :
  Js.cut delimiter Sample.here_begin = Some ("Here." ++ Sample.nl, Sample.nl ++ Sample.begin_s1)
  /\ textContent (step start (text_part Sample.here_begin)) = "Here."
  /\ a2uiMessages (step start (text_part Sample.here_begin)) = [Sample.begin_s1_message].
Proof.
  split; [reflexivity |].
  destruct (C1_delimited_text_part [] [] start (text_part Sample.here_begin)
              Sample.here_begin ("Here." ++ Sample.nl) (Sample.nl ++ Sample.begin_s1)
              (conj eq_refl eq_refl) eq_refl)
    as (_ & _ & Ht & Hm & _).
  split; [exact Ht | exact Hm].
Defined.

(** C1 as stated fails where the delimiter occurs twice: what is parsed is
    the text between the two occurrences, not everything after the first. *)
Lemma C1_counterexample :
  Js.cut delimiter Sample.twice = Some ("a", "[1]---a2ui_JSON---x")
  /\ a2uiMessages (step start (text_part Sample.twice)) = [JNumber 1 0]
  /\ parsed_messages (clean "[1]---a2ui_JSON---x") = []
  /\ a2uiMessages (step start (text_part Sample.twice))
     <> (a2uiMessages start ++ parsed_messages (clean "[1]---a2ui_JSON---x"))%list.
Proof. repeat split; try reflexivity. discriminate. Qed.


(** C2 (as amended): when the document after the delimiter stands between
    an opening fence with the [json] tag, in any letter case, and a closing
    fence, with white space around either, the fences are stripped before
    parsing, and the part adds the messages that the same document adds
    without fences. *)
Theorem C2_json_fence_stripped (acc : Acc) (part part' : Part)
    (raw raw' before before' tag doc w0 w1 w2 w3 : string) :
  is_text_part part raw ->
  is_text_part part' raw' ->
  fence_open tag ->
  Js.blank w0 = true -> Js.blank w1 = true -> Js.blank w2 = true -> Js.blank w3 = true ->
  unfenced doc ->
  Js.includes delimiter doc = false ->
  Js.includes delimiter (w0 ++ (tag ++ w1 ++ doc ++ w2 ++ "```") ++ w3) = false ->
  Js.cut delimiter raw = Some (before, w0 ++ (tag ++ w1 ++ doc ++ w2 ++ "```") ++ w3) ->
  Js.cut delimiter raw' = Some (before', doc) ->
  a2uiMessages (step acc part)
  = (a2uiMessages acc ++ parsed_messages (Js.trim doc))%list
  /\ a2uiMessages (step acc part) = a2uiMessages (step acc part').
Proof.
  intros Hpart Hpart' Htag H0 H1 H2 H3 Hdoc Hd Hf Hraw Hraw'.
  rewrite (step_delimited acc part raw _ _ Hpart Hraw),
    (step_delimited acc part' raw' _ _ Hpart' Hraw').
  cbn [a2uiMessages].
  rewrite !candidate_whole by assumption.
  rewrite clean_fenced by assumption.
  rewrite clean_unfenced by assumption.
  split; reflexivity.
Qed.

Lemma C2_witness :
  a2uiMessages (step start (text_part Sample.here_json_fence))
  = a2uiMessages (step start (text_part Sample.here_begin))
  /\ a2uiMessages (step start (text_part Sample.here_json_fence)) = [Sample.begin_s1_message].
Proof.
  destruct (C2_json_fence_stripped start
              (text_part Sample.here_json_fence) (text_part Sample.here_begin)
              Sample.here_json_fence Sample.here_begin
              ("Here." ++ Sample.nl) ("Here." ++ Sample.nl) "```json"
              (Sample.nl ++ Sample.begin_s1) Sample.nl EmptyString Sample.nl EmptyString)
    as [Hm He];
    try reflexivity.
  - split; reflexivity.
  - split; reflexivity.
  - split; reflexivity.
  - split; reflexivity.
  - split; [exact He | exact Hm].
Defined.

(** C2 as stated fails for fences without the language tag: the opening
    fence stays, the document does not parse, and no message is added. *)
Lemma C2_counterexample :
  a2uiMessages (step start (text_part Sample.here_bare_fence)) = []
  /\ a2uiMessages (step start (text_part Sample.here_begin)) = [Sample.begin_s1_message]
  /\ a2uiMessages (step start (text_part Sample.here_bare_fence))
     <> a2uiMessages (step start (text_part Sample.here_begin)).
Proof. repeat split; try reflexivity. discriminate. Qed.

Lemma fallback_messages (acc : Acc) :
  exists extra,
    a2uiMessages (fallback acc) = (a2uiMessages acc ++ extra)%list
    /\ (a2uiMessages acc <> [] -> extra = []).
Proof.
  unfold fallback.
  destruct ((List.length (a2uiMessages acc) =? 0)
            && Js.includes delimiter (textContent acc)) eqn:E.
  - eexists. cbn [a2uiMessages]. split; [reflexivity |].
    apply andb_true_iff in E as [E _]. apply Nat.eqb_eq in E.
    destruct (a2uiMessages acc); [congruence | discriminate].
  - exists []. rewrite List.app_nil_r. split; reflexivity.
Qed.

Lemma respond_parts (env : Env) (l : list json) (parts : list Part) :
  to_parts l = Some parts ->
  respond env (agent_answer l)
  = {| status := 200; body := result_body env (agent_answer l) (normalize parts) |}.
Proof.
  intros H. unfold respond, respond_with, agent_answer.
  cbn -[to_parts normalize result_body].
  now rewrite H.
Qed.

(** C5 (as amended): a text part whose embedded JSON does not parse adds no
    message, and the messages of the parts around it are all there, in
    order; the handler answers with status 200 whatever the texts of the
    parts hold.  At worst, for such a part alone, the answer has no message
    and the text in front of the delimiter (trailing white space trimmed,
    [<text>] wrapper stripped) - not the raw text of the part, whose
    unparsed remainder is dropped. *)
Theorem C5_malformed_part (env : Env) (l1 l2 : list Part) (part : Part)
    (raw before after : string) :
  is_text_part part raw ->
  Js.cut delimiter raw = Some (before, after) ->
  parse (clean (Js.until delimiter after)) = None ->
  contribution part = []
  /\ a2uiMessages (collect (l1 ++ part :: l2))
     = (flat_map contribution l1 ++ flat_map contribution l2)%list
  /\ (exists extra,
        a2uiMessages (normalize (l1 ++ part :: l2))
        = (flat_map contribution l1 ++ flat_map contribution l2 ++ extra)%list
        /\ (flat_map contribution l1 ++ flat_map contribution l2 <> [] -> extra = [])%list)
  /\ normalize [part]
     = {| a2uiMessages := []; textContent := strip_text_tag (Js.trimEnd before) |}
  /\ (forall l parts, to_parts l = Some parts ->
      status (respond env (agent_answer l)) = 200).
Proof.
  intros Hpart Hcut Hparse.
  assert (Hc : contribution part = []).
  { unfold contribution. rewrite (step_delimited start part raw _ _ Hpart Hcut).
    cbn [a2uiMessages start app]. unfold candidate, parsed_messages. now rewrite Hparse. }
  assert (Hall : a2uiMessages (collect (l1 ++ part :: l2))
                 = (flat_map contribution l1 ++ flat_map contribution l2)%list).
  { rewrite collect_messages, flat_map_app. cbn [flat_map]. now rewrite Hc. }
  repeat split.
  - exact Hc.
  - exact Hall.
  - destruct (fallback_messages (collect (l1 ++ part :: l2))) as (extra & He & Hx).
    exists extra. unfold normalize. cbn [a2uiMessages].
    rewrite He, Hall, <- List.app_assoc. split; [reflexivity |].
    intros Hne. apply Hx. now rewrite Hall.
  - unfold normalize, collect. cbn [fold_left].
    rewrite (step_delimited start part raw _ _ Hpart Hcut).
    unfold candidate, parsed_messages. rewrite Hparse. cbn [a2uiMessages textContent start app append].
    unfold fallback. cbn [a2uiMessages textContent List.length Nat.eqb andb].
    rewrite (includes_trimEnd _ _ (cut_before_free _ _ _ _ delimiter_nonempty Hcut)).
    reflexivity.
  - intros l parts H. now rewrite (respond_parts env l parts H).
Qed.

Lemma C5_witness :
  contribution (text_part Sample.truncated) = []
  /\ a2uiMessages (collect ([data_part a2ui_mime Sample.begin_s1_message]
                            ++ text_part Sample.truncated
                            :: [text_part Sample.here_begin]))
     = [Sample.begin_s1_message; Sample.begin_s1_message].
Proof.
  destruct (C5_malformed_part
              (Sample.env_with (Resolved 200 EmptyString))
              [data_part a2ui_mime Sample.begin_s1_message] [text_part Sample.here_begin]
              (text_part Sample.truncated) Sample.truncated
              ("Here." ++ Sample.nl) (Sample.nl ++ "[{")
              (conj eq_refl eq_refl) eq_refl eq_refl)
    as (Hc & Hall & _).
  split; [exact Hc | exact Hall].
Defined.

(** C5 as stated fails in its worst case: for a part whose JSON is cut
    short the answer carries the text in front of the delimiter, not the raw
    text. *)
Lemma C5_counterexample :
  normalize [text_part Sample.truncated] = {| a2uiMessages := []; textContent := "Here." |}
  /\ textContent (normalize [text_part Sample.truncated]) <> Sample.truncated.
Proof. split; [reflexivity | discriminate]. Qed.

(** C6 (as amended): when the loop has left no message and the collected
    text holds the delimiter, the extraction is made once on the collected
    text: the text in front of the first delimiter, without trailing white
    space (and with the [<text>] wrapper stripped at the end), is the text
    of the answer, and the text behind it up to the next delimiter (all of
    it when there is none), cleaned of fences and parsed, gives the
    messages.  The text that is kept holds no delimiter. *)
Theorem C6_fallback_once (parts : list Part) (before after : string) :
  a2uiMessages (collect parts) = [] ->
  Js.cut delimiter (textContent (collect parts)) = Some (before, after) ->
  normalize parts
  = {| a2uiMessages := parsed_messages (clean (Js.until delimiter after));
       textContent := strip_text_tag (Js.trimEnd before) |}
  /\ textContent (collect parts) = before ++ delimiter ++ after
  /\ Js.includes delimiter (Js.trimEnd before) = false
  /\ (Js.includes delimiter after = false -> Js.until delimiter after = after).
Proof.
  intros Hm Hcut. destruct (pieces _ _ _ Hcut) as (Hi & Hb & Hj).
  repeat split.
  - unfold normalize, fallback. rewrite Hm, Hi, Hb, Hj, embedded_parsed. reflexivity.
  - now apply cut_sound.
  - exact (includes_trimEnd _ _ (cut_before_free _ _ _ _ delimiter_nonempty Hcut)).
  - apply until_absent.
Qed.

Lemma C6_witness :
  normalize [text_part ("Here." ++ Sample.nl ++ "---a2ui_"); text_part ("JSON---" ++ Sample.begin_s1)]
  = {| a2uiMessages := [Sample.begin_s1_message]; textContent := "Here." |}.
Proof.
  destruct (C6_fallback_once
              [text_part ("Here." ++ Sample.nl ++ "---a2ui_"); text_part ("JSON---" ++ Sample.begin_s1)]
              ("Here." ++ Sample.nl) Sample.begin_s1 eq_refl eq_refl) as (H & _).
  exact H.
Defined.

(** C6 as stated fails where the collected text holds the delimiter twice:
    the messages come from the text between the two occurrences, while the
    whole text after the first one does not parse. *)
Lemma C6_counterexample :
  a2uiMessages (collect Sample.scattered) = []
  /\ textContent (collect Sample.scattered) = "---a2ui_JSON---[1]---a2ui_JSON---"
  /\ a2uiMessages (normalize Sample.scattered) = [JNumber 1 0]
  /\ parsed_messages (clean "[1]---a2ui_JSON---") = []
  /\ a2uiMessages (normalize Sample.scattered) <> parsed_messages (clean "[1]---a2ui_JSON---").
Proof. repeat split; try reflexivity. discriminate. Qed.

Lemma blank_prompt_invalid (s : string) :
  Js.blank s = true -> valid_prompt (Some (JString s)) = None.
Proof.
  intros H. unfold valid_prompt. rewrite (blank_trim s H). cbn [nonempty].
  now rewrite andb_false_r.
Qed.

(** C10 (as amended): a request whose body is JSON other than [null] and
    has no [prompt], a [prompt] that is not a string, or a [prompt] that is
    empty or white space only, is answered with 400 and the error [prompt is
    required], and the agent is not asked.  A body that is [null] has no
    [prompt] either, but reading the property throws: it is answered with
    500, and the agent is not asked. *)
Theorem C10_prompt_required (env : Env) (req : string) (reqBody : json) :
  parse req = Some reqBody ->
  (reqBody <> JNull ->
   get "prompt" reqBody = None
   \/ (exists v, get "prompt" reqBody = Some v /\ forall s, v <> JString s)
   \/ (exists s, get "prompt" reqBody = Some (JString s) /\ Js.blank s = true) ->
   POST env req
   = ({| status := 400; body := JObject [("error", JString "prompt is required")] |}, []))
  /\ (reqBody = JNull ->
      status (fst (POST env req)) = 500
      /\ get "error" (body (fst (POST env req))) <> Some (JString "prompt is required")
      /\ snd (POST env req) = []).
Proof.
  intros Hreq. unfold POST. rewrite Hreq. split.
  - intros Hn Hbad.
    assert (Hd : destructure_prompt reqBody = Some (get "prompt" reqBody))
      by (destruct reqBody; [congruence | reflexivity ..]).
    rewrite Hd.
    assert (Hv : valid_prompt (get "prompt" reqBody) = None).
    { destruct Hbad as [-> | [(v & -> & Hv) | (s & -> & Hs)]].
      - reflexivity.
      - destruct v; try reflexivity. now elim (Hv s).
      - now apply blank_prompt_invalid. }
    rewrite Hv. reflexivity.
  - intros ->. cbn. repeat split. discriminate.
Qed.

Lemma C10_witness :
  POST (Sample.env_with (Resolved 200 EmptyString)) (dq "{'prompt':'   '}")
  = ({| status := 400; body := JObject [("error", JString "prompt is required")] |}, []).
Proof.
  destruct (C10_prompt_required (Sample.env_with (Resolved 200 EmptyString))
              (dq "{'prompt':'   '}") (JObject [("prompt", JString "   ")]) eq_refl)
    as [H _].
  apply H.
  - discriminate.
  - right; right. exists "   ". split; reflexivity.
Defined.

(** C10 as stated fails for the body [null]: it has no [prompt], the
    handler answers 500 and not 400. *)
Lemma C10_counterexample :
  parse "null" = Some JNull
  /\ get "prompt" JNull = None
  /\ status (fst (POST (Sample.env_with (Resolved 200 EmptyString)) "null")) = 500
  /\ snd (POST (Sample.env_with (Resolved 200 EmptyString)) "null") = [].
Proof. repeat split. Qed.

End NormaliserClaims.

(** ** The session page *)

Section PageFacts.
Import Json Page.

Lemma result_body_reads (env : Route.Env) (rpcResult : json) (acc : Route.Acc) :
  get "error" (Route.result_body env rpcResult acc) = None
  /\ get "messages" (Route.result_body env rpcResult acc)
     = Some (JArray (Route.a2uiMessages acc))
  /\ get "text" (Route.result_body env rpcResult acc)
     = Some (JString (Route.textContent acc))
  /\ Route.result_body env rpcResult acc <> JNull.
Proof.
  unfold Route.result_body. destruct (Route.development env); repeat split; discriminate.
Qed.

(** What [submit] makes of the answer that carries the normaliser's
    output. *)
Lemma outcome_result (env : Route.Env) (rpcResult : json) (acc : Route.Acc) :
  outcome (Route.Resolved 200 (stringify (Route.result_body env rpcResult acc)))
  = match Route.a2uiMessages acc with
    | [] => Failed no_ui_message
    | _ :: _ => Produced (JArray (Route.a2uiMessages acc))
                  (Some (JString (Route.textContent acc)))
    end.
Proof.
  destruct (result_body_reads env rpcResult acc) as (He & Hm & Ht & Hn).
  unfold outcome. cbn [Route.ok Nat.leb andb negb]. rewrite parse_stringify.
  destruct (Route.result_body env rpcResult acc) eqn:E; try congruence;
    rewrite He, Hm, Ht; cbn [truthy_opt];
    destruct (Route.a2uiMessages acc); reflexivity.
Qed.

Lemma outcome_not_ok (st : nat) (txt : string) :
  Route.ok st = false ->
  outcome (Route.Resolved st txt) = Failed ("Server error: " ++ print_int (Z.of_nat st)).
Proof. intros H. unfold outcome. now rewrite H. Qed.

(** *** [submit] *)

Lemma submit_blank (server : string -> Route.FetchResult) (st : State)
    (prompt : string) (isRefinement : bool) :
  Route.nonempty (Js.trim prompt) = false ->
  submit server st prompt isRefinement = st.
Proof. intros H. unfold submit, submit_start. now rewrite H. Qed.

Lemma submit_thinking (server : string -> Route.FetchResult) (st : State)
    (prompt : string) (isRefinement : bool) :
  is_thinking (state st) = true ->
  submit server st prompt isRefinement = st.
Proof. intros H. unfold submit, submit_start. now rewrite H, orb_true_r. Qed.

Lemma submit_runs (server : string -> Route.FetchResult) (st : State)
    (prompt : string) (isRefinement : bool) :
  Route.nonempty (Js.trim prompt) = true -> is_thinking (state st) = false ->
  let sent := historyToSend isRefinement st in
  submit server st prompt isRefinement
  = match outcome (server (request_body (Js.trim prompt) sent)) with
    | Produced messages text =>
        {| input := EmptyString; state := rendered; a2uiMessages := messages;
           lastPrompt := Js.trim prompt; errorMsg := EmptyString;
           history := (sent ++ pair_of (Js.trim prompt) messages text)%list |}
    | Failed message =>
        {| input := EmptyString; state := error;
           a2uiMessages := if isRefinement then a2uiMessages st else JArray [];
           lastPrompt := Js.trim prompt; errorMsg := message;
           history := sent |}
    end.
Proof.
  intros Hp Ht. unfold submit, submit_start, submit_finish, historyToSend, pair_of.
  rewrite Hp, Ht. cbn [negb orb].
  destruct (outcome _); destruct isRefinement; reflexivity.
Qed.

Lemma offered_turn (st : State) (e : Event) (p : string) (isRef : bool) :
  offered st e = true -> turn_of e = Some (p, isRef) ->
  state st = (if isRef then rendered else idle)
  /\ forall server, handle server st e = submit server st p isRef.
Proof.
  intros Ho Ht. destruct e; try discriminate; injection Ht as <- <-;
    unfold offered in Ho; destruct (state st) eqn:E; try discriminate;
    (split; [reflexivity |]); intros server; unfold handle, offered; now rewrite E.
Qed.

Lemma Even_add_pair (n : nat) : Nat.Even n -> Nat.Even (n + 2).
Proof. intros [k ->]. exists (S k). lia. Qed.

Lemma reachable_Inv (st : State) : reachable st -> Inv st.
Proof.
  induction 1 as [|server st e Hr [Hev Hidle]].
  - split; [exists 0; reflexivity | intros _; split; reflexivity].
  - unfold handle. destruct (offered st e) eqn:Ho; [| now split].
    destruct e as [v | p | p | ].
    + split; [exact Hev | exact Hidle].
    + destruct (offered_turn st (Generate p) p false Ho eq_refl) as [Hs _].
      destruct (Hidle Hs) as [Hh Hm].
      destruct (Route.nonempty (Js.trim p)) eqn:Hp;
        [| rewrite submit_blank by exact Hp; now split].
      rewrite submit_runs by (exact Hp || now rewrite Hs).
      cbn [historyToSend]. destruct (outcome _); split; cbn [history state];
        try discriminate.
      * exists 1. reflexivity.
      * exists 0. reflexivity.
    + destruct (offered_turn st (Refine p) p true Ho eq_refl) as [Hs _].
      destruct (Route.nonempty (Js.trim p)) eqn:Hp;
        [| rewrite submit_blank by exact Hp; now split].
      rewrite submit_runs by (exact Hp || now rewrite Hs).
      cbn [historyToSend]. destruct (outcome _); split; cbn [history state];
        try discriminate.
      * rewrite List.length_app. now apply Even_add_pair.
      * exact Hev.
    + split; [exists 0; reflexivity | intros _; split; reflexivity].
Qed.

(** On the screen that offers a submission, what is sent is the thread, and
    a cleared thread was empty before. *)
Lemma sent_is_thread (st : State) (e : Event) (p : string) (isRef : bool) :
  reachable st -> offered st e = true -> turn_of e = Some (p, isRef) ->
  historyToSend isRef st = history st
  /\ (if isRef then a2uiMessages st else JArray []) = a2uiMessages st
  /\ is_thinking (state st) = false.
Proof.
  intros Hr Ho Ht. destruct (offered_turn st e p isRef Ho Ht) as [Hs _].
  destruct (reachable_Inv st Hr) as [_ Hidle].
  destruct isRef; cbn [historyToSend].
  - rewrite Hs. repeat split.
  - destruct (Hidle Hs) as [-> ->]. rewrite Hs. repeat split.
Qed.


(** C3 (as amended): the answer that carries the normaliser's output is
    turned into the error [Claude generated no UI] exactly when it holds no
    message, whatever its text: the error screen with that message is what
    the user gets then, also when the text is informative. *)
Theorem C3_no_ui_when_no_messages (env : Route.Env) (rpcResult : json) (acc : Route.Acc)
    (st : State) (trimmed : string) (sent : list HistoryTurn) :
  let answer := Route.Resolved 200 (stringify (Route.result_body env rpcResult acc)) in
  (outcome answer = Failed no_ui_message <-> Route.a2uiMessages acc = [])
  /\ (state (submit_finish st trimmed sent answer) = error
      /\ errorMsg (submit_finish st trimmed sent answer) = no_ui_message
      <-> Route.a2uiMessages acc = []).
Proof.
  cbn zeta. unfold submit_finish. rewrite outcome_result.
  destruct (Route.a2uiMessages acc); cbn [state errorMsg]; split; split;
    try reflexivity; try discriminate; try (intros [? ?]; discriminate);
    intros _; split; reflexivity.
Qed.

(** C3 as stated fails for an answer with informative text and no message:
    it is reported as the fatal error all the same. *)
Lemma C3_counterexample :
  Route.normalize [Route.text_part "I can help with that."]
  = {| Route.a2uiMessages := []; Route.textContent := "I can help with that." |}
  /\ state (submit (served_by (Sample.env_with (Route.Resolved 200 Sample.prose_only)))
              initial "Build a contact form" false) = error
  /\ errorMsg (submit (served_by (Sample.env_with (Route.Resolved 200 Sample.prose_only)))
                 initial "Build a contact form" false) = no_ui_message.
Proof. repeat split. Qed.

Lemma assistantContent_suffix (messages : json) (text : option json) :
  exists pre, assistantContent messages text = pre ++ stringify messages.
Proof.
  unfold assistantContent. destruct text as [t|]; [destruct (truthy t) |].
  - exists (to_string t ++ String (ascii_of_nat 10) Route.delimiter
                      ++ String (ascii_of_nat 10) EmptyString).
    rewrite !sapp_assoc. reflexivity.
  - now exists EmptyString.
  - now exists EmptyString.
Qed.

(** The route that reads [history] hands it to the agent unchanged. *)
Lemma history_route_forwards (env : Route.Env) (next : string) (sent : list HistoryTurn) :
  Route.nonempty next = true -> Js.trim next = next ->
  exists payload,
    snd (HistoryRoute.POST env (request_body next sent))
    = [(Route.A2A_AGENT_URL env, stringify payload)]
    /\ HistoryRoute.conversationHistory payload = Some (JArray (map turn_json sent)).
Proof.
  intros Hne Htrim.
  exists (HistoryRoute.rpcPayload env next (Some (JArray (map turn_json sent)))).
  split; [| reflexivity].
  unfold HistoryRoute.POST, request_body. rewrite parse_stringify.
  cbn [request_json Route.destructure_prompt get lookup String.eqb Ascii.eqb Bool.eqb].
  unfold Route.valid_prompt. rewrite Htrim, Hne. cbn [andb].
  destruct (Route.agent env _ _) as [e | st txt].
  - destruct (match Route.exn_cause_code e with
              | Some c => String.eqb c "ECONNREFUSED"
              | None => false
              end);
      [| destruct (String.eqb (Route.exn_name e) "TimeoutError")]; reflexivity.
  - destruct (negb (Route.ok st)); [reflexivity |].
    destruct (parse txt); reflexivity.
Qed.

(** C4 (as amended): a successful turn puts after the history that was sent
    a user turn with the trimmed prompt and an assistant turn.  The content
    of the assistant turn is, for a text [t] that is not empty, [t], a line
    feed, the delimiter, a line feed and the JSON text of the messages; for
    an empty or missing text it is the JSON text of the messages alone,
    without delimiter.  That JSON text parses back to the very messages, the
    body of the next refinement request parses back to the prompt and the
    whole thread, this turn included, and the route that reads [history]
    sends that thread on to the agent. *)
Theorem C4_thread_after_success (server : string -> Route.FetchResult) (st : State)
    (prompt : string) (isRefinement : bool) (messages : json) (text : option json) :
  Route.nonempty (Js.trim prompt) = true ->
  is_thinking (state st) = false ->
  outcome (server (request_body (Js.trim prompt) (historyToSend isRefinement st)))
  = Produced messages text ->
  history (submit server st prompt isRefinement)
  = (historyToSend isRefinement st
     ++ [ {| role := user; content := Js.trim prompt |};
          {| role := assistant; content := assistantContent messages text |} ])%list
  /\ (forall t, text = Some (JString t) -> t <> EmptyString ->
      assistantContent messages text
      = t ++ String (ascii_of_nat 10) Route.delimiter
          ++ String (ascii_of_nat 10) (stringify messages))
  /\ (text = None \/ text = Some (JString EmptyString) ->
      assistantContent messages text = stringify messages)
  /\ (exists pre, assistantContent messages text = pre ++ stringify messages)
  /\ parse (stringify messages) = Some messages
  /\ (forall next,
        parse (request_body next (historyToSend true (submit server st prompt isRefinement)))
        = Some (request_json next (history (submit server st prompt isRefinement))))
  /\ (forall env next,
        Route.nonempty (Js.trim next) = true ->
        exists payload,
          snd (HistoryRoute.POST env
                 (request_body (Js.trim next)
                    (historyToSend true (submit server st prompt isRefinement))))
          = [(Route.A2A_AGENT_URL env, stringify payload)]
          /\ HistoryRoute.conversationHistory payload
             = Some (JArray (map turn_json
                               (history (submit server st prompt isRefinement))))).
Proof.
  intros Hp Ht Ho. rewrite (submit_runs server st prompt isRefinement Hp Ht).
  cbn zeta. rewrite Ho. cbn [history historyToSend]. repeat split.
  - intros t -> Hne. unfold assistantContent. destruct t; [congruence | reflexivity].
  - intros [-> | ->]; reflexivity.
  - apply assistantContent_suffix.
  - apply parse_stringify.
  - intros next. apply parse_stringify.
  - intros env next Hn. apply history_route_forwards; [exact Hn | apply trim_idem].
Qed.

Lemma C4_witness :
  history Sample.one_turn
  = [ {| role := user; content := "Build a contact form" |};
      {| role := assistant; content := Sample.begin_s1 |} ].
Proof.
  destruct (C4_thread_after_success
              (served_by (Sample.env_with (Route.Resolved 200 Sample.data_only))) initial
              "Build a contact form" false
              (JArray [Sample.begin_s1_message]) (Some (JString EmptyString))
              eq_refl eq_refl eq_refl) as (H & _).
  exact H.
Defined.

(** C4 as stated fails twice on a prompt typed with spaces around it and an
    answer without text: the user turn holds the trimmed prompt, not the raw
    one, and the content of the assistant turn holds no delimiter. *)
Lemma C4_counterexample :
  history (submit (served_by (Sample.env_with (Route.Resolved 200 Sample.data_only)))
             initial "  Build a contact form  " false)
  = [ {| role := user; content := "Build a contact form" |};
      {| role := assistant; content := Sample.begin_s1 |} ]
  /\ "Build a contact form" <> "  Build a contact form  "
  /\ Js.includes Route.delimiter Sample.begin_s1 = false.
Proof. repeat split. discriminate. Qed.


(** C7: on every state a session reaches, a submission that succeeds adds
    one user turn and one assistant turn to the thread, whose length is even
    afterwards; a submission that fails leaves the thread as it was, and
    the same submission made again sends the same history. *)
Theorem C7_paired_turns (server : string -> Route.FetchResult) (st : State) (e : Event)
    (p : string) (isRef : bool) :
  reachable st ->
  offered st e = true ->
  turn_of e = Some (p, isRef) ->
  Route.nonempty (Js.trim p) = true ->
  Nat.Even (List.length (history st))
  /\ Nat.Even (List.length (history (handle server st e)))
  /\ match outcome (server (request_body (Js.trim p) (history st))) with
     | Produced messages text =>
         history (handle server st e)
         = (history st ++ [ {| role := user; content := Js.trim p |};
                            {| role := assistant;
                               content := assistantContent messages text |} ])%list
         /\ List.length (history (handle server st e)) = List.length (history st) + 2
     | Failed _ =>
         history (handle server st e) = history st
         /\ historyToSend isRef (handle server st e) = historyToSend isRef st
     end.
Proof.
  intros Hr Ho Ht Hp.
  destruct (reachable_Inv _ Hr) as [Hev _].
  destruct (reachable_Inv _ (reach_handle server st e Hr)) as [Hev' _].
  destruct (sent_is_thread st e p isRef Hr Ho Ht) as (Hsent & _ & Hth).
  destruct (offered_turn st e p isRef Ho Ht) as [_ Hh].
  repeat split; [exact Hev | exact Hev' |].
  rewrite Hh, (submit_runs server st p isRef Hp Hth). cbn zeta. rewrite Hsent.
  destruct (outcome _); cbn [history]; split; try reflexivity.
  - rewrite List.length_app. reflexivity.
  - destruct isRef; cbn [historyToSend history] in *; [reflexivity | exact Hsent].
Qed.

Lemma C7_witness :
  history (handle (fun _ => Route.Rejected Sample.timed_out) Sample.one_turn (Refine "add a phone field"))
  = history Sample.one_turn
  /\ List.length (history (handle (served_by (Sample.env_with (Route.Resolved 200 Sample.data_only)))
                             Sample.one_turn (Refine "add a phone field")))
     = List.length (history Sample.one_turn) + 2.
Proof.
  pose proof (reach_handle (served_by (Sample.env_with (Route.Resolved 200 Sample.data_only)))
                initial (Generate "Build a contact form") reach_initial) as Hr.
  assert (Ho : offered Sample.one_turn (Refine "add a phone field") = true)
    by (vm_compute; reflexivity).
  assert (Hp : Route.nonempty (Js.trim "add a phone field") = true)
    by (vm_compute; reflexivity).
  pose proof (C7_paired_turns (fun _ => Route.Rejected Sample.timed_out) Sample.one_turn
                (Refine "add a phone field") "add a phone field" true
                Hr Ho eq_refl Hp) as Hf.
  pose proof (C7_paired_turns (served_by (Sample.env_with (Route.Resolved 200 Sample.data_only)))
                Sample.one_turn (Refine "add a phone field") "add a phone field" true
                Hr Ho eq_refl Hp) as Hs.
  vm_compute in Hf, Hs. vm_compute.
  destruct Hf as (_ & _ & Hf & _). destruct Hs as (_ & _ & _ & Hs).
  split; [exact Hf | exact Hs].
Defined.

(** What the route answers when the agent cannot be reached is no success
    for [submit]. *)
Lemma outcome_agent_down (env : Route.Env) (exn : Route.Exn) (trimmed : string)
    (sent : list HistoryTurn) :
  (forall url payload, Route.agent env url payload = Route.Rejected exn) ->
  Route.nonempty trimmed = true -> Js.trim trimmed = trimmed ->
  exists message, outcome (served_by env (request_body trimmed sent)) = Failed message.
Proof.
  intros Hdown Hne Htrim. unfold served_by, Route.POST, request_body.
  rewrite parse_stringify. cbn [request_json Route.destructure_prompt get lookup String.eqb
                                Ascii.eqb Bool.eqb].
  unfold Route.valid_prompt. rewrite Htrim, Hne. cbn [andb]. rewrite Hdown.
  destruct (match Route.exn_cause_code exn with
            | Some c => String.eqb c "ECONNREFUSED"
            | None => false
            end);
    [| destruct (String.eqb (Route.exn_name exn) "TimeoutError")];
    cbn [fst Route.status Route.error_response Route.internal_error];
    rewrite outcome_not_ok by reflexivity; eexists; reflexivity.
Qed.

Lemma outcome_rejected (exn : Route.Exn) :
  outcome (Route.Rejected exn) = Failed (Route.exn_message exn).
Proof. reflexivity. Qed.

(** A submission that fails leaves thread and messages as they were. *)
Lemma failed_turn_keeps (server : string -> Route.FetchResult) (st : State) (e : Event)
    (p : string) (isRef : bool) :
  reachable st -> offered st e = true -> turn_of e = Some (p, isRef) ->
  (Route.nonempty (Js.trim p) = true ->
   exists message,
     outcome (server (request_body (Js.trim p) (historyToSend isRef st))) = Failed message) ->
  history (handle server st e) = history st
  /\ a2uiMessages (handle server st e) = a2uiMessages st.
Proof.
  intros Hr Ho Ht Hfail.
  destruct (sent_is_thread st e p isRef Hr Ho Ht) as (Hsent & Hmsg & Hth).
  destruct (offered_turn st e p isRef Ho Ht) as [_ Hh]. rewrite Hh.
  destruct (Route.nonempty (Js.trim p)) eqn:Hp;
    [| rewrite submit_blank by exact Hp; now split].
  destruct (Hfail eq_refl) as [message Hm].
  rewrite (submit_runs server st p isRef Hp Hth). cbn zeta. rewrite Hm.
  cbn [history a2uiMessages]. now split.
Qed.

(** C8: on every state a session reaches, a submission whose request to the
    agent is refused, runs out of time or fails otherwise - and likewise
    one that cannot reach the endpoint itself - leaves the thread and the
    messages last produced as they were before it. *)
Theorem C8_transport_failure_keeps_state (env : Route.Env) (exn : Route.Exn)
    (st : State) (e : Event) (p : string) (isRef : bool) :
  reachable st ->
  offered st e = true ->
  turn_of e = Some (p, isRef) ->
  ((forall url payload, Route.agent env url payload = Route.Rejected exn) ->
   history (handle (served_by env) st e) = history st
   /\ a2uiMessages (handle (served_by env) st e) = a2uiMessages st)
  /\ (history (handle (fun _ => Route.Rejected exn) st e) = history st
      /\ a2uiMessages (handle (fun _ => Route.Rejected exn) st e) = a2uiMessages st).
Proof.
  intros Hr Ho Ht. split.
  - intros Hdown. apply (failed_turn_keeps _ st e p isRef Hr Ho Ht).
    intros Hp. apply outcome_agent_down with (exn := exn); [exact Hdown | exact Hp |].
    apply trim_idem.
  - apply (failed_turn_keeps _ st e p isRef Hr Ho Ht).
    intros _. eexists. apply outcome_rejected.
Qed.

Lemma C8_witness :
  history (handle (served_by (Sample.env_with (Route.Rejected Sample.refused))) Sample.one_turn
             (Refine "add a phone field")) = history Sample.one_turn
  /\ a2uiMessages (handle (served_by (Sample.env_with (Route.Rejected Sample.refused))) Sample.one_turn
                     (Refine "add a phone field")) = a2uiMessages Sample.one_turn.
Proof.
  pose proof (reach_handle (served_by (Sample.env_with (Route.Resolved 200 Sample.data_only)))
                initial (Generate "Build a contact form") reach_initial) as Hr.
  assert (Ho : offered Sample.one_turn (Refine "add a phone field") = true)
    by (vm_compute; reflexivity).
  destruct (C8_transport_failure_keeps_state (Sample.env_with (Route.Rejected Sample.refused))
              Sample.refused Sample.one_turn (Refine "add a phone field") "add a phone field" true
              Hr Ho eq_refl) as [Hdown _].
  exact (Hdown (fun _ _ => eq_refl)).
Defined.

End PageFacts.

(** ** The renderer *)

Section RendererClaim.
Import Json Page.





End RendererClaim.

(** * Further properties *)

(** ** Substrings *)

Section SubstringFacts.

Lemma within_refl (s : string) : Js.within s s.
Proof. exists EmptyString, EmptyString. now rewrite sapp_nil_r. Qed.

Lemma within_trans (a b c : string) : Js.within a b -> Js.within b c -> Js.within a c.
Proof.
  intros (x & y & ->) (u & v & ->). exists (u ++ x), (y ++ v).
  now rewrite !sapp_assoc.
Qed.

Lemma within_includes (p a s : string) :
  Js.within a s -> Js.includes p s = false -> Js.includes p a = false.
Proof.
  intros (x & y & ->) H. destruct (Js.includes p a) eqn:E; [| reflexivity].
  destruct (includes_elim _ _ E) as (u & v & ->).
  replace (x ++ (u ++ p ++ v) ++ y) with ((x ++ u) ++ p ++ (v ++ y)) in H
    by (now rewrite !sapp_assoc).
  rewrite includes_intro in H. discriminate.
Qed.

Lemma trimStart_suffix (s : string) : exists w, s = w ++ Js.trimStart s.
Proof.
  induction s as [|c s [w IH]]; [now exists EmptyString |]. simpl.
  destruct (Js.is_space c).
  - exists (String c w). simpl. now rewrite <- IH.
  - now exists EmptyString.
Qed.

Lemma within_trimStart (s : string) : Js.within (Js.trimStart s) s.
Proof.
  destruct (trimStart_suffix s) as [w H]. exists w, EmptyString.
  now rewrite sapp_nil_r.
Qed.

Lemma within_trimEnd (s : string) : Js.within (Js.trimEnd s) s.
Proof. destruct (trimEnd_prefix s) as [w H]. now exists EmptyString, w. Qed.

Lemma within_trim (s : string) : Js.within (Js.trim s) s.
Proof.
  unfold Js.trim. eapply within_trans; [apply within_trimEnd | apply within_trimStart].
Qed.

Lemma drop_suffix (n : nat) (s : string) : exists w, s = w ++ Js.drop n s.
Proof.
  revert s; induction n as [|n IH]; intros s; [now exists EmptyString |].
  destruct s as [|c s]; [now exists EmptyString |].
  destruct (IH s) as [w H]. exists (String c w). simpl. now rewrite <- H.
Qed.

Lemma within_strip_open (lit s : string) : Js.within (Js.strip_open lit s) s.
Proof.
  unfold Js.strip_open. destruct (Js.startsWith_i lit s); [| apply within_refl].
  eapply within_trans; [apply within_trimStart |].
  destruct (drop_suffix (String.length lit) s) as [w H]. exists w, EmptyString.
  now rewrite sapp_nil_r.
Qed.

Lemma chop_end_prefix (ci : bool) (lit s r : string) :
  Js.chop_end ci lit s = Some r -> exists tail, s = r ++ tail.
Proof.
  revert r; induction s as [|c s IH]; intros r H; cbn [Js.chop_end] in H.
  - destruct (_ =? _); [| discriminate]. destruct (if ci then _ else _); [| discriminate].
    injection H as <-. now exists EmptyString.
  - destruct (_ =? _).
    + destruct (if ci then _ else _); [| discriminate]. injection H as <-.
      now exists (String c s).
    + destruct (Js.chop_end ci lit s) as [r'|]; [| discriminate]. injection H as <-.
      destruct (IH r' eq_refl) as [tail ->]. now exists tail.
Qed.

Lemma within_strip_close (ci : bool) (lit s : string) : Js.within (Js.strip_close ci lit s) s.
Proof.
  unfold Js.strip_close. destruct (Js.chop_end ci lit s) as [r|] eqn:E; [| apply within_refl].
  eapply within_trans; [apply within_trimEnd |].
  destruct (chop_end_prefix _ _ _ _ E) as [tail ->]. now exists EmptyString, tail.
Qed.

End SubstringFacts.

(** ** The normaliser as a whole *)

Section NormaliserFacts.
Import Json Route.

Lemma within_strip_text_tag (s : string) : Js.within (strip_text_tag s) s.
Proof.
  unfold strip_text_tag.
  eapply within_trans; [apply within_trim |].
  eapply within_trans; [apply within_strip_close | apply within_strip_open].
Qed.

(** X1: The text of an answer has no white space at either end. *)
Theorem normalize_text_trimmed (parts : list Part) :
  Js.trim (textContent (normalize parts)) = textContent (normalize parts)
  /\ Js.tight_start (textContent (normalize parts))
  /\ Js.trimEnd (textContent (normalize parts)) = textContent (normalize parts).
Proof.
  unfold normalize. cbn [textContent]. unfold strip_text_tag.
  set (t := Js.strip_close true "</text>" _).
  repeat split.
  - apply trim_idem.
  - apply trim_tight.
  - unfold Js.trim. apply trimEnd_idem.
Qed.

(** X2: A text wrapped in [<text>] and [</text>] comes out as the trimmed
    text inside. *)
Theorem strip_text_tag_wrapped (tag close w1 body w2 : string) :
  text_open tag -> text_close close ->
  Js.blank w1 = true -> Js.blank w2 = true ->
  strip_text_tag (tag ++ w1 ++ body ++ w2 ++ close) = Js.trim body.
Proof.
  intros [Hl Hs] [Hcl Hcs] H1 H2. unfold strip_text_tag, Js.strip_open.
  rewrite startsWith_i_app by assumption.
  change (String.length "<text>") with 6. rewrite <- Hl, drop_app.
  rewrite trimStart_blank by exact H1.
  replace (body ++ w2 ++ close) with ((body ++ w2) ++ close) by apply sapp_assoc.
  destruct close as [|c close]; [discriminate |].
  assert (Hc : Js.is_space c = false).
  { simpl in Hcs. apply andb_true_iff in Hcs as [Hc _].
    destruct c as [[] [] [] [] [] [] [] []]; try discriminate Hc; reflexivity. }
  rewrite trimStart_app_tight by exact Hc.
  unfold Js.strip_close. rewrite chop_end_app by assumption.
  fold (Js.trim (body ++ w2)). rewrite trim_app_blank by exact H2.
  apply trim_idem.
Qed.

Lemma strip_text_tag_wrapped_witness :
  strip_text_tag ("<TEXT>" ++ Sample.nl ++ "  Here is your form. " ++ Sample.nl ++ "</Text>")
  = "Here is your form.".
Proof.
  apply (strip_text_tag_wrapped "<TEXT>" "</Text>" Sample.nl "  Here is your form. " Sample.nl);
    try reflexivity; split; reflexivity.
Defined.

(** X3: When the loop has found a message the fallback adds none: the messages
    of the answer are those of the parts, in the order of the parts. *)
Theorem normalize_messages_in_order (parts : list Part) :
  flat_map contribution parts <> [] ->
  a2uiMessages (normalize parts) = flat_map contribution parts.
Proof.
  intros H. unfold normalize. cbn [a2uiMessages].
  destruct (fallback_messages (collect parts)) as (extra & He & Hx).
  rewrite He, collect_messages. rewrite Hx by (now rewrite collect_messages).
  apply List.app_nil_r.
Qed.

Lemma normalize_messages_in_order_witness :
  a2uiMessages (normalize [text_part Sample.here_begin;
                           data_part a2ui_mime (JString "second");
                           text_part Sample.truncated])
  = flat_map contribution [text_part Sample.here_begin;
                           data_part a2ui_mime (JString "second");
                           text_part Sample.truncated].
Proof.
  apply normalize_messages_in_order. vm_compute. discriminate.
Defined.

(** X4: An answer without messages never carries the delimiter in its text. *)
Theorem no_messages_no_delimiter (parts : list Part) :
  a2uiMessages (normalize parts) = [] ->
  Js.includes delimiter (textContent (normalize parts)) = false.
Proof.
  unfold normalize. cbn [a2uiMessages textContent]. intros H.
  apply (within_includes _ _ _ (within_strip_text_tag _)).
  unfold fallback in *.
  destruct (List.length (a2uiMessages (collect parts)) =? 0) eqn:El; cbn [andb] in *.
  - destruct (Js.includes delimiter (textContent (collect parts))) eqn:Ei; [| exact Ei].
    cbn [textContent]. rewrite cut_includes in Ei.
    destruct (Js.cut delimiter (textContent (collect parts))) as [[b a]|] eqn:Ec;
      [| discriminate].
    destruct (pieces _ _ _ Ec) as (_ & -> & _).
    exact (includes_trimEnd _ _ (cut_before_free _ _ _ _ delimiter_nonempty Ec)).
  - rewrite H in El. discriminate.
Qed.

Lemma no_messages_no_delimiter_witness :
  Js.includes delimiter
    (textContent (normalize [text_part "---a2ui_"; text_part "JSON---[{"])) = false.
Proof. apply no_messages_no_delimiter. reflexivity. Defined.

Lemma fallback_off (acc : Acc) :
  (List.length (a2uiMessages acc) =? 0) && Js.includes delimiter (textContent acc) = false ->
  fallback acc = acc.
Proof. intros H. unfold fallback. now rewrite H. Qed.

Lemma fold_step_plain (raws : list string) (acc : Acc) :
  Forall (fun raw => Js.includes delimiter raw = false) raws ->
  fold_left step (map text_part raws) acc
  = {| a2uiMessages := a2uiMessages acc; textContent := textContent acc ++ joined raws |}.
Proof.
  intros H. revert acc. induction H as [|raw raws Hr _ IH]; intros acc; cbn [map fold_left joined fold_right].
  - rewrite sapp_nil_r. now destruct acc.
  - rewrite IH, (step_plain acc _ raw (text_part_is_text raw) Hr).
    cbn [a2uiMessages textContent]. now rewrite sapp_assoc.
Qed.

Lemma includes_app_r (p w s : string) :
  Js.includes p (w ++ s) = false -> Js.includes p s = false.
Proof.
  intros H. destruct (Js.includes p s) eqn:E; [| reflexivity].
  destruct (includes_elim _ _ E) as (x & y & ->).
  rewrite <- sapp_assoc, includes_intro in H. discriminate.
Qed.

Lemma joined_free (raws : list string) :
  Js.includes delimiter (joined raws) = false ->
  Forall (fun raw => Js.includes delimiter raw = false) raws.
Proof.
  induction raws as [|raw raws IH]; intros H; constructor.
  - now apply includes_app_l in H.
  - apply IH. now apply includes_app_r in H.
Qed.

(** X5: Text parts whose texts, put together, hold no delimiter give no
    message, and their texts put together as the text of the answer. *)
Theorem normalize_plain_text (raws : list string) :
  Js.includes delimiter (joined raws) = false ->
  normalize (map text_part raws)
  = {| a2uiMessages := []; textContent := strip_text_tag (joined raws) |}.
Proof.
  intros H. unfold normalize, collect.
  rewrite (fold_step_plain raws start (joined_free raws H)).
  cbn [a2uiMessages textContent start append].
  unfold fallback. cbn [a2uiMessages textContent List.length Nat.eqb andb]. rewrite H.
  reflexivity.
Qed.

Lemma normalize_plain_text_witness :
  normalize (map text_part ["  Here is "; "what I found.  "])
  = {| a2uiMessages := []; textContent := "Here is what I found." |}.
Proof. apply (normalize_plain_text ["  Here is "; "what I found.  "]). reflexivity. Defined.

(** X6: Parts the loop passes over: a part that is neither of kind [text] nor
    of kind [data], a text part whose [text] is no string, and a data part
    with another mime type or with data that is missing or falsy. *)
Theorem step_ignores (acc : Acc) (part : Part) :
  (is_string "text" (kind part) = false \/ (forall s, text part <> Some (JString s))) ->
  (is_string "data" (kind part) = false
   \/ is_string a2ui_mime (mimeType part) = false
   \/ truthy_opt (data part) = false) ->
  step acc part = acc.
Proof.
  intros Ht Hd. unfold step.
  assert (H1 : collect_text acc part = acc).
  { unfold collect_text. destruct (kind part) as [[| | |k| |]|]; try reflexivity.
    destruct (text part) as [[| | |raw| |]|]; try reflexivity.
    destruct Ht as [Ht | Ht]; [| now elim (Ht raw)].
    cbn [is_string] in Ht. now rewrite Ht. }
  rewrite H1. unfold collect_data.
  destruct Hd as [-> | [-> | ->]]; rewrite ?andb_false_r; reflexivity.
Qed.

Lemma step_ignores_witness :
  step start {| kind := Some (JString "file"); text := Some (JString "ignored");
                mimeType := Some (JString a2ui_mime); data := Some (JBool true) |} = start
  /\ step start (data_part a2ui_mime JNull) = start.
Proof.
  split.
  - apply step_ignores; left; reflexivity.
  - apply step_ignores; [left; reflexivity | right; right; reflexivity].
Defined.

(** A data part of the A2UI mime type with truthy data adds its data as
    one message, unparsed, and leaves the text alone. *)
Lemma step_data_part (acc : Acc) (part : Part) (d : json) :
  kind part = Some (JString "data") ->
  mimeType part = Some (JString a2ui_mime) ->
  data part = Some d -> truthy d = true ->
  step acc part
  = {| a2uiMessages := (a2uiMessages acc ++ [d])%list; textContent := textContent acc |}.
Proof.
  intros Hk Hm Hd Ht. unfold step, collect_text, collect_data. rewrite Hk, Hm, Hd.
  destruct (text part) as [[| | |raw| |]|]; cbn [is_string String.eqb Ascii.eqb Bool.eqb andb truthy_opt];
    rewrite Ht; reflexivity.
Qed.

Lemma fold_step_data (ds : list json) (acc : Acc) :
  Forall (fun d => truthy d = true) ds ->
  fold_left step (map (data_part a2ui_mime) ds) acc
  = {| a2uiMessages := (a2uiMessages acc ++ ds)%list; textContent := textContent acc |}.
Proof.
  intros H. revert acc. induction H as [|d ds Hd _ IH]; intros acc; cbn [map fold_left].
  - rewrite List.app_nil_r. now destruct acc.
  - rewrite IH, (step_data_part acc (data_part a2ui_mime d) d eq_refl eq_refl eq_refl Hd).
    cbn [a2uiMessages textContent]. now rewrite <- List.app_assoc.
Qed.

(** X7: An answer made of data parts of the A2UI mime type, each with truthy
    data, gives those data as its messages, one message per part, unparsed
    and in the order of the parts, and an empty text. *)
Theorem normalize_data_parts (ds : list json) :
  Forall (fun d => truthy d = true) ds ->
  normalize (map (data_part a2ui_mime) ds)
  = {| a2uiMessages := ds; textContent := EmptyString |}.
Proof.
  intros H. unfold normalize, collect. rewrite (fold_step_data ds start H).
  cbn [a2uiMessages textContent start app].
  unfold fallback. cbn [a2uiMessages textContent Js.includes Js.startsWith delimiter].
  rewrite andb_false_r. reflexivity.
Qed.

Lemma normalize_data_parts_witness :
  normalize (map (data_part a2ui_mime)
               [Sample.begin_s1_message; JArray [Sample.begin_s1_message]])
  = {| a2uiMessages := [Sample.begin_s1_message; JArray [Sample.begin_s1_message]];
       textContent := EmptyString |}.
Proof.
  apply (normalize_data_parts [Sample.begin_s1_message; JArray [Sample.begin_s1_message]]).
  repeat constructor.
Defined.

End NormaliserFacts.

(** ** The handler *)

Section HandlerFacts.
Import Json Route.

Lemma valid_prompt_string (p : string) :
  nonempty (Js.trim p) = true -> valid_prompt (Some (JString p)) = Some p.
Proof.
  intros H. unfold valid_prompt. rewrite H.
  destruct p; [discriminate H | reflexivity].
Qed.

Lemma asks_request_body (trimmed : string) (sent : list Page.HistoryTurn) :
  nonempty (Js.trim trimmed) = true -> asks (Page.request_body trimmed sent) trimmed.
Proof.
  intros H. exists (Page.request_json trimmed sent).
  split; [apply parse_stringify | split; [reflexivity | exact H]].
Qed.

(** The handler past its validation. *)
Lemma POST_valid (env : Env) (req p : string) :
  asks req p ->
  POST env req
  = let payload := stringify (rpcPayload env p) in
    let call := (A2A_AGENT_URL env, payload) in
    match agent env (A2A_AGENT_URL env) payload with
    | Rejected e =>
        if match exn_cause_code e with
           | Some c => String.eqb c "ECONNREFUSED"
           | None => false
           end
        then (error_response
                (JString ("Cannot reach the A2A agent at " ++ A2A_AGENT_URL env
                          ++ ". Is the Python agent running?"))
                (Some "AGENT_UNAVAILABLE") 503, [call])
        else if String.eqb (exn_name e) "TimeoutError"
        then (error_response (JString "A2A agent timed out. Try again later.")
                (Some "AGENT_TIMEOUT") 504, [call])
        else (internal_error e, [call])
    | Resolved st txt =>
        if negb (ok st)
        then (error_response (JString ("Agent returned " ++ print_int (Z.of_nat st)))
                None 502, [call])
        else match parse txt with
             | None => (internal_error syntax_error, [call])
             | Some rpcResult => (respond env rpcResult, [call])
             end
    end.
Proof.
  intros (reqBody & Hreq & Hp & Hne). unfold POST. rewrite Hreq.
  assert (Hd : destructure_prompt reqBody = Some (Some (JString p))).
  { destruct reqBody; try discriminate Hp. unfold destructure_prompt. now rewrite Hp. }
  rewrite Hd, (valid_prompt_string p Hne). reflexivity.
Qed.

Lemma refused_code (e : Exn) :
  (match exn_cause_code e with
   | Some c => String.eqb c "ECONNREFUSED"
   | None => false
   end) = true <-> exn_cause_code e = Some "ECONNREFUSED".
Proof.
  destruct (exn_cause_code e) as [c|]; [| split; discriminate].
  rewrite String.eqb_eq. split; [now intros -> | now intros [= ->]].
Qed.

(** The two shapes of what [respond] gives. *)
Lemma respond_shape (env : Env) (rpcResult : json) :
  (status (respond env rpcResult) = 200
   /\ exists parts, body (respond env rpcResult)
                    = result_body env rpcResult (normalize parts))
  \/ (status (respond env rpcResult) = 500
      /\ exists e, body (respond env rpcResult) = JObject [("error", e)]).
Proof.
  unfold respond, respond_with.
  destruct rpcResult; try (right; split; [reflexivity | eexists; reflexivity]);
    (destruct (truthy_opt _); [right; split; [reflexivity | eexists; reflexivity] |]);
    (destruct (iterate _) as [items|]; [| right; split; [reflexivity | eexists; reflexivity]]);
    (destruct (to_parts items) as [parts|]; [| right; split; [reflexivity | eexists; reflexivity]]);
    left; (split; [reflexivity | exists parts; reflexivity]).
Qed.

(** X8: Every answer of the handler has one of two shapes.  With status 200 it
    carries [messages], an array, and [text], a string with no white space
    around it, and no [error].  Otherwise its status is 400, 500, 502, 503
    or 504 and it carries an [error] and no [messages]. *)
Theorem POST_answer_shape (env : Env) (req : string) :
  (status (fst (POST env req)) = 200
   /\ exists messages text,
        get "messages" (body (fst (POST env req))) = Some (JArray messages)
        /\ get "text" (body (fst (POST env req))) = Some (JString text)
        /\ Js.trim text = text
        /\ get "error" (body (fst (POST env req))) = None)
  \/ (In (status (fst (POST env req))) [400; 500; 502; 503; 504]
      /\ get "messages" (body (fst (POST env req))) = None
      /\ exists e, get "error" (body (fst (POST env req))) = Some e).
Proof.
  assert (Herr : forall (m : json) (c : option string) (st : nat) (calls : list Call),
             In st [400; 500; 502; 503; 504] ->
             In (status (fst (error_response m c st, calls))) [400; 500; 502; 503; 504]
             /\ get "messages" (body (fst (error_response m c st, calls))) = None
             /\ exists e, get "error" (body (fst (error_response m c st, calls))) = Some e).
  { intros m c st calls Hin. split; [exact Hin |].
    destruct c; split; try reflexivity; exists m; reflexivity. }
  unfold POST.
  destruct (parse req) as [reqBody|]; [| right; apply Herr; simpl; tauto].
  destruct (destructure_prompt reqBody) as [field|]; [| right; apply Herr; simpl; tauto].
  destruct (valid_prompt field) as [p|]; [| right; apply Herr; simpl; tauto].
  cbv zeta.
  destruct (agent env _ _) as [e | st txt].
  - destruct (match exn_cause_code e with Some _ => _ | None => _ end);
      [| destruct (String.eqb (exn_name e) "TimeoutError")];
      right; apply Herr; simpl; tauto.
  - destruct (negb (ok st)); [right; apply Herr; simpl; tauto |].
    destruct (parse txt) as [rpcResult|]; [| right; apply Herr; simpl; tauto].
    cbn [fst].
    destruct (respond_shape env rpcResult) as [[Hs [parts Hb]] | [Hs [e Hb]]].
    + left. split; [exact Hs |]. rewrite Hb.
      exists (a2uiMessages (normalize parts)), (textContent (normalize parts)).
      unfold result_body. cbn [normalize a2uiMessages textContent].
      repeat split; try (destruct (development env); reflexivity).
      unfold strip_text_tag. apply trim_idem.
    + right. rewrite Hs, Hb. split; [simpl; tauto |].
      split; [reflexivity | exists e; reflexivity].
Qed.

(** The one request the handler makes for a request it lets through. *)
Lemma POST_call (env : Env) (req p : string) :
  asks req p ->
  snd (POST env req) = [(A2A_AGENT_URL env, stringify (rpcPayload env p))].
Proof.
  intros Hreq. rewrite (POST_valid env req p Hreq). cbv zeta.
  destruct (agent env _ _) as [e | st txt].
  - destruct (match exn_cause_code e with Some _ => _ | None => _ end);
      [| destruct (String.eqb (exn_name e) "TimeoutError")]; reflexivity.
  - destruct (negb (ok st)); [reflexivity |]. destruct (parse txt); reflexivity.
Qed.

Lemma POST_accepted (env : Env) (req p : string) :
  asks req p -> status (fst (POST env req)) <> 400.
Proof.
  intros Hreq. rewrite (POST_valid env req p Hreq). cbv zeta.
  destruct (agent env _ _) as [e | st txt].
  - destruct (match exn_cause_code e with Some _ => _ | None => _ end);
      [| destruct (String.eqb (exn_name e) "TimeoutError")]; discriminate.
  - destruct (negb (ok st)); [discriminate |].
    destruct (parse txt) as [rpcResult|]; [| discriminate].
    cbn [fst]. destruct (respond_shape env rpcResult) as [[Hs _] | [Hs _]];
      rewrite Hs; discriminate.
Qed.

(** X9: A request with a prompt that is a string and not blank goes to the
    agent once, whatever the agent answers: to the configured URL, with a
    JSON body whose only part is the trimmed prompt. *)
Theorem POST_calls_agent_once (env : Env) (req p : string) :
  asks req p ->
  exists payload,
    snd (POST env req) = [(A2A_AGENT_URL env, stringify payload)]
    /\ parse (stringify payload) = Some payload
    /\ sent_parts payload
       = Some (JArray [JObject [("kind", JString "text"); ("text", JString (Js.trim p))]]).
Proof.
  intros Hreq. exists (rpcPayload env p).
  split; [exact (POST_call env req p Hreq) | split; [apply parse_stringify | reflexivity]].
Qed.

Lemma POST_calls_agent_once_witness :
  exists payload,
    snd (POST (Sample.env_with (Rejected Sample.timed_out)) (dq "{'prompt':'  hi  '}"))
    = [("http://localhost:10002", stringify payload)]
    /\ parse (stringify payload) = Some payload
    /\ sent_parts payload
       = Some (JArray [JObject [("kind", JString "text"); ("text", JString "hi")]]).
Proof.
  apply (POST_calls_agent_once (Sample.env_with (Rejected Sample.timed_out))
           (dq "{'prompt':'  hi  '}") "  hi  ").
  exists (JObject [("prompt", JString "  hi  ")]).
  split; [vm_compute; reflexivity | split; reflexivity].
Defined.

(** X10: The handler never makes more than one request to the agent, and none
    for a request it answers with 400. *)
Theorem POST_calls_bounded (env : Env) (req : string) :
  List.length (snd (POST env req)) <= 1
  /\ (status (fst (POST env req)) = 400 -> snd (POST env req) = []).
Proof.
  unfold POST. destruct (parse req) as [reqBody|]; [| split; [simpl; lia | reflexivity]].
  destruct (destructure_prompt reqBody) as [field|]; [| split; [simpl; lia | reflexivity]].
  destruct (valid_prompt field) as [p|]; [| split; [simpl; lia | reflexivity]].
  cbv zeta.
  destruct (agent env _ _) as [e | st txt].
  - destruct (match exn_cause_code e with Some _ => _ | None => _ end);
      [| destruct (String.eqb (exn_name e) "TimeoutError")];
      (split; [simpl; lia | discriminate]).
  - destruct (negb (ok st)); [split; [simpl; lia | discriminate] |].
    destruct (parse txt) as [rpcResult|]; [| split; [simpl; lia | discriminate]].
    split; [simpl; lia |]. cbn [fst].
    destruct (respond_shape env rpcResult) as [[Hs _] | [Hs _]]; rewrite Hs; discriminate.
Qed.

(** X11: The handler reads nothing of the request but its prompt: the thread the
    page sends along changes neither the answer nor the request to the
    agent. *)
Theorem POST_ignores_history (env : Env) (trimmed : string)
    (sent sent' : list Page.HistoryTurn) :
  POST env (Page.request_body trimmed sent) = POST env (Page.request_body trimmed sent').
Proof.
  unfold POST, Page.request_body. rewrite !parse_stringify. reflexivity.
Qed.

(** X12: How a rejected request to the agent is answered: a refused connection
    with 503 and the code [AGENT_UNAVAILABLE], also when the error is named
    [TimeoutError]; otherwise an expired time limit with 504 and the code
    [AGENT_TIMEOUT]; any other error with 500 and its own message. *)
Theorem POST_agent_rejected (env : Env) (req p : string) (e : Exn) :
  asks req p ->
  agent env (A2A_AGENT_URL env) (stringify (rpcPayload env p)) = Rejected e ->
  (exn_cause_code e = Some "ECONNREFUSED" ->
   status (fst (POST env req)) = 503
   /\ get "code" (body (fst (POST env req))) = Some (JString "AGENT_UNAVAILABLE"))
  /\ (exn_cause_code e <> Some "ECONNREFUSED" -> exn_name e = "TimeoutError" ->
      status (fst (POST env req)) = 504
      /\ get "code" (body (fst (POST env req))) = Some (JString "AGENT_TIMEOUT"))
  /\ (exn_cause_code e <> Some "ECONNREFUSED" -> exn_name e <> "TimeoutError" ->
      fst (POST env req)
      = {| status := 500; body := JObject [("error", JString (exn_message e))] |}).
Proof.
  intros Hreq Hag. rewrite (POST_valid env req p Hreq). cbv zeta. rewrite Hag.
  split; [| split].
  - intros Hc. rewrite Hc. cbn. split; reflexivity.
  - intros Hc Hn.
    destruct (match exn_cause_code e with Some _ => _ | None => _ end) eqn:E;
      [now elim Hc; apply refused_code |]. rewrite Hn. cbn. split; reflexivity.
  - intros Hc Hn.
    destruct (match exn_cause_code e with Some _ => _ | None => _ end) eqn:E;
      [now elim Hc; apply refused_code |].
    apply String.eqb_neq in Hn. now rewrite Hn.
Qed.

Lemma POST_agent_rejected_witness :
  exn_cause_code Sample.timed_out <> Some "ECONNREFUSED"
  /\ exn_name Sample.timed_out = "TimeoutError"
  /\ status (fst (POST (Sample.env_with (Rejected Sample.timed_out)) (dq "{'prompt':'hi'}")))
     = 504
  /\ get "code" (body (fst (POST (Sample.env_with (Rejected Sample.timed_out))
                             (dq "{'prompt':'hi'}"))))
     = Some (JString "AGENT_TIMEOUT").
Proof.
  assert (Hc : exn_cause_code Sample.timed_out <> Some "ECONNREFUSED")
    by (vm_compute; discriminate).
  assert (Hn : exn_name Sample.timed_out = "TimeoutError") by reflexivity.
  assert (Hreq : asks (dq "{'prompt':'hi'}") "hi").
  { exists (JObject [("prompt", JString "hi")]).
    split; [vm_compute; reflexivity | split; reflexivity]. }
  split; [exact Hc | split; [exact Hn |]].
  destruct (POST_agent_rejected (Sample.env_with (Rejected Sample.timed_out))
              (dq "{'prompt':'hi'}") "hi" Sample.timed_out Hreq eq_refl) as [_ [Ht _]].
  exact (Ht Hc Hn).
Defined.

(** X13: An answer of the agent with a status outside 200..299 is turned into
    502 with the message [Agent returned <status>], whatever its body. *)
Theorem POST_agent_not_ok (env : Env) (req p : string) (st : nat) (txt : string) :
  asks req p ->
  agent env (A2A_AGENT_URL env) (stringify (rpcPayload env p)) = Resolved st txt ->
  st < 200 \/ 299 < st ->
  fst (POST env req)
  = {| status := 502;
       body := JObject [("error", JString ("Agent returned " ++ print_int (Z.of_nat st)))] |}.
Proof.
  intros Hreq Hag Hst. rewrite (POST_valid env req p Hreq). cbv zeta. rewrite Hag.
  assert (Hok : ok st = false).
  { unfold ok. apply andb_false_iff.
    destruct Hst; [left; apply Nat.leb_gt | right; apply Nat.leb_gt]; assumption. }
  now rewrite Hok.
Qed.

Lemma POST_agent_not_ok_witness :
  fst (POST (Sample.env_with (Resolved 404 "Not Found")) (dq "{'prompt':'hi'}"))
  = {| status := 502; body := JObject [("error", JString "Agent returned 404")] |}.
Proof.
  apply (POST_agent_not_ok (Sample.env_with (Resolved 404 "Not Found"))
           (dq "{'prompt':'hi'}") "hi" 404 "Not Found").
  - exists (JObject [("prompt", JString "hi")]).
    split; [vm_compute; reflexivity | split; reflexivity].
  - reflexivity.
  - right. lia.
Defined.

(** X14: A JSON-RPC answer whose [error] is truthy is turned into 500 with that
    error's [message] when it is truthy, and with [Agent error] otherwise;
    the [result] of the answer is not looked at. *)
Theorem POST_rpc_error (env : Env) (req p : string) (st : nat) (txt : string)
    (rpcResult err : json) :
  asks req p ->
  agent env (A2A_AGENT_URL env) (stringify (rpcPayload env p)) = Resolved st txt ->
  200 <= st <= 299 ->
  parse txt = Some rpcResult ->
  get "error" rpcResult = Some err -> truthy err = true ->
  fst (POST env req)
  = {| status := 500;
       body := JObject [("error",
                         match get "message" err with
                         | Some m => if truthy m then m else JString "Agent error"
                         | None => JString "Agent error"
                         end)] |}.
Proof.
  intros Hreq Hag [Hlo Hhi] Htxt Herr Ht.
  rewrite (POST_valid env req p Hreq). cbv zeta. rewrite Hag.
  assert (Hok : ok st = true).
  { unfold ok. apply andb_true_iff. split; apply Nat.leb_le; assumption. }
  rewrite Hok, Htxt. cbn [negb fst]. unfold respond, respond_with.
  destruct rpcResult; try discriminate Herr.
  rewrite Herr. cbn [truthy_opt]. rewrite Ht. cbn [get_opt].
  unfold or_else, error_response.
  destruct (get "message" err) as [m|]; [| reflexivity].
  cbn [truthy_opt]. destruct (truthy m); reflexivity.
Qed.

Lemma POST_rpc_error_witness :
  fst (POST (Sample.env_with
               (Resolved 200 (dq "{'error':{'code':-32603},'result':{'message':{'parts':[]}}}")))
         (dq "{'prompt':'hi'}"))
  = {| status := 500; body := JObject [("error", JString "Agent error")] |}.
Proof.
  apply (POST_rpc_error
           (Sample.env_with
              (Resolved 200 (dq "{'error':{'code':-32603},'result':{'message':{'parts':[]}}}")))
           (dq "{'prompt':'hi'}") "hi" 200
           (dq "{'error':{'code':-32603},'result':{'message':{'parts':[]}}}")
           (JObject [("error", JObject [("code", JNumber (-32603)%Z 0%Z)]);
                     ("result", JObject [("message", JObject [("parts", JArray [])])])])
           (JObject [("code", JNumber (-32603)%Z 0%Z)])).
  - exists (JObject [("prompt", JString "hi")]).
    split; [vm_compute; reflexivity | split; reflexivity].
  - reflexivity.
  - lia.
  - vm_compute; reflexivity.
  - reflexivity.
  - reflexivity.
Defined.

Lemma to_parts_null (l : list json) : In JNull l -> to_parts l = None.
Proof.
  induction l as [|x l IH]; [intros [] |].
  intros [-> | H]; [reflexivity |].
  cbn [to_parts]. rewrite (IH H). now destruct (to_part x).
Qed.

(** X15: One [null] among the parts of an answer makes the whole answer a 500:
    the messages and the text of the other parts are lost. *)
Theorem respond_null_part (env : Env) (l : list json) :
  In JNull l ->
  status (respond env (agent_answer l)) = 500
  /\ get "messages" (body (respond env (agent_answer l))) = None.
Proof.
  intros Hin. unfold respond, respond_with, agent_answer.
  cbn [get lookup String.eqb Ascii.eqb Bool.eqb truthy_opt].
  assert (Hparts : parts_of (Some (JObject [("message", JObject [("parts", JArray l)])]))
                   = JArray l).
  { destruct l; [destruct Hin | reflexivity]. }
  cbn [get lookup String.eqb Ascii.eqb Bool.eqb truthy_opt] in *.
  rewrite Hparts. cbn [iterate]. rewrite (to_parts_null l Hin). split; reflexivity.
Qed.

Lemma respond_null_part_witness :
  status (respond (Sample.env_with (Resolved 200 EmptyString))
            (agent_answer [JObject [("kind", JString "text"); ("text", JString "Hello")];
                           JNull])) = 500
  /\ get "messages"
       (body (respond (Sample.env_with (Resolved 200 EmptyString))
                (agent_answer [JObject [("kind", JString "text"); ("text", JString "Hello")];
                               JNull]))) = None.
Proof.
  apply (respond_null_part (Sample.env_with (Resolved 200 EmptyString))
           [JObject [("kind", JString "text"); ("text", JString "Hello")]; JNull]).
  right. left. reflexivity.
Defined.

(** X16: An answer without [error] and without [result] is no failure: it gives
    200 with no message and an empty text. *)
Theorem respond_no_result (env : Env) (rpcResult : json) :
  rpcResult <> JNull ->
  truthy_opt (get "error" rpcResult) = false ->
  get "result" rpcResult = None ->
  status (respond env rpcResult) = 200
  /\ get "messages" (body (respond env rpcResult)) = Some (JArray [])
  /\ get "text" (body (respond env rpcResult)) = Some (JString EmptyString).
Proof.
  intros Hn He Hr. unfold respond, respond_with.
  destruct rpcResult; try congruence; rewrite He, Hr;
    cbn; destruct (development env); repeat split.
Qed.

Lemma respond_no_result_witness :
  status (respond (Sample.env_with (Resolved 200 EmptyString))
            (JObject [("jsonrpc", JString "2.0"); ("id", JString "req-1")])) = 200
  /\ get "messages" (body (respond (Sample.env_with (Resolved 200 EmptyString))
                             (JObject [("jsonrpc", JString "2.0"); ("id", JString "req-1")])))
     = Some (JArray [])
  /\ get "text" (body (respond (Sample.env_with (Resolved 200 EmptyString))
                         (JObject [("jsonrpc", JString "2.0"); ("id", JString "req-1")])))
     = Some (JString EmptyString).
Proof.
  apply (respond_no_result (Sample.env_with (Resolved 200 EmptyString))
           (JObject [("jsonrpc", JString "2.0"); ("id", JString "req-1")]));
    [discriminate | reflexivity | reflexivity].
Defined.

End HandlerFacts.

(** ** The other two handlers *)

Section OtherRouteFacts.
Import Json Route.

(** *** The route that forwards the thread *)

Lemma history_step (acc : Acc) (part : Part) : HistoryRoute.step acc part = step acc part.
Proof.
  unfold HistoryRoute.step, step, collect_data.
  destruct (is_string "data" (kind part)) eqn:Ek; cbn [andb]; [| reflexivity].
  assert (Ht : collect_text acc part = acc).
  { unfold collect_text. destruct (kind part) as [[| | |k| |]|]; try reflexivity.
    cbn [is_string] in Ek. apply String.eqb_eq in Ek as ->.
    destruct (text part) as [[| | |raw| |]|]; reflexivity. }
  rewrite Ht. reflexivity.
Qed.

Lemma history_fold (parts : list Part) (acc : Acc) :
  fold_left HistoryRoute.step parts acc = fold_left step parts acc.
Proof.
  revert acc. induction parts as [|p parts IH]; intros acc; [reflexivity |].
  cbn [fold_left]. now rewrite history_step, IH.
Qed.

(** X17: The two handlers go through the parts alike, although one leaves the
    loop body early on a data part; they give the same answer whenever the
    loop has found a message or the collected text holds no delimiter.  The
    handler that forwards the thread has no fallback for the other case. *)
Theorem history_route_same_answer (parts : list Part) :
  a2uiMessages (collect parts) <> []
  \/ Js.includes delimiter (textContent (collect parts)) = false ->
  HistoryRoute.normalize parts = normalize parts.
Proof.
  intros H. unfold HistoryRoute.normalize, normalize. rewrite history_fold.
  fold (collect parts). rewrite fallback_off; [reflexivity |].
  destruct H as [H | H]; [| rewrite H; apply andb_false_r].
  destruct (a2uiMessages (collect parts)); [congruence | reflexivity].
Qed.

Lemma history_route_same_answer_witness :
  HistoryRoute.normalize [text_part Sample.here_begin; data_part a2ui_mime (JString "second")]
  = normalize [text_part Sample.here_begin; data_part a2ui_mime (JString "second")].
Proof.
  apply history_route_same_answer. left. vm_compute. discriminate.
Defined.

(** X18: The handler that forwards the thread has no fallback.  For text
    parts none of which holds the delimiter it finds no message and keeps
    their texts put together - also when those hold the delimiter once put
    together, which is where the fallback of the current handler steps
    in. *)
Theorem history_route_no_fallback (raws : list string) :
  Forall (fun raw => Js.includes delimiter raw = false) raws ->
  HistoryRoute.normalize (map text_part raws)
  = {| a2uiMessages := []; textContent := strip_text_tag (joined raws) |}.
Proof.
  intros H. unfold HistoryRoute.normalize. rewrite history_fold.
  rewrite (fold_step_plain raws start H). reflexivity.
Qed.

Lemma history_route_no_fallback_witness :
  HistoryRoute.normalize (map text_part ["Here.---a2ui_"; "JSON---[1]"])
  = {| a2uiMessages := []; textContent := "Here.---a2ui_JSON---[1]" |}
  /\ normalize (map text_part ["Here.---a2ui_"; "JSON---[1]"])
     = {| a2uiMessages := [JNumber 1 0]; textContent := "Here." |}.
Proof.
  split; [| vm_compute; reflexivity].
  apply (history_route_no_fallback ["Here.---a2ui_"; "JSON---[1]"]).
  repeat constructor.
Defined.

(** X19: A request without [history], or with one that is falsy, is forwarded
    with an empty thread. *)
Theorem history_route_default (env : Env) (req p : string) (reqBody : json) :
  parse req = Some reqBody ->
  get "prompt" reqBody = Some (JString p) ->
  nonempty (Js.trim p) = true ->
  truthy_opt (get "history" reqBody) = false ->
  exists payload,
    snd (HistoryRoute.POST env req) = [(A2A_AGENT_URL env, stringify payload)]
    /\ HistoryRoute.conversationHistory payload = Some (JArray [])
    /\ sent_parts payload
       = Some (JArray [JObject [("kind", JString "text"); ("text", JString (Js.trim p))]]).
Proof.
  intros Hreq Hp Hne Hh.
  exists (HistoryRoute.rpcPayload env p (get "history" reqBody)).
  split; [| split; [| reflexivity]].
  - unfold HistoryRoute.POST. rewrite Hreq.
    assert (Hd : destructure_prompt reqBody = Some (Some (JString p))).
    { destruct reqBody; try discriminate Hp. unfold destructure_prompt. now rewrite Hp. }
    rewrite Hd, (valid_prompt_string p Hne). cbv zeta.
    destruct (agent env _ _) as [e | st txt].
    + destruct (match exn_cause_code e with Some _ => _ | None => _ end);
        [| destruct (String.eqb (exn_name e) "TimeoutError")]; reflexivity.
    + destruct (negb (ok st)); [reflexivity |]. destruct (parse txt); reflexivity.
  - unfold HistoryRoute.conversationHistory, HistoryRoute.rpcPayload,
      HistoryRoute.history_or_empty, or_else.
    cbn [get get_opt lookup String.eqb Ascii.eqb Bool.eqb].
    now rewrite Hh.
Qed.

Lemma history_route_default_witness :
  exists payload,
    snd (HistoryRoute.POST (Sample.env_with (Resolved 200 Sample.data_only))
           (dq "{'prompt':'hi','history':null}"))
    = [("http://localhost:10002", stringify payload)]
    /\ HistoryRoute.conversationHistory payload = Some (JArray [])
    /\ sent_parts payload
       = Some (JArray [JObject [("kind", JString "text"); ("text", JString "hi")]]).
Proof.
  apply (history_route_default (Sample.env_with (Resolved 200 Sample.data_only))
           (dq "{'prompt':'hi','history':null}") "hi"
           (JObject [("prompt", JString "hi"); ("history", JNull)]));
    [vm_compute; reflexivity | reflexivity | reflexivity | reflexivity].
Defined.

(** *** The earlier route *)

Lemma legacy_fold_text (raws : list string) (acc : Acc) :
  fold_left LegacyRoute.step (map text_part raws) acc
  = {| a2uiMessages := a2uiMessages acc; textContent := textContent acc ++ joined raws |}.
Proof.
  revert acc. induction raws as [|raw raws IH]; intros acc;
    cbn [map fold_left joined fold_right].
  - rewrite sapp_nil_r. now destruct acc.
  - rewrite IH. unfold LegacyRoute.step, LegacyRoute.collect_text, collect_data.
    cbn [text_part kind text mimeType data is_string String.eqb Ascii.eqb Bool.eqb orb andb
         a2uiMessages textContent].
    rewrite sapp_assoc. f_equal. f_equal. f_equal.
    unfold LegacyRoute.text_of. cbn [text_part text]. now destruct raw.
Qed.

(** X20: The earlier handler returns the text of the parts as the agent wrote
    it, delimiter and JSON included and untrimmed; its messages come from
    the one look the fallback takes at the whole text. *)
Theorem legacy_text_untouched (raws : list string) :
  LegacyRoute.normalize (map text_part raws)
  = {| a2uiMessages := if Js.includes delimiter (joined raws)
                       then embedded_messages (jsonPart_of (joined raws))
                       else [];
       textContent := joined raws |}.
Proof.
  unfold LegacyRoute.normalize, LegacyRoute.collect. rewrite legacy_fold_text.
  unfold LegacyRoute.fallback. cbn [start a2uiMessages textContent List.length Nat.eqb andb append].
  destruct (Js.includes delimiter (joined raws)); reflexivity.
Qed.

(** X21: For an answer of one text part both handlers find the same messages. *)
Theorem legacy_same_messages (raw : string) :
  a2uiMessages (LegacyRoute.normalize [text_part raw])
  = a2uiMessages (normalize [text_part raw]).
Proof.
  change [text_part raw] with (map text_part [raw]).
  rewrite legacy_text_untouched. cbn [a2uiMessages joined fold_right map].
  rewrite sapp_nil_r. unfold normalize, collect. cbn [fold_left a2uiMessages].
  destruct (Js.includes delimiter raw) eqn:Ei.
  - rewrite cut_includes in Ei.
    destruct (Js.cut delimiter raw) as [[b a]|] eqn:Ec; [| discriminate].
    destruct (pieces _ _ _ Ec) as (_ & Hb & Hj).
    rewrite (step_delimited start (text_part raw) raw b a (text_part_is_text raw) Ec).
    rewrite Hj, embedded_parsed.
    rewrite fallback_off; [reflexivity |].
    cbn [a2uiMessages textContent start append].
    rewrite (includes_trimEnd _ _ (cut_before_free _ _ _ _ delimiter_nonempty Ec)).
    apply andb_false_r.
  - rewrite (step_plain start (text_part raw) raw (text_part_is_text raw) Ei).
    rewrite fallback_off; [reflexivity |].
    cbn [a2uiMessages textContent start append]. rewrite Ei. reflexivity.
Qed.

(** X22: The earlier handler does not tell a refused connection or an expired
    time limit from other failures: every rejection is answered with 500
    and the message of the error. *)
Theorem legacy_rejected (env : Env) (req p : string) (e : Exn) :
  asks req p ->
  agent env (A2A_AGENT_URL env) (stringify (LegacyRoute.rpcPayload env p)) = Rejected e ->
  fst (LegacyRoute.POST env req)
  = {| status := 500; body := JObject [("error", JString (exn_message e))] |}.
Proof.
  intros (reqBody & Hreq & Hp & Hne) Hag. unfold LegacyRoute.POST. rewrite Hreq.
  assert (Hd : destructure_prompt reqBody = Some (Some (JString p))).
  { destruct reqBody; try discriminate Hp. unfold destructure_prompt. now rewrite Hp. }
  rewrite Hd, (valid_prompt_string p Hne). cbv zeta. now rewrite Hag.
Qed.

Lemma legacy_rejected_witness :
  fst (LegacyRoute.POST (Sample.env_with (Rejected Sample.refused)) (dq "{'prompt':'hi'}"))
  = {| status := 500; body := JObject [("error", JString "fetch failed")] |}.
Proof.
  apply (legacy_rejected (Sample.env_with (Rejected Sample.refused))
           (dq "{'prompt':'hi'}") "hi" Sample.refused).
  - exists (JObject [("prompt", JString "hi")]).
    split; [vm_compute; reflexivity | split; reflexivity].
  - reflexivity.
Defined.

End OtherRouteFacts.

(** ** Sessions *)

Section SessionFacts.
Import Json Page.

Lemma outcome_produced (r : Route.FetchResult) (messages : json) (text : option json) :
  outcome r = Produced messages text -> no_messages (Some messages) = false.
Proof.
  unfold outcome. destruct r as [e | st txt]; [discriminate |].
  destruct (negb (Route.ok st)); [discriminate |].
  destruct (parse txt) as [data|]; [| discriminate].
  destruct data; try discriminate;
    (destruct (truthy_opt (get "error" _)); [discriminate |]);
    (destruct (no_messages (get "messages" _)) eqn:E; [discriminate |]);
    (destruct (get "messages" _) as [m|]; [| discriminate]);
    intros [= <- _]; exact E.
Qed.

Lemma paired_pair (p : string) (messages : json) (text : option json) :
  Route.nonempty (Js.trim p) = true -> no_messages (Some messages) = false ->
  paired (pair_of (Js.trim p) messages text).
Proof.
  intros Hp Hm. cbn [paired pair_of role content].
  repeat split; try assumption; [apply trim_idem |].
  exists messages, text. now split.
Qed.

Lemma paired_app (a b : list HistoryTurn) : paired a -> paired b -> paired (a ++ b).
Proof.
  intros Ha Hb.
  assert (H : forall n (a : list HistoryTurn), List.length a <= n -> paired a ->
                                                paired (a ++ b)%list).
  { clear a Ha. induction n as [|n IH]; intros a Hl Ha.
    - destruct a; [exact Hb | simpl in Hl; lia].
    - destruct a as [|u [|t rest]]; [exact Hb | destruct Ha |].
      cbn [paired app] in *. destruct Ha as (H1 & H2 & H3 & H4 & H5 & H6).
      repeat split; try assumption. apply IH; [simpl in Hl; lia | exact H6]. }
  exact (H (List.length a) a (le_n _) Ha).
Qed.

(** X23: On every state a session reaches the thread is made of pairs: a user
    turn whose content is a trimmed prompt that is not empty, followed by
    an assistant turn whose content was built from an answer that held
    messages. *)
Theorem reachable_paired (st : State) : reachable st -> paired (history st).
Proof.
  induction 1 as [|server st e Hr IH]; [exact I |].
  unfold handle. destruct (offered st e) eqn:Ho; [| exact IH].
  destruct e as [v | p | p | ].
  - exact IH.
  - destruct (Route.nonempty (Js.trim p)) eqn:Hp;
      [| rewrite submit_blank by exact Hp; exact IH].
    destruct (offered_turn st (Generate p) p false Ho eq_refl) as [Hs _].
    rewrite submit_runs by (exact Hp || now rewrite Hs).
    cbn [historyToSend]. destruct (outcome _) eqn:Eo; cbn [history app]; [| exact I].
    apply paired_pair; [exact Hp | exact (outcome_produced _ _ _ Eo)].
  - destruct (Route.nonempty (Js.trim p)) eqn:Hp;
      [| rewrite submit_blank by exact Hp; exact IH].
    destruct (offered_turn st (Refine p) p true Ho eq_refl) as [Hs _].
    rewrite submit_runs by (exact Hp || now rewrite Hs).
    cbn [historyToSend]. destruct (outcome _) eqn:Eo; cbn [history]; [| exact IH].
    apply paired_app; [exact IH |].
    apply paired_pair; [exact Hp | exact (outcome_produced _ _ _ Eo)].
  - exact I.
Qed.

Lemma reachable_paired_witness : paired (history Sample.one_turn).
Proof.
  apply reachable_paired.
  exact (reach_handle (served_by (Sample.env_with (Route.Resolved 200 Sample.data_only)))
           initial (Generate "Build a contact form") reach_initial).
Defined.

(** X24: On the rendered screen the thread ends with the turn on screen: the
    last prompt, and the assistant content built from the very messages the
    renderer is given, which are there. *)
Theorem rendered_screen (st : State) :
  reachable st -> state st = rendered ->
  no_messages (Some (a2uiMessages st)) = false
  /\ exists sent text,
       history st = (sent ++ pair_of (lastPrompt st) (a2uiMessages st) text)%list.
Proof.
  induction 1 as [|server st e Hr IH]; [discriminate |].
  unfold handle. destruct (offered st e) eqn:Ho; [| exact IH].
  destruct e as [v | p | p | ].
  - unfold offered in Ho. destruct (state st) eqn:Es; try discriminate Ho.
    cbn [setInput state]. rewrite Es. discriminate.
  - destruct (Route.nonempty (Js.trim p)) eqn:Hp;
      [| rewrite submit_blank by exact Hp; exact IH].
    destruct (offered_turn st (Generate p) p false Ho eq_refl) as [Hs _].
    rewrite submit_runs by (exact Hp || now rewrite Hs).
    cbv zeta. destruct (outcome _) eqn:Eo; cbn [state]; [| discriminate].
    intros _. cbn [a2uiMessages history lastPrompt].
    split; [exact (outcome_produced _ _ _ Eo) |]. eexists _, _. reflexivity.
  - destruct (Route.nonempty (Js.trim p)) eqn:Hp;
      [| rewrite submit_blank by exact Hp; exact IH].
    destruct (offered_turn st (Refine p) p true Ho eq_refl) as [Hs _].
    rewrite submit_runs by (exact Hp || now rewrite Hs).
    cbv zeta. destruct (outcome _) eqn:Eo; cbn [state]; [| discriminate].
    intros _. cbn [a2uiMessages history lastPrompt].
    split; [exact (outcome_produced _ _ _ Eo) |]. eexists _, _. reflexivity.
  - discriminate.
Qed.

Lemma rendered_screen_witness :
  no_messages (Some (a2uiMessages Sample.one_turn)) = false
  /\ exists sent text,
       history Sample.one_turn
       = (sent ++ pair_of (lastPrompt Sample.one_turn) (a2uiMessages Sample.one_turn) text)%list.
Proof.
  apply rendered_screen.
  - exact (reach_handle (served_by (Sample.env_with (Route.Resolved 200 Sample.data_only)))
             initial (Generate "Build a contact form") reach_initial).
  - vm_compute. reflexivity.
Defined.

Lemma POST_status (env : Route.Env) (req : string) :
  In (Route.status (fst (Route.POST env req))) [200; 400; 500; 502; 503; 504].
Proof.
  unfold Route.POST.
  destruct (parse req) as [reqBody|]; [| simpl; tauto].
  destruct (Route.destructure_prompt reqBody) as [field|]; [| simpl; tauto].
  destruct (Route.valid_prompt field) as [p|]; [| simpl; tauto].
  cbv zeta.
  destruct (Route.agent env _ _) as [e | st txt].
  - destruct (match Route.exn_cause_code e with Some _ => _ | None => _ end);
      [| destruct (String.eqb (Route.exn_name e) "TimeoutError")]; simpl; tauto.
  - destruct (negb (Route.ok st)); [simpl; tauto |].
    destruct (parse txt) as [rpcResult|]; [| simpl; tauto].
    cbn [fst]. destruct (respond_shape env rpcResult) as [[Hs _] | [Hs _]];
      rewrite Hs; simpl; tauto.
Qed.

(** X25: When the route answers with an error, the page shows the status and
    nothing else: the error screen reads [Server error: <status>], and the
    explanation the route has put into the body of its answer is never
    read. *)
Theorem page_shows_status_only (env : Route.Env) (st : State) (p : string)
    (isRefinement : bool) :
  Route.nonempty (Js.trim p) = true ->
  is_thinking (state st) = false ->
  Route.status (fst (Route.POST env (request_body (Js.trim p)
                                       (historyToSend isRefinement st)))) <> 200 ->
  state (submit (served_by env) st p isRefinement) = error
  /\ errorMsg (submit (served_by env) st p isRefinement)
     = "Server error: "
       ++ print_int (Z.of_nat (Route.status
                                 (fst (Route.POST env (request_body (Js.trim p)
                                                         (historyToSend isRefinement st)))))).
Proof.
  intros Hp Ht Hs. rewrite (submit_runs _ st p isRefinement Hp Ht). cbv zeta.
  unfold served_by.
  set (r := fst (Route.POST env _)) in *.
  assert (Hok : Route.ok (Route.status r) = false).
  { pose proof (POST_status env (request_body (Js.trim p) (historyToSend isRefinement st)))
      as Hin. fold r in Hin.
    cbn [In] in Hin.
    destruct Hin as [H | [H | [H | [H | [H | [H | []]]]]]]; rewrite <- H in *;
      [congruence | reflexivity ..]. }
  rewrite (outcome_not_ok _ _ Hok). split; reflexivity.
Qed.

Lemma page_shows_status_only_witness :
  state (submit (served_by (Sample.env_with (Route.Rejected Sample.refused))) initial
           "Build a contact form" false) = error
  /\ errorMsg (submit (served_by (Sample.env_with (Route.Rejected Sample.refused))) initial
                 "Build a contact form" false) = "Server error: 503".
Proof.
  pose proof (page_shows_status_only (Sample.env_with (Route.Rejected Sample.refused)) initial
                "Build a contact form" false) as H.
  assert (Hp : Route.nonempty (Js.trim "Build a contact form") = true)
    by (vm_compute; reflexivity).
  assert (Hs : Route.status
                 (fst (Route.POST (Sample.env_with (Route.Rejected Sample.refused))
                         (request_body (Js.trim "Build a contact form")
                            (historyToSend false initial)))) <> 200)
    by (vm_compute; discriminate).
  specialize (H Hp eq_refl Hs). vm_compute in H. vm_compute. exact H.
Defined.

(** X26: What the page sends always passes the validation of the route: the
    request is never answered with 400, and it reaches the agent with the
    prompt the page has trimmed. *)
Theorem page_request_accepted (env : Route.Env) (st st1 : State) (p : string)
    (isRefinement : bool) :
  submit_start st p isRefinement = Some st1 ->
  Route.status (fst (Route.POST env (request_body (Js.trim p)
                                       (historyToSend isRefinement st)))) <> 400
  /\ snd (Route.POST env (request_body (Js.trim p) (historyToSend isRefinement st)))
     = [(Route.A2A_AGENT_URL env, stringify (Route.rpcPayload env (Js.trim p)))]
  /\ Route.sent_parts (Route.rpcPayload env (Js.trim p))
     = Some (JArray [JObject [("kind", JString "text"); ("text", JString (Js.trim p))]]).
Proof.
  intros Hstart. unfold submit_start in Hstart.
  destruct (Route.nonempty (Js.trim p)) eqn:Hp; [| discriminate Hstart].
  assert (Hreq : Route.asks (request_body (Js.trim p) (historyToSend isRefinement st)) (Js.trim p)).
  { apply asks_request_body. now rewrite trim_idem. }
  split; [exact (POST_accepted env _ _ Hreq) | split; [exact (POST_call env _ _ Hreq) |]].
  unfold Route.sent_parts, Route.rpcPayload.
  cbn [get get_opt lookup String.eqb Ascii.eqb Bool.eqb]. now rewrite trim_idem.
Qed.

Lemma page_request_accepted_witness :
  Route.status (fst (Route.POST (Sample.env_with (Route.Resolved 200 Sample.data_only))
                       (request_body (Js.trim "  add a phone field ")
                          (historyToSend true Sample.one_turn)))) <> 400
  /\ snd (Route.POST (Sample.env_with (Route.Resolved 200 Sample.data_only))
            (request_body (Js.trim "  add a phone field ") (historyToSend true Sample.one_turn)))
     = [(Route.A2A_AGENT_URL (Sample.env_with (Route.Resolved 200 Sample.data_only)),
         stringify (Route.rpcPayload (Sample.env_with (Route.Resolved 200 Sample.data_only))
                      (Js.trim "  add a phone field ")))]
  /\ Route.sent_parts (Route.rpcPayload (Sample.env_with (Route.Resolved 200 Sample.data_only))
                   (Js.trim "  add a phone field "))
     = Some (JArray [JObject [("kind", JString "text");
                              ("text", JString (Js.trim "  add a phone field "))]]).
Proof.
  assert (Hs : exists st1, submit_start Sample.one_turn "  add a phone field " true = Some st1)
    by (eexists; vm_compute; reflexivity).
  destruct Hs as [st1 Hs].
  exact (page_request_accepted (Sample.env_with (Route.Resolved 200 Sample.data_only))
           Sample.one_turn st1 "  add a phone field " true Hs).
Defined.

End SessionFacts.

(** ** The thread and the normaliser *)

Section ThreadFormat.
Import Json Route.

Lemma startsWith_past (p s x : string) (c : ascii) :
  Js.lacks c p = true -> Js.startsWith p s = false ->
  Js.startsWith p (s ++ String c x) = false.
Proof.
  revert s. induction p as [|a p IH]; intros s Hl H; [discriminate H |].
  cbn [Js.lacks] in Hl. apply andb_true_iff in Hl as [Ha Hl].
  destruct s as [|b s]; cbn [append Js.startsWith] in *.
  - apply negb_true_iff in Ha. now rewrite Ha.
  - destruct (Ascii.eqb a b); [| reflexivity]. cbn [andb] in *. now apply IH.
Qed.

(** The first delimiter of a text that has a line feed and the delimiter
    after a part without delimiter. *)
Lemma cut_after_line (t rest : string) :
  Js.includes delimiter t = false ->
  Js.cut delimiter (t ++ String (ascii_of_nat 10) (delimiter ++ rest))
  = Some (t ++ String (ascii_of_nat 10) EmptyString, rest).
Proof.
  induction t as [|c t IH]; intros H.
  - cbn [append]. change (Js.cut delimiter (String (ascii_of_nat 10) (delimiter ++ rest)))
      with (match Js.cut delimiter (delimiter ++ rest) with
            | Some (b, a) => Some (String (ascii_of_nat 10) b, a)
            | None => None
            end).
    assert (Hc : Js.cut delimiter (delimiter ++ rest) = Some (EmptyString, rest)).
    { pose proof (startsWith_app delimiter rest) as Hs.
      pose proof (drop_app delimiter rest) as Hd.
      destruct (delimiter ++ rest) eqn:E; [discriminate Hs |].
      cbn [Js.cut]. rewrite Hs. now rewrite Hd. }
    now rewrite Hc.
  - cbn [Js.includes] in H. apply orb_false_iff in H as [Hs Hi].
    pose proof (startsWith_past delimiter (String c t) (delimiter ++ rest) (ascii_of_nat 10)
                  eq_refl Hs) as Hp.
    cbn [append] in Hp |- *.
    change (Js.cut delimiter (String c (t ++ String (ascii_of_nat 10) (delimiter ++ rest))))
      with (if Js.startsWith delimiter
                 (String c (t ++ String (ascii_of_nat 10) (delimiter ++ rest)))
            then Some (EmptyString,
                       Js.drop (String.length delimiter)
                         (String c (t ++ String (ascii_of_nat 10) (delimiter ++ rest))))
            else match Js.cut delimiter (t ++ String (ascii_of_nat 10) (delimiter ++ rest)) with
                 | Some (b, a) => Some (String c b, a)
                 | None => None
                 end).
    now rewrite Hp, (IH Hi).
Qed.

Lemma chop_end_bracket (x : string) :
  Js.chop_end false "```" (x ++ "]") = None.
Proof.
  induction x as [|c x IH].
  - reflexivity.
  - cbn [append]. cbn [Js.chop_end]. rewrite IH.
    destruct (String.length (String c (x ++ "]")) =? String.length "```") eqn:E;
      [| reflexivity].
    destruct x as [|c1 [|c2 x]]; try discriminate E.
    + cbn. now rewrite !andb_false_r.
    + cbn in E. rewrite slength_app in E. cbn in E.
      apply Nat.eqb_eq in E. lia.
Qed.

(** The JSON text of an array, after a line feed, is cleaned to itself. *)
Lemma array_text (l : list json) :
  stringify (JArray l) = ("[" ++ join_with stringify l) ++ "]".
Proof. cbn [stringify]. now rewrite sapp_assoc. Qed.

Lemma clean_array (l : list json) :
  clean (String (ascii_of_nat 10) (stringify (JArray l))) = stringify (JArray l).
Proof.
  assert (Ht : Js.trim (String (ascii_of_nat 10) (stringify (JArray l)))
               = stringify (JArray l)).
  { pose proof (trim_core (String (ascii_of_nat 10) EmptyString) (stringify (JArray l))
                  EmptyString eq_refl eq_refl) as H.
    rewrite sapp_nil_r in H. apply H.
    - reflexivity.
    - rewrite array_text. apply trimEnd_last. reflexivity. }
  rewrite clean_unfenced; [exact Ht |].
  unfold unfenced. rewrite Ht. split; [reflexivity |].
  rewrite array_text. apply chop_end_bracket.
Qed.

(** X27: The content the page stores for an assistant turn with a text is in the
    format the route reads: given back as a text part it yields the
    messages of the turn.  This holds when neither the text nor the JSON
    text of the messages holds the delimiter.  The content of a turn
    without text holds no delimiter, and no message is found in it. *)
Theorem thread_content_reads_back (messages : list json) (t : string) :
  Js.includes delimiter (stringify (JArray messages)) = false ->
  (t <> EmptyString -> Js.includes delimiter t = false ->
   a2uiMessages (normalize [text_part (Page.assistantContent (JArray messages)
                                         (Some (JString t)))])
   = messages)
  /\ a2uiMessages (normalize [text_part (Page.assistantContent (JArray messages) None)]) = [].
Proof.
  intros Hj. split.
  - intros Hne Ht. unfold Page.assistantContent.
    destruct t as [|c t]; [congruence |].
    cbn [truthy String.eqb negb Page.to_string].
    set (raw := String c t ++ _).
    assert (Hcut : Js.cut delimiter raw
                   = Some (String c t ++ String (ascii_of_nat 10) EmptyString,
                           String (ascii_of_nat 10) (stringify (JArray messages)))).
    { apply cut_after_line. exact Ht. }
    unfold normalize, collect. cbn [fold_left a2uiMessages].
    rewrite (step_delimited start (text_part raw) raw _ _ (text_part_is_text raw) Hcut).
    rewrite candidate_whole by (cbn [Js.includes Js.startsWith]; rewrite Hj; reflexivity).
    rewrite clean_array.
    destruct (parsed_messages_cases (stringify (JArray messages))) as (Ha & _ & _).
    rewrite (Ha messages (parse_stringify _)).
    rewrite fallback_off; [reflexivity |].
    pose proof (includes_trimEnd _ _ (cut_before_free _ _ _ _ delimiter_nonempty Hcut)) as Hb.
    cbn [a2uiMessages textContent start append] in Hb |- *.
    rewrite Hb. apply andb_false_r.
  - unfold Page.assistantContent, normalize, collect. cbn [fold_left a2uiMessages].
    rewrite (step_plain start (text_part _) _ (text_part_is_text _) Hj).
    rewrite fallback_off; [reflexivity |].
    cbn [a2uiMessages textContent start append]. rewrite Hj. reflexivity.
Qed.

Lemma thread_content_reads_back_witness :
  a2uiMessages (normalize [text_part (Page.assistantContent (JArray [Sample.begin_s1_message])
                                        (Some (JString "Here.")))])
  = [Sample.begin_s1_message].
Proof.
  destruct (thread_content_reads_back [Sample.begin_s1_message] "Here.") as [H _].
  - vm_compute. reflexivity.
  - apply H; [discriminate | vm_compute; reflexivity].
Defined.

End ThreadFormat.

(** ** The renderer *)

Section RendererFacts.
Import Json Page.

Lemma find_begin_split (l : list json) (m : json) :
  find_begin l = Some (Some m) ->
  exists before after,
    l = (before ++ m :: after)%list
    /\ Forall (fun x => find_begin [x] = Some None) before
    /\ exists v, get "beginRendering" m = Some v.
Proof.
  induction l as [|x l IH]; [discriminate |].
  cbn [find_begin].
  destruct x as [| b | n e | str | arr | o]; try discriminate.
  - intros H. destruct (IH H) as (before & after & -> & Hb & Hv).
    exists (JArray arr :: before), after. repeat split; [| exact Hv].
    constructor; [reflexivity | exact Hb].
  - destruct (lookup "beginRendering" o) as [v|] eqn:E.
    + intros [= <-]. exists [], l. repeat split; [constructor |]. exists v. exact E.
    + intros H. destruct (IH H) as (before & after & -> & Hb & Hv).
      exists (JObject o :: before), after. repeat split; [| exact Hv].
      constructor; [| exact Hb]. cbn [find_begin]. now rewrite E.
Qed.

(** X28: Whatever the processor does with the messages, the renderer hands a
    surface to the [a2ui-surface] element only when the messages hold an
    object with a truthy [beginRendering]; the surface is the one the
    processor holds under the [surfaceId] read from the first message with a
    [beginRendering] property, whatever the type of that id, and every
    message before that one is an object without the property or an
    array. *)
Theorem renderer_surface_origin {S : Type}
    (process : list json -> option json -> option S) (l : list json) (s : S) :
  rendered_surface_with process (JArray l) = Some s ->
  exists before m after b,
    l = (before ++ m :: after)%list
    /\ Forall (fun x => find_begin [x] = Some None) before
    /\ get "beginRendering" m = Some b /\ truthy b = true
    /\ process l (get "surfaceId" b) = Some s.
Proof.
  unfold rendered_surface_with. destruct l as [|x l']; [discriminate |].
  set (l := x :: l') in *.
  destruct (find_begin l) as [[m|]|] eqn:Ef; try discriminate.
  destruct (find_begin_split l m Ef) as (before & after & Hl & Hb & b & Hg).
  rewrite Hg. cbn [truthy_opt get_opt].
  destruct (truthy b) eqn:Et; [| discriminate].
  intros H. exists before, m, after, b. repeat split; assumption.
Qed.

Lemma renderer_surface_origin_witness :
  exists before m after b,
    [JObject [("surfaceUpdate", JObject [("surfaceId", JString "s1")])];
     Sample.begin_s1_message]
    = (before ++ m :: after)%list
    /\ Forall (fun x => find_begin [x] = Some None) before
    /\ get "beginRendering" m = Some b /\ truthy b = true
    /\ Sample.last_begin
         [JObject [("surfaceUpdate", JObject [("surfaceId", JString "s1")])];
          Sample.begin_s1_message]
         (get "surfaceId" b)
       = Some (JObject [("surfaceId", JString "s1"); ("root", JString "r1")]).
Proof.
  apply (renderer_surface_origin Sample.last_begin).
  vm_compute. reflexivity.
Defined.

(** X29: A message that is neither an object nor an array - [null], a number, a
    string, a boolean - in front of the first message with a
    [beginRendering] property stops the renderer: nothing is mounted,
    whatever follows. *)
Theorem renderer_stops_on_primitive {S : Type}
    (process : list json -> option json -> option S)
    (before after : list json) (x : json) :
  Forall (fun y => find_begin [y] = Some None) before ->
  (forall a, x <> JArray a) -> (forall o, x <> JObject o) ->
  rendered_surface_with process (JArray (before ++ x :: after)) = None.
Proof.
  intros Hb Ha Ho.
  assert (Hf : find_begin (before ++ x :: after) = None).
  { induction Hb as [|y before Hy _ IH].
    - cbn [app find_begin]. destruct x; try reflexivity; [elim (Ha l) | elim (Ho l)]; reflexivity.
    - cbn [app find_begin] in *.
      destruct y as [| | | |arr|o]; try discriminate Hy; [exact IH |].
      destruct (lookup "beginRendering" o); [discriminate Hy | exact IH]. }
  unfold rendered_surface_with.
  destruct (before ++ x :: after)%list eqn:E; [reflexivity |]. now rewrite Hf.
Qed.

Lemma renderer_stops_on_primitive_witness :
  rendered_surface_with Sample.last_begin
    (JArray ([] ++ JNull :: [Sample.begin_s1_message])) = None.
Proof.
  apply (renderer_stops_on_primitive Sample.last_begin [] [Sample.begin_s1_message] JNull);
    [constructor | discriminate | discriminate].
Defined.

End RendererFacts.
